(** * TMVA_Models_Reduced.C: the toy time-series generator and the
      RNN booking macro

    A shallow embedding of [RNN/TMVA/TMVA_Models_Reduced.C]:
    [MakeTimeData] (lines 40-135) and [TMVA_RNN_Classification]
    (lines 143-335).  The body of the macro ends with [BookMethod] at the
    brace of line 335; the calls that train, test and evaluate
    (lines 345-362) stand after it, outside any function, and are not part
    of the model.

    Conventions of the embedding.
    - C++ [int] values are [Z]; loop counters that index vectors are [nat].
    - [double] and [float] values are idealised as real numbers [R]; rounding
      and the narrowing from [double] to [float] are not modelled.
    - [std::vector<T>] is [list T], read with [!!] and written with
      [<[i:=x]>]; every subscript of the source is in range, as shown by the
      length lemmas below.
    - The ROOT file system is a [gmap string disk_file].
    - The random generator ([gRandom]), [TH1::FillRandom] and the seeding call
      belong to ROOT, not to this file; they are the fields of [RandomLib]. *)

From Stdlib Require Import Reals Lra ZArith Lia List Ascii.
From stdpp Require Import base strings list gmap pretty.

#[local] Open Scope Z_scope.

#[global] Instance R_inhabited : Inhabited R := populate 0%R.

(** ** Per-step Gaussian parameters (lines 77-86) *)

(** [TMath::Pi() * j / double(ntime)] *)
Definition phase (ntime : Z) (j : nat) : R :=
  (PI * INR j / IZR ntime)%R.

Definition mean1_at (ntime : Z) (j : nat) : R := (5 + 0.2 * sin (phase ntime j))%R.
Definition mean2_at (ntime : Z) (j : nat) : R := (5 + 0.2 * cos (phase ntime j))%R.
Definition sigma1_at (ntime : Z) (j : nat) : R := (4 + 0.3 * sin (phase ntime j))%R.
Definition sigma2_at (ntime : Z) (j : nat) : R := (4 + 0.3 * cos (phase ntime j))%R.

Record StepParams := {
  mean1 : list R;
  mean2 : list R;
  sigma1 : list R;
  sigma2 : list R
}.

(** [std::vector<double> mean1(ntime)] and its three siblings: value
    initialised to zero. *)
Definition params_alloc (ntime : Z) : StepParams :=
  let z := replicate (Z.to_nat ntime) 0%R in
  {| mean1 := z; mean2 := z; sigma1 := z; sigma2 := z |}.

(** Body of the loop of lines 81-86. *)
Definition params_step (ntime : Z) (p : StepParams) (j : nat) : StepParams :=
  {| mean1 := <[j := mean1_at ntime j]> (mean1 p);
     mean2 := <[j := mean2_at ntime j]> (mean2 p);
     sigma1 := <[j := sigma1_at ntime j]> (sigma1 p);
     sigma2 := <[j := sigma2_at ntime j]> (sigma2 p) |}.

(** [for (int j = 0; j < ntime; ++j) { ... }] *)
Definition make_params (ntime : Z) : StepParams :=
  foldl (params_step ntime) (params_alloc ntime) (seq 0 (Z.to_nat ntime)).


(** ** ROOT objects used by the generator *)

(** [TF1]: a named formula with its parameter vector. *)
Record TF1 := mkTF1 { f_name : string; f_formula : string; f_params : list R }.

(** [new TF1(name, "gaus")]: the predefined Gaussian has three parameters
    (constant, mean, sigma); they are set before every use. *)
Definition TF1_new (name formula : string) : TF1 :=
  mkTF1 name formula [0%R; 0%R; 0%R].

(** [f->SetParameters(p0, p1, p2)] *)
Definition SetParameters (f : TF1) (p0 p1 p2 : R) : TF1 :=
  mkTF1 (f_name f) (f_formula f) [p0; p1; p2].

(** [TH1D]: fixed binning and one cell per bin, cell 0 being the underflow
    and cell [nbins+1] the overflow. *)
Record TH1 := mkTH1 {
  h_name : string; h_title : string;
  h_nbins : Z; h_xlow : R; h_xup : R;
  h_content : list R
}.

Definition zero_cells (nbins : Z) : list R := replicate (Z.to_nat (nbins + 2)) 0%R.

(** [new TH1D(name, title, nbins, xlow, xup)]; the generator reads the
    cells 1 to [nbins] only. *)
Definition TH1D (name title : string) (nbins : Z) (xlow xup : R) : TH1 :=
  mkTH1 name title nbins xlow xup (zero_cells nbins).

#[global] Instance TH1_inhabited : Inhabited TH1 := populate (TH1D "" "" 0 0 0).

(** [h->Reset()]: every cell back to zero, binning untouched. *)
Definition Reset (h : TH1) : TH1 :=
  mkTH1 (h_name h) (h_title h) (h_nbins h) (h_xlow h) (h_xup h) (zero_cells (h_nbins h)).

Definition set_content (c : list R) (h : TH1) : TH1 :=
  mkTH1 (h_name h) (h_title h) (h_nbins h) (h_xlow h) (h_xup h) c.

(** [h->GetBinContent(bin)] *)
Definition GetBinContent (h : TH1) (bin : nat) : R := default 0%R (h_content h !! bin).

(** The branch buffers of the generator: [x1] and [x2] are the two
    [std::vector<std::vector<float>>]; a branch keeps the address
    [&x1[i]] or [&x2[i]] it was booked with and reads it at every [Fill]. *)
Inductive Buffer := X1 | X2.

Record TBranch := mkTBranch {
  br_name : string; br_class : string; br_addr : Buffer * nat
}.

Record TTree := mkTTree {
  t_name : string; t_title : string;
  t_branches : list TBranch;
  t_entries : list (list (list R))
}.

Definition TTree_new (name title : string) : TTree := mkTTree name title [] [].

(** [t.Branch(name, classname, addr)] *)
Definition Branch (name cls : string) (addr : Buffer * nat) (t : TTree) : TTree :=
  mkTTree (t_name t) (t_title t) (t_branches t ++ [mkTBranch name cls addr]) (t_entries t).

Definition read_addr (x1 x2 : list (list R)) (a : Buffer * nat) : list R :=
  default [] ((match a.1 with X1 => x1 | X2 => x2 end) !! a.2).

(** [t.Fill()]: one entry, read through the booked addresses. *)
Definition TTree_Fill (x1 x2 : list (list R)) (t : TTree) : TTree :=
  mkTTree (t_name t) (t_title t) (t_branches t)
          (t_entries t ++ [(λ b, read_addr x1 x2 (br_addr b)) <$> t_branches t]).

(** Feature [k] of time step [j] of one entry. *)
Definition cell (e : list (list R)) (j k : nat) : option R :=
  e !! j ≫= (λ row, row !! k).

(** ** Files *)

Inductive disk_file :=
| Unreadable
| RootFile (keys : gmap string TTree).

(** [TFile::Open(name)] for reading: the keys of the file, or a null
    pointer. *)
Definition TFile_Open (fs : gmap string disk_file) (name : string)
  : option (gmap string TTree) :=
  match fs !! name with
  | Some (RootFile keys) => Some keys
  | _ => None
  end.

(** [!gSystem->AccessPathName(name)] *)
Definition file_exists (fs : gmap string disk_file) (name : string) : bool :=
  bool_decide (is_Some (fs !! name)).

(** ** What the macro does to the outside *)

Inductive Event :=
| Cout (s : string)
| CoutListOfVariables
| RootWarning (location msg : string)
| RootError (location msg : string)
| NewCanvas
| CanvasDivide (nx ny : Z)
| CanvasCd (pad : Z)
| HistDraw (h : TH1)
| PadUpdate
| TreePrint (name : string)
| PyInitialize
| EnableImplicitMT (n : Z)
| Setenv (var val : string)
| ConfigInstance
| NewFactory (job : string) (output : option string) (opts : string)
| NewDataLoader (name : string)
| AddVariablesArray (name : string) (size : Z)
| AddSignalTree (t : option TTree) (weight : R)
| AddBackgroundTree (t : option TTree) (weight : R)
| PrepareTrainingAndTestTree (cuts cutb opts : string)
| BookMethod (method title opts : string).

(** ** The random services of ROOT

    [lib_SetSeed seed e] is [gRandom->SetSeed(seed)]: the new generator
    state, which may draw on the machine's entropy [e];
    [lib_Gaus mean sigma] is [gRandom->Gaus(mean, sigma)];
    [lib_FillRandom f ntimes h] is [h->FillRandom(f, ntimes)], giving the new
    cells of [h]. *)
Record RandomLib := mkRandomLib {
  rng : Type;
  entropy : Type;
  lib_SetSeed : Z → entropy → rng * entropy;
  lib_Gaus : R → R → rng → R * rng;
  lib_FillRandom : TF1 → Z → TH1 → rng → list R * rng
}.

Definition TH1_FillRandom (L : RandomLib) (f : TF1) (ntimes : Z) (h : TH1) (r : rng L)
  : TH1 * rng L :=
  let '(c, r') := lib_FillRandom L f ntimes h r in (set_content c h, r').

Record World (L : RandomLib) := mkWorld {
  fs : gmap string disk_file;
  can_create : string → bool;
  gRandom : rng L;
  sys_entropy : entropy L;
  nthreads : Z;
  trace : list Event
}.
Arguments mkWorld {L}.
Arguments fs {L}.
Arguments can_create {L}.
Arguments gRandom {L}.
Arguments sys_entropy {L}.
Arguments nthreads {L}.
Arguments trace {L}.

(** [TFile f(name, "RECREATE")]: an empty file, when it can be created. *)
Definition recreate (can : string → bool) (name : string) (fs : gmap string disk_file)
  : gmap string disk_file :=
  if can name then <[name := RootFile ∅]> fs else fs.

(** ** MakeTimeData (lines 40-135) *)

(** [TString::Format("time_data_t%d_d%d.root", ntime, ndim)] *)
Definition fname (ntime ndim : Z) : string :=
  "time_data_t" +:+ pretty ntime +:+ "_d" +:+ pretty ndim +:+ ".root".

Section Generator.
Context (L : RandomLib).

(** The locals of [MakeTimeData] that the loops update. *)
Record Gen := mkGen {
  v1 : list TH1; v2 : list TH1;
  f1 : TF1; f2 : TF1;
  sgn : TTree; bkg : TTree;
  x1 : list (list R); x2 : list (list R);
  rnd : rng L;
  out : list Event
}.

Definition set_v1 (v : list TH1) (g : Gen) : Gen :=
  mkGen v (v2 g) (f1 g) (f2 g) (sgn g) (bkg g) (x1 g) (x2 g) (rnd g) (out g).
Definition set_v2 (v : list TH1) (g : Gen) : Gen :=
  mkGen (v1 g) v (f1 g) (f2 g) (sgn g) (bkg g) (x1 g) (x2 g) (rnd g) (out g).
Definition set_f1 (f : TF1) (g : Gen) : Gen :=
  mkGen (v1 g) (v2 g) f (f2 g) (sgn g) (bkg g) (x1 g) (x2 g) (rnd g) (out g).
Definition set_f2 (f : TF1) (g : Gen) : Gen :=
  mkGen (v1 g) (v2 g) (f1 g) f (sgn g) (bkg g) (x1 g) (x2 g) (rnd g) (out g).
Definition set_sgn (t : TTree) (g : Gen) : Gen :=
  mkGen (v1 g) (v2 g) (f1 g) (f2 g) t (bkg g) (x1 g) (x2 g) (rnd g) (out g).
Definition set_bkg (t : TTree) (g : Gen) : Gen :=
  mkGen (v1 g) (v2 g) (f1 g) (f2 g) (sgn g) t (x1 g) (x2 g) (rnd g) (out g).
Definition set_x1 (x : list (list R)) (g : Gen) : Gen :=
  mkGen (v1 g) (v2 g) (f1 g) (f2 g) (sgn g) (bkg g) x (x2 g) (rnd g) (out g).
Definition set_x2 (x : list (list R)) (g : Gen) : Gen :=
  mkGen (v1 g) (v2 g) (f1 g) (f2 g) (sgn g) (bkg g) (x1 g) x (rnd g) (out g).
Definition set_rnd (r : rng L) (g : Gen) : Gen :=
  mkGen (v1 g) (v2 g) (f1 g) (f2 g) (sgn g) (bkg g) (x1 g) (x2 g) r (out g).
Definition emit (e : Event) (g : Gen) : Gen :=
  mkGen (v1 g) (v2 g) (f1 g) (f2 g) (sgn g) (bkg g) (x1 g) (x2 g) (rnd g) (out g ++ [e]).

(** [gRandom->Gaus(mean, sigma)] on the generator held by [g]. *)
Definition Gaus (mean sigma : R) (g : Gen) : R * Gen :=
  let '(x, r) := lib_Gaus L mean sigma (rnd g) in (x, set_rnd r g).

(** Lines 104-108, one turn of the loop over [k]; [h1] and [h2] are the
    histograms [v1[j]] and [v2[j]]. *)
Definition feature_step (j : nat) (g : Gen) (k : nat) : Gen :=
  let h1 := v1 g !!! j in
  let h2 := v2 g !!! j in
  let '(n1, g) := Gaus 0 10 g in
  let g := set_x1 (alter (λ row, <[k := (GetBinContent h1 (k + 1) + n1)%R]> row) j (x1 g)) g in
  let '(n2, g) := Gaus 0 10 g in
  set_x2 (alter (λ row, <[k := (GetBinContent h2 (k + 1) + n2)%R]> row) j (x2 g)) g.

(** [h->FillRandom(fname, ntimes)] on the histogram in slot [j] of [v1]
    ([v2]), with the generator held by [g]. *)
Definition fill_v1 (ntimes : Z) (j : nat) (g : Gen) : Gen :=
  let '(h, r) := TH1_FillRandom L (f1 g) ntimes (v1 g !!! j) (rnd g) in
  set_rnd r (set_v1 (<[j := h]> (v1 g)) g).
Definition fill_v2 (ntimes : Z) (j : nat) (g : Gen) : Gen :=
  let '(h, r) := TH1_FillRandom L (f2 g) ntimes (v2 g !!! j) (rnd g) in
  set_rnd r (set_v2 (<[j := h]> (v2 g)) g).

(** Lines 92-109, one turn of the loop over [j]. *)
Definition time_step (p : StepParams) (ndim : Z) (g : Gen) (j : nat) : Gen :=
  let g := set_v1 (alter Reset j (v1 g)) g in
  let g := set_v2 (alter Reset j (v2 g)) g in
  let g := set_f1 (SetParameters (f1 g) 1 (mean1 p !!! j) (sigma1 p !!! j)) g in
  let g := set_f2 (SetParameters (f2 g) 1 (mean2 p !!! j) (sigma2 p !!! j)) g in
  let g := fill_v1 1000 j g in
  let g := fill_v2 1000 j g in
  foldl (feature_step j) g (seq 0 (Z.to_nat ndim)).

(** Lines 114-126: the canvas drawn when a single event is asked for. *)
Definition draw_pads (offset : Z) (v : list TH1) (g : Gen) (j : nat) : Gen :=
  emit (HistDraw (v !!! j)) (emit (CanvasCd (offset + Z.of_nat j + 1)) g).

Definition draw_canvas (ntime : Z) (g : Gen) : Gen :=
  let g := emit NewCanvas g in
  let g := emit (CanvasDivide ntime 2) g in
  let g := foldl (draw_pads 0 (v1 g)) g (seq 0 (Z.to_nat ntime)) in
  let g := foldl (draw_pads ntime (v2 g)) g (seq 0 (Z.to_nat ntime)) in
  emit PadUpdate g.

(** Lines 87-127, one turn of the loop over the events. *)
Definition event_step (n ntime ndim : Z) (p : StepParams) (g : Gen) (i : nat) : Gen :=
  let g := if decide (Z.of_nat i `rem` 1000 = 0)
           then emit (Cout ("Generating  event ... " +:+ pretty (Z.of_nat i))) g
           else g in
  let g := foldl (time_step p ndim) g (seq 0 (Z.to_nat ntime)) in
  let g := set_sgn (TTree_Fill (x1 g) (x2 g) (sgn g)) g in
  let g := set_bkg (TTree_Fill (x1 g) (x2 g) (bkg g)) g in
  if decide (n = 1) then draw_canvas ntime g else g.

(** Lines 45-75: the state in which the event loop starts.  The branches
    of [bkg] are booked on [x1] and those of [sgn] on [x2]
    (lines 69-70). *)
Definition book (b : Buffer) (t : TTree) (i : nat) : TTree :=
  Branch ("vars_time" +:+ pretty (Z.of_nat i)) "std::vector<float>" (b, i) t.

Definition gen_init (ntime ndim : Z) (r : rng L) : Gen :=
  let idx := seq 0 (Z.to_nat ntime) in
  {| v1 := (λ i, TH1D ("h1_" +:+ pretty (Z.of_nat i)) "h1" ndim 0 10) <$> idx;
     v2 := (λ i, TH1D ("h2_" +:+ pretty (Z.of_nat i)) "h2" ndim 0 10) <$> idx;
     f1 := TF1_new "f1" "gaus";
     f2 := TF1_new "f2" "gaus";
     sgn := foldl (book X2) (TTree_new "sgn" "sgn") idx;
     bkg := foldl (book X1) (TTree_new "bkg" "bkg") idx;
     x1 := replicate (Z.to_nat ntime) (replicate (Z.to_nat ndim) 0%R);
     x2 := replicate (Z.to_nat ntime) (replicate (Z.to_nat ndim) 0%R);
     rnd := r;
     out := [] |}.

(** Lines 128-134: the trees reach the file only here. *)
Definition write_trees (name : string) (can : string → bool) (g : Gen)
    (fs : gmap string disk_file) : gmap string disk_file :=
  if can name
  then <[name := RootFile (<["bkg" := bkg g]> (<["sgn" := sgn g]> ∅))]> fs
  else fs.

(** A negative [ntime] makes [std::vector<TH1*> v1(ntime)] throw
    [std::length_error], and so does a negative [ndim] in
    [std::vector<float>(ndim)] once [ntime] is positive: [None]. *)
Definition MakeTimeData_run (n ntime ndim : Z) (w : World L) : option (Gen * World L) :=
  if decide (ntime < 0 ∨ (0 < ntime ∧ ndim < 0)) then None else
  let file := fname ntime ndim in
  let fs1 := recreate (can_create w) file (fs w) in
  let '(r, e) := lib_SetSeed L 0 (sys_entropy w) in
  let p := make_params ntime in
  let g := foldl (event_step n ntime ndim p) (gen_init ntime ndim r) (seq 0 (Z.to_nat n)) in
  let '(g, fs2) :=
    if decide (1 < n)
    then (emit (TreePrint "bkg") (emit (TreePrint "sgn") g),
          write_trees file (can_create w) g fs1)
    else (g, fs1) in
  Some (g, mkWorld fs2 (can_create w) (rnd g) e (nthreads w) (trace w ++ out g)).

Definition MakeTimeData (n ntime ndim : Z) (w : World L) : option (World L) :=
  snd <$> MakeTimeData_run n ntime ndim w.
End Generator.

Arguments v1 {L}.
Arguments v2 {L}.
Arguments f1 {L}.
Arguments f2 {L}.
Arguments sgn {L}.
Arguments bkg {L}.
Arguments x1 {L}.
Arguments x2 {L}.
Arguments rnd {L}.
Arguments out {L}.

(** ** TMVA_RNN_Classification (lines 143-335) *)

(** The preprocessor symbols the macro tests. *)
Record Build := mkBuild {
  R__HAS_TMVAGPU : bool;
  R__HAS_TMVACPU : bool;
  R__HAS_PYMVA : bool
}.

Definition ninput : Z := 30.
Definition ntime : Z := 10.
Definition batchSize : Z := 100.
Definition maxepochs : Z := 20.
Definition nTotEvts : Z := 10000.
Definition num_threads : Z := 0.
Definition inputFileName : string := "time_data_t10_d30.root".

Definition rnn_types : list string := ["RNN"; "LSTM"; "GRU"].

(** Lines 160-164. *)
Definition use_rnn_type (use_type : Z) : list bool :=
  if decide (0 ≤ use_type ∧ use_type < 3)
  then <[Z.to_nat use_type := true]> [false; false; false]
  else [true; true; true].

(** Line 293: [rnn_types[0].c_str()]; [use_rnn_type] is not consulted. *)
Definition rnn_type (use_type : Z) : string := default "" (rnn_types !! 0%nat).

Definition archString (b : Build) : string :=
  if R__HAS_TMVAGPU b then "GPU" else "CPU".

(** [int nTrainSig = 0.8 * nTotEvts]: the product, eight tenths of
    [nTotEvts], truncated towards zero. *)
Definition nTrainSig : Z := (8 * nTotEvts) `quot` 10.
Definition nTrainBkg : Z := (8 * nTotEvts) `quot` 10.

Definition prepareOptions : string :=
  "nTrain_Signal=" +:+ pretty nTrainSig +:+ ":nTrain_Background=" +:+ pretty nTrainBkg
  +:+ ":SplitMode=Random:SplitSeed=100:NormMode=NumEvents:!V:!CalcCorrelations".

Definition inputLayoutString : string :=
  "InputLayout=" +:+ pretty ntime +:+ "|" +:+ pretty ninput.

Definition rnnLayout (use_type : Z) : string :=
  rnn_type use_type +:+ "|10|" +:+ pretty ninput +:+ "|" +:+ pretty ntime +:+ "|0|1".

Definition layoutString (use_type : Z) : string :=
  "Layout=" +:+ rnnLayout use_type +:+ ",RESHAPE|FLAT,DENSE|64|TANH,LINEAR".

Definition trainingString1 : string :=
  "LearningRate=1e-3,Momentum=0.0,Repetitions=1,ConvergenceSteps=5,BatchSize="
  +:+ pretty batchSize +:+ ",TestRepetitions=1,WeightDecay=1e-2,Regularization=None,MaxEpochs="
  +:+ pretty maxepochs +:+ ",Optimizer=ADAM,DropConfig=0.0+0.+0.+0.".

Definition trainingStrategyString : string := "TrainingStrategy=" +:+ trainingString1.

Definition rnnOptions (b : Build) (use_type : Z) : string :=
  "!H:V:ErrorStrategy=CROSSENTROPY:VarTransform=None:WeightInitialization=XAVIERUNIFORM:ValidationSize=0.2:RandomSeed=1234"
  +:+ ":" +:+ inputLayoutString
  +:+ ":" +:+ layoutString use_type
  +:+ ":" +:+ trainingStrategyString
  +:+ ":" +:+ ("Architecture=" +:+ archString b).

Definition rnnName (use_type : Z) : string := "TMVA_" +:+ rnn_type use_type.

Definition factoryOptions : string :=
  "!V:!Silent:Color:DrawProgressBar:Transformations=None:!Correlations:AnalysisType=Classification:ModelPersistence".

Section Orchestrator.
Context {L : RandomLib}.

Definition say (e : Event) (w : World L) : World L :=
  mkWorld (fs w) (can_create w) (gRandom w) (sys_entropy w) (nthreads w) (trace w ++ [e]).

Definition set_fs (m : gmap string disk_file) (w : World L) : World L :=
  mkWorld m (can_create w) (gRandom w) (sys_entropy w) (nthreads w) (trace w).

(** Lines 167-173: neither GPU nor multi-threaded CPU support. *)
Definition warn_no_backend (b : Build) (w : World L) : World L :=
  if negb (R__HAS_TMVAGPU b) && negb (R__HAS_TMVACPU b)
  then say (RootWarning "TMVA_RNN_Classification"
         "TMVA is not build with GPU or CPU multi-thread support. Cannot use TMVA Deep Learning for RNN") w
  else w.

(** Lines 181-185. *)
Definition init_python (b : Build) (w : World L) : World L :=
  if R__HAS_PYMVA b then say PyInitialize w else w.

(** Lines 187-194. *)
Definition enable_threads (w : World L) : World L :=
  if decide (0 ≤ num_threads)
  then let w := say (EnableImplicitMT num_threads) w in
       if decide (0 < num_threads)
       then say (Setenv "OMP_NUM_THREADS" (pretty num_threads)) w
       else w
  else say (Setenv "OMP_NUM_THREADS" "1") w.

(** Lines 165-198. *)
Definition prologue (b : Build) (w : World L) : World L :=
  let w := warn_no_backend b w in
  let w := init_python b w in
  let w := enable_threads w in
  let w := say ConfigInstance w in
  say (Cout ("Running with nthreads  = " +:+ pretty (nthreads w))) w.

(** Lines 200-207: the data set is generated only when no file of that
    name exists. *)
Definition ensure_input (w : World L) : option (World L) :=
  if file_exists (fs w) inputFileName then Some w
  else MakeTimeData L nTotEvts ntime ninput w.

(** [dataloader->AddVariablesArray(Form("vars_time%d", i), ninput)] *)
Definition add_variables (w : World L) (i : nat) : World L :=
  say (AddVariablesArray ("vars_time" +:+ pretty (Z.of_nat i)) ninput) w.

(** Lines 215-334, reached with the input file open.  A call into the
    toolkit is recorded as an event and taken to return; what the toolkit
    does with its arguments, a null tree for one, is not part of the
    source and is not modelled. *)
Definition book_rnn (b : Build) (use_type : Z) (inputFile : gmap string TTree)
    (w : World L) : World L :=
  let w := say (Cout ("--- RNNClassification  : Using input file: " +:+ inputFileName)) w in
  let outfileName := "data_RNN_" +:+ archString b +:+ ".root" in
  let outputFile := if can_create w outfileName then Some outfileName else None in
  let w := set_fs (recreate (can_create w) outfileName (fs w)) w in
  let w := say (NewFactory "TMVAClassification" outputFile factoryOptions) w in
  let w := say (NewDataLoader "dataset") w in
  let signalTree := inputFile !! "sgn" in
  let background := inputFile !! "bkg" in
  let w := foldl add_variables w (seq 0 (Z.to_nat ntime)) in
  let w := say (AddSignalTree signalTree 1) w in
  let w := say (AddBackgroundTree background 1) w in
  let w := say CoutListOfVariables w in
  let w := say (PrepareTrainingAndTestTree "" "" prepareOptions) w in
  let w := say (Cout "prepared DATA LOADER ") w in
  say (BookMethod "kDL" (rnnName use_type) (rnnOptions b use_type)) w.

Definition open_error : Event :=
  RootError "TMVA_RNN_Classification"
            ("Error opening input file " +:+ inputFileName +:+ " - exit").

Definition TMVA_RNN_Classification (b : Build) (use_type : Z) (w : World L)
  : option (World L) :=
  w ← ensure_input (prologue b w);
  match TFile_Open (fs w) inputFileName with
  | None => Some (say open_error w)
  | Some inputFile => Some (book_rnn b use_type inputFile w)
  end.
End Orchestrator.

(** The events of lines 215-334, in order. *)
Definition book_events (b : Build) (use_type : Z) (inputFile : gmap string TTree)
    (outputFile : option string) : list Event :=
  [Cout ("--- RNNClassification  : Using input file: " +:+ inputFileName);
   NewFactory "TMVAClassification" outputFile factoryOptions;
   NewDataLoader "dataset"]
  ++ ((λ i, AddVariablesArray ("vars_time" +:+ pretty (Z.of_nat i)) ninput)
        <$> seq 0 (Z.to_nat ntime))
  ++ [AddSignalTree (inputFile !! "sgn") 1;
      AddBackgroundTree (inputFile !! "bkg") 1;
      CoutListOfVariables;
      PrepareTrainingAndTestTree "" "" prepareOptions;
      Cout "prepared DATA LOADER ";
      BookMethod "kDL" (rnnName use_type) (rnnOptions b use_type)].

(** Events by which the macro sets up or drives the training toolkit. *)
Definition training_side (e : Event) : bool :=
  match e with
  | NewFactory _ _ _ | NewDataLoader _ | AddVariablesArray _ _
  | AddSignalTree _ _ | AddBackgroundTree _ _
  | PrepareTrainingAndTestTree _ _ _ | BookMethod _ _ _ => true
  | _ => false
  end.

(** The methods booked in a trace: title and option string. *)
Definition booked (tr : list Event) : list (string * string) :=
  omap (λ e, match e with BookMethod _ title opts => Some (title, opts) | _ => None end) tr.

(** ** Reading an option string *)

(** The fields of [s] separated by the character [c]. *)
Fixpoint split_on (c : Ascii.ascii) (s : string) : list string :=
  match s with
  | EmptyString => [EmptyString]
  | String a s' =>
      if Ascii.eqb a c then EmptyString :: split_on c s'
      else match split_on c s' with
           | t :: ts => String a t :: ts
           | [] => [String a EmptyString]
           end
  end.

(** The text after [key=] in a field of the form [key=value]. *)
Definition value_of (key field : string) : option string :=
  let k := key +:+ "=" in
  if String.prefix k field
  then Some (String.substring (String.length k) (String.length field - String.length k)%nat field)
  else None.

(** The value given to [key] in the option string [opts], whose fields are
    separated by [c]. *)
Definition option_value (c : Ascii.ascii) (key opts : string) : option string :=
  head (omap (value_of key) (split_on c opts)).
Arguments split_on c%_char s%_string.
Arguments option_value c%_char (key opts)%_string.

(** ** Properties of generated data *)

(** [f] is the Gaussian with the given mean and sigma, as set by
    [SetParameters(1, mean, sigma)]. *)
Definition is_gaus (f : TF1) (mean sigma : R) : Prop :=
  f_formula f = "gaus" ∧ f_params f = [1%R; mean; sigma].

(** [h] is an empty histogram of [ndim] bins over [0,10]. *)
Definition fresh_hist (ndim : Z) (h : TH1) : Prop :=
  h_nbins h = ndim ∧ h_xlow h = 0%R ∧ h_xup h = 10%R ∧ h_content h = zero_cells ndim.

(** [v] is the content of bin [k] (bins counted from 0, cell [k+1]) of an
    [ndim]-bin histogram over [0,10] filled with 1000 draws of the Gaussian
    [(mean, sigma)], plus one draw of Gaussian noise of mean 0 and sigma 10;
    the draws are made at some states of the generator. *)
Definition noisy_bin (L : RandomLib) (ndim : Z) (mean sigma : R) (k : nat) (v : R) : Prop :=
  ∃ f h (r r' : rng L),
    is_gaus f mean sigma ∧ fresh_hist ndim h ∧
    v = (GetBinContent (TH1_FillRandom L f 1000 h r).1 (k + 1) + (lib_Gaus L 0 10 r').1)%R.

(** Every feature of every entry of [t] is a noisy bin of the Gaussian whose
    parameters at step [j] are [mean j] and [sigma j]. *)
Definition drawn_from (L : RandomLib) (ntime ndim : Z) (mean sigma : nat → R) (t : TTree)
  : Prop :=
  ∀ e j k, e ∈ t_entries t → (j < Z.to_nat ntime)%nat → (k < Z.to_nat ndim)%nat →
    ∃ v, cell e j k = Some v ∧ noisy_bin L ndim (mean j) (sigma j) k v.

(** An entry of [T] time steps, each of [D] features. *)
Definition shape (T D : nat) (e : list (list R)) : Prop :=
  length e = T ∧ Forall (λ row, length row = D) e.

Definition branch_names (ntime : Z) : list string :=
  (λ i, "vars_time" +:+ pretty (Z.of_nat i)) <$> seq 0 (Z.to_nat ntime).

(** The file named after [(ntime, ndim)] holds the trees [sgn] and [bkg]. *)
Definition stored_trees {L : RandomLib} (ntime ndim : Z) (w : World L) (s b : TTree) : Prop :=
  ∃ keys, fs w !! fname ntime ndim = Some (RootFile keys) ∧
          keys !! "sgn" = Some s ∧ keys !! "bkg" = Some b.

(** The persistence contract: both trees are in the file, with one branch
    per time step and [n] entries each. *)
Definition persisted {L : RandomLib} (n ntime ndim : Z) (w : World L) : Prop :=
  ∃ s b, stored_trees ntime ndim w s b ∧
    length (t_entries s) = Z.to_nat n ∧ length (t_entries b) = Z.to_nat n ∧
    br_name <$> t_branches s = branch_names ntime ∧
    br_name <$> t_branches b = branch_names ntime.

(** [mean1[j] + mean2[j]] after the parameter loop. *)
Definition mean_sum (ntime : Z) (j : nat) : R :=
  (mean1 (make_params ntime) !!! j + mean2 (make_params ntime) !!! j)%R.

(** The sums are placed symmetrically about [c]: whatever one step deviates
    from [c], some step of the sweep deviates by the opposite amount. *)
Definition oscillates_symmetrically (c : R) (ntime : Z) : Prop :=
  ∀ j, (j < Z.to_nat ntime)%nat →
    ∃ j', (j' < Z.to_nat ntime)%nat ∧ (mean_sum ntime j' - c = - (mean_sum ntime j - c))%R.

(** ** A degenerate instance of the random services

    A generator whose state is a counter: [Gaus(mean, sigma)] returns
    [mean] at an even state and [mean + sigma] at an odd one, and
    [FillRandom] puts all its draws at the mean of the function.  Seeding
    with 0 takes the state from the entropy.  It serves to run the model on
    concrete inputs. *)

#[global] Instance Rlt_decision (x y : R) : Decision (x < y)%R := Rlt_dec x y.
#[global] Instance Rle_decision (x y : R) : Decision (x <= y)%R := Rle_dec x y.

Definition deviate (r : Z) : R := if Z.even r then 0%R else 1%R.

(** Does cell [b] of a histogram of [nbins] bins over [xlow, xup) hold [x]? *)
Definition in_cell (nbins : Z) (xlow xup x : R) (b : nat) : bool :=
  let w := ((xup - xlow) / IZR nbins)%R in
  if decide (b = 0%nat) then bool_decide (x < xlow)%R
  else if decide (Z.of_nat b = nbins + 1) then bool_decide (xup <= x)%R
  else bool_decide (xlow + (INR b - 1) * w <= x)%R && bool_decide (x < xlow + INR b * w)%R.

Definition fill_at (x : R) (ntimes : Z) (h : TH1) : list R :=
  imap (λ b c, if in_cell (h_nbins h) (h_xlow h) (h_xup h) x b
               then (c + IZR ntimes)%R else c) (h_content h).

Definition CounterLib : RandomLib :=
  {| rng := Z;
     entropy := Z;
     lib_SetSeed := λ seed e, (if decide (seed = 0) then e else seed, e + 1);
     lib_Gaus := λ mean sigma r, ((mean + sigma * deviate r)%R, r + 1);
     lib_FillRandom := λ f ntimes h r, (fill_at (f_params f !!! 1%nat) ntimes h, r + ntimes) |}.

(** A machine with an empty, writable disk. *)
Definition blank (e : Z) : World CounterLib :=
  mkWorld (L := CounterLib) ∅ (λ _, true) 0 e 4 [].

(** A machine with an empty disk on which nothing can be created. *)
Definition read_only : World CounterLib :=
  mkWorld (L := CounterLib) ∅ (λ _, false) 0 0 4 [].

(** A usual build: no GPU, multi-threaded CPU, no Python. *)
Definition cpu_build : Build := mkBuild false true false.

(** A machine whose disk holds something unreadable under the input name. *)
Definition spoiled : World CounterLib :=
  mkWorld (L := CounterLib) {[ inputFileName := Unreadable ]} (λ _, true) 0 0 4 [].

(** A machine whose disk already holds a data set, here with no entries. *)
Definition stocked_keys : gmap string TTree :=
  <["bkg" := TTree_new "bkg" "bkg"]> (<["sgn" := TTree_new "sgn" "sgn"]> ∅).

Definition stocked : World CounterLib :=
  mkWorld (L := CounterLib) {[ inputFileName := RootFile stocked_keys ]}
    (λ _, true) 0 0 4 [].

(** ** Invariants of the generator's loops *)

Section Invariants.
Context (L : RandomLib).

(** What the inner loops never touch. *)
Record same_frame (g g' : Gen L) : Prop := {
  frame_sgn : sgn g' = sgn g;
  frame_bkg : bkg g' = bkg g;
  frame_out : out g' = out g
}.

(** Cell [k] of a row written from histogram [h]. *)
Definition written_from (h : TH1) (k : nat) (v : R) : Prop :=
  ∃ r : rng L, v = (GetBinContent h (k + 1) + (lib_Gaus L 0 10 r).1)%R.

(** Row [j] after [u] turns of the feature loop: same length, cells
    below [u] written. *)
Definition row_upto (h : TH1) (u : nat) (row row' : list R) : Prop :=
  length row' = length row ∧
  ∀ k, (k < u)%nat → (k < length row)%nat → ∃ v, row' !! k = Some v ∧ written_from h k v.

(** The binning every histogram of the generator keeps. *)
Definition binned (ndim : Z) (h : TH1) : Prop :=
  h_nbins h = ndim ∧ h_xlow h = 0%R ∧ h_xup h = 10%R.

(** What holds of the locals all along the event loop. *)
Record gen_inv (ntime ndim : Z) (g : Gen L) : Prop := {
  inv_v1_len : length (v1 g) = Z.to_nat ntime;
  inv_v2_len : length (v2 g) = Z.to_nat ntime;
  inv_v1_bins : Forall (binned ndim) (v1 g);
  inv_v2_bins : Forall (binned ndim) (v2 g);
  inv_f1 : f_formula (f1 g) = "gaus";
  inv_f2 : f_formula (f2 g) = "gaus";
  inv_x1 : shape (Z.to_nat ntime) (Z.to_nat ndim) (x1 g);
  inv_x2 : shape (Z.to_nat ntime) (Z.to_nat ndim) (x2 g)
}.

(** Every cell of a row is a noisy bin of the Gaussian [(mean, sigma)]. *)
Definition row_drawn (ndim : Z) (mean sigma : R) (row : list R) : Prop :=
  ∀ k, (k < Z.to_nat ndim)%nat →
    ∃ v, row !! k = Some v ∧ noisy_bin L ndim mean sigma k v.

(** Rows below [u] of a buffer are drawn with the parameters of their
    step. *)
Definition rows_drawn (ndim : Z) (mean sigma : list R) (u : nat) (x : list (list R))
  : Prop :=
  ∀ j, (j < u)%nat →
    ∃ row, x !! j = Some row ∧ row_drawn ndim (mean !!! j) (sigma !!! j) row.

(** A tree booked on buffer [b]: one branch per time step and every
    entry drawn with the parameters [mean], [sigma]. *)
Record tree_inv (ntime ndim : Z) (b : Buffer) (mean sigma : list R) (t : TTree)
  : Prop := {
  tree_addrs : br_addr <$> t_branches t = (λ i, (b, i)) <$> seq 0 (Z.to_nat ntime);
  tree_names : br_name <$> t_branches t = branch_names ntime;
  tree_entries :
    Forall (λ e, shape (Z.to_nat ntime) (Z.to_nat ndim) e ∧
                 rows_drawn ndim mean sigma (Z.to_nat ntime) e) (t_entries t)
}.

(** The events the generator can emit: console lines, and canvas drawing
    only when a single event was asked for. *)
Definition gen_event (n : Z) (e : Event) : Prop :=
  match e with
  | Cout _ | TreePrint _ => True
  | NewCanvas | CanvasDivide _ _ | CanvasCd _ | HistDraw _ | PadUpdate => n = 1
  | _ => False
  end.

Definition add_out (evs : list Event) (g : Gen L) : Gen L :=
  mkGen L (v1 g) (v2 g) (f1 g) (f2 g) (sgn g) (bkg g) (x1 g) (x2 g) (rnd g) (out g ++ evs).

Definition pad_events (offset : Z) (v : list TH1) (idx : list nat) : list Event :=
  idx ≫= (λ j, [CanvasCd (offset + Z.of_nat j + 1); HistDraw (v !!! j)]).

Definition canvas_events (ntime : Z) (va vb : list TH1) : list Event :=
  [NewCanvas; CanvasDivide ntime 2]
  ++ pad_events 0 va (seq 0 (Z.to_nat ntime))
  ++ pad_events ntime vb (seq 0 (Z.to_nat ntime))
  ++ [PadUpdate].

(** The state of the event loop after some events. *)
Record loop_inv (n ntime ndim : Z) (p : StepParams) (count : nat) (g : Gen L) : Prop := {
  loop_gen : gen_inv ntime ndim g;
  loop_sgn : tree_inv ntime ndim X2 (mean2 p) (sigma2 p) (sgn g);
  loop_bkg : tree_inv ntime ndim X1 (mean1 p) (sigma1 p) (bkg g);
  loop_sgn_count : length (t_entries (sgn g)) = count;
  loop_bkg_count : length (t_entries (bkg g)) = count;
  loop_out : Forall (gen_event n) (out g);
  loop_canvas : n = 1 → (0 < count)%nat → NewCanvas ∈ out g
}.

(** What a completed run of the generator has established. *)
Record run_ok (n ntime ndim : Z) (w : World L) (g : Gen L) (w' : World L) : Prop := {
  run_inv : loop_inv n ntime ndim (make_params ntime) (Z.to_nat n) g;
  run_fs :
    fs w' = if decide (1 < n)
            then write_trees L (fname ntime ndim) (can_create w) g
                   (recreate (can_create w) (fname ntime ndim) (fs w))
            else recreate (can_create w) (fname ntime ndim) (fs w);
  run_can : can_create w' = can_create w;
  run_trace : trace w' = trace w ++ out g
}.
End Invariants.

Arguments frame_sgn {L g g'}.
Arguments frame_bkg {L g g'}.
Arguments frame_out {L g g'}.
Arguments same_frame {L}.

(** [w'] is [w] after some events that do not touch the training toolkit. *)
Definition quiet_step {L : RandomLib} (w w' : World L) : Prop :=
  can_create w' = can_create w ∧
  ∃ evs, trace w' = trace w ++ evs ∧ Forall (λ e, training_side e = false) evs.

(** ** Observations used by the further properties *)

(** The state [g] with its event list replaced. *)
Definition with_out {L : RandomLib} (o : list Event) (g : Gen L) : Gen L :=
  mkGen L (v1 g) (v2 g) (f1 g) (f2 g) (sgn g) (bkg g) (x1 g) (x2 g) (rnd g) o.

(** The console lines of line 90 for the first [u] events: one for every
    event number that is a multiple of 1000. *)
Definition progress_lines (u : nat) : list Event :=
  (λ i, Cout ("Generating  event ... " +:+ pretty (Z.of_nat i)))
    <$> filter (λ i, Z.of_nat i `rem` 1000 = 0) (seq 0 u).

(** The pads selected and the histograms drawn, in order. *)
Definition pads_of (evs : list Event) : list Z :=
  omap (λ e, match e with CanvasCd p => Some p | _ => None end) evs.

Definition drawn_of (evs : list Event) : list TH1 :=
  omap (λ e, match e with HistDraw h => Some h | _ => None end) evs.

(** The array variables declared to the data loader: name and width. *)
Definition declared (evs : list Event) : list (string * Z) :=
  omap (λ e, match e with AddVariablesArray nm sz => Some (nm, sz) | _ => None end) evs.

(** Does the character [c] occur in [s]? *)
Fixpoint occurs (c : Ascii.ascii) (s : string) : bool :=
  match s with
  | EmptyString => false
  | String a s' => Ascii.eqb a c || occurs c s'
  end.
Arguments occurs c%_char s%_string.

(** [TString::Format("data_RNN_%s.root", archString.Data())] (line 218). *)
Definition outfileName (b : Build) : string := "data_RNN_" +:+ archString b +:+ ".root".

Section EventData.
Context (L : RandomLib).

(** Lines 92-112: the part of one turn of the event loop that produces
    data, without the console line and the canvas. *)
Definition event_data (ntime ndim : Z) (p : StepParams) (g : Gen L) : Gen L :=
  let g := foldl (time_step L p ndim) g (seq 0 (Z.to_nat ntime)) in
  let g := set_sgn L (TTree_Fill (x1 g) (x2 g) (sgn g)) g in
  set_bkg L (TTree_Fill (x1 g) (x2 g) (bkg g)) g.

(** The console line of event [i], if any. *)
Definition progress_line (i : nat) : list Event :=
  if decide (Z.of_nat i `rem` 1000 = 0)
  then [Cout ("Generating  event ... " +:+ pretty (Z.of_nat i))] else [].

(** The canvas events of an event, drawn only when [n = 1]. *)
Definition canvas_of (n ntime : Z) (g : Gen L) : list Event :=
  if decide (n = 1) then canvas_events ntime (v1 g) (v2 g) else [].

(** Rows below [u] of the buffer [x] hold the bin contents of the
    histograms [v], cell by cell, plus noise. *)
Definition rows_from (ndim : Z) (v : list TH1) (u : nat) (x : list (list R)) : Prop :=
  ∀ j k, (j < u)%nat → (k < Z.to_nat ndim)%nat →
    ∃ val, cell x j k = Some val ∧ written_from L (v !!! j) k val.
End EventData.

(** The locals of [MakeTimeData] when the event loop ends, and when the
    function returns. *)
Definition loop_state (L : RandomLib) (n ntime ndim : Z) (w : World L) : Gen L :=
  foldl (event_step L n ntime ndim (make_params ntime))
        (gen_init L ntime ndim (lib_SetSeed L 0 (sys_entropy w)).1)
        (seq 0 (Z.to_nat n)).

Definition final_state (L : RandomLib) (n ntime ndim : Z) (w : World L) : Gen L :=
  if decide (1 < n)
  then emit L (TreePrint "bkg") (emit L (TreePrint "sgn") (loop_state L n ntime ndim w))
  else loop_state L n ntime ndim w.

(** The warning of line 170. *)
Definition backend_warning : Event :=
  RootWarning "TMVA_RNN_Classification"
    "TMVA is not build with GPU or CPU multi-thread support. Cannot use TMVA Deep Learning for RNN".

(** The events of lines 165-198, in order; [nth] is the size of the thread
    pool. *)
Definition prologue_events (b : Build) (nth : Z) : list Event :=
  (if negb (R__HAS_TMVAGPU b) && negb (R__HAS_TMVACPU b) then [backend_warning] else [])
  ++ (if R__HAS_PYMVA b then [PyInitialize] else [])
  ++ [EnableImplicitMT num_threads; ConfigInstance;
      Cout ("Running with nthreads  = " +:+ pretty nth)].

(** The events of lines 202-207 on the disk [m]: none when the input file
    exists, those of a generation of [nTotEvts] events otherwise. *)
Definition generation_events (m : gmap string disk_file) : list Event :=
  if file_exists m inputFileName then []
  else progress_lines (Z.to_nat nTotEvts) ++ [TreePrint "sgn"; TreePrint "bkg"].

(** The number of training events asked for is eight tenths of the events
    loaded: whenever a signal tree is handed to the data loader and the
    split is prepared, the option [nTrain_Signal] is eight tenths of the
    entries of that tree. *)
Definition asks_eighty_percent (tr : list Event) : Prop :=
  ∀ s cuts cutb opts,
    AddSignalTree (Some s) 1 ∈ tr → PrepareTrainingAndTestTree cuts cutb opts ∈ tr →
    option_value ":" "nTrain_Signal" opts
    = Some (pretty ((8 * Z.of_nat (length (t_entries s))) `quot` 10)).

(** ** The strings the macro builds *)

Example fname_10_30 : fname 10 30 = "time_data_t10_d30.root".
Proof. reflexivity. Qed.

Example prepareOptions_text :
  prepareOptions
  = "nTrain_Signal=8000:nTrain_Background=8000:SplitMode=Random:SplitSeed=100:NormMode=NumEvents:!V:!CalcCorrelations".
Proof. reflexivity. Qed.

Example rnnLayout_text (use_type : Z) : rnnLayout use_type = "RNN|10|30|10|0|1".
Proof. reflexivity. Qed.

Example split_on_colon : split_on ":" "a=1:b=2" = ["a=1"; "b=2"].
Proof. reflexivity. Qed.

Example option_value_found : option_value ":" "b" "a=1:b=2" = Some "2".
Proof. reflexivity. Qed.

Example option_value_absent : option_value ":" "c" "a=1:b=2" = None.
Proof. reflexivity. Qed.

Example branch_names_3 : branch_names 3 = ["vars_time0"; "vars_time1"; "vars_time2"].
Proof. reflexivity. Qed.

Example use_rnn_type_all : use_rnn_type 3 = [true; true; true].
Proof. reflexivity. Qed.
(** *** The parameter loop writes every slot exactly once *)

Section ParamLoop.
Variable ntime : Z.

Definition params_inv (upto : nat) (p : StepParams) : Prop :=
  (length (mean1 p) = Z.to_nat ntime ∧ length (mean2 p) = Z.to_nat ntime ∧
   length (sigma1 p) = Z.to_nat ntime ∧ length (sigma2 p) = Z.to_nat ntime) ∧
  ∀ j, (j < upto)%nat →
    mean1 p !! j = Some (mean1_at ntime j) ∧
    mean2 p !! j = Some (mean2_at ntime j) ∧
    sigma1 p !! j = Some (sigma1_at ntime j) ∧
    sigma2 p !! j = Some (sigma2_at ntime j).

Lemma params_alloc_inv : params_inv 0 (params_alloc ntime).
Proof.
  split; [by simpl; rewrite !length_replicate | intros j Hj; lia].
Qed.

Lemma params_step_inv (u : nat) (p : StepParams) :
  (u < Z.to_nat ntime)%nat → params_inv u p → params_inv (S u) (params_step ntime p u).
Proof.
  intros Hu [(L1 & L2 & L3 & L4) Hp]. split.
  - by simpl; rewrite !length_insert.
  - intros j Hj. destruct (decide (j = u)) as [->|Hne].
    + simpl. rewrite !list_lookup_insert_eq; [done | lia ..].
    + simpl. rewrite !list_lookup_insert_ne; [|done ..]. apply Hp. lia.
Qed.

Lemma params_loop_inv (k : nat) :
  (k ≤ Z.to_nat ntime)%nat →
  params_inv k (foldl (params_step ntime) (params_alloc ntime) (seq 0 k)).
Proof.
  induction k as [|k IH]; intros Hk.
  - apply params_alloc_inv.
  - rewrite seq_S, foldl_app. simpl. apply params_step_inv; [lia | apply IH; lia].
Qed.

Lemma make_params_inv : params_inv (Z.to_nat ntime) (make_params ntime).
Proof. by apply params_loop_inv. Qed.
End ParamLoop.

Lemma make_params_lookup (ntime : Z) (j : nat) :
  (j < Z.to_nat ntime)%nat →
  mean1 (make_params ntime) !! j = Some (mean1_at ntime j) ∧
  mean2 (make_params ntime) !! j = Some (mean2_at ntime j) ∧
  sigma1 (make_params ntime) !! j = Some (sigma1_at ntime j) ∧
  sigma2 (make_params ntime) !! j = Some (sigma2_at ntime j).
Proof. intros Hj. by apply (make_params_inv ntime). Qed.

Lemma make_params_total (ntime : Z) (j : nat) :
  (j < Z.to_nat ntime)%nat →
  mean1 (make_params ntime) !!! j = mean1_at ntime j ∧
  mean2 (make_params ntime) !!! j = mean2_at ntime j ∧
  sigma1 (make_params ntime) !!! j = sigma1_at ntime j ∧
  sigma2 (make_params ntime) !!! j = sigma2_at ntime j.
Proof.
  intros Hj. destruct (make_params_lookup ntime j Hj) as (H1 & H2 & H3 & H4).
  repeat split; by apply list_lookup_total_correct.
Qed.

(** *** Where the phase lies *)

Lemma phase_range (ntime : Z) (j : nat) :
  (j < Z.to_nat ntime)%nat → (0 <= phase ntime j < PI)%R.
Proof.
  intros Hj. unfold phase.
  assert (Hn : (0 < IZR ntime)%R) by (apply IZR_lt; lia).
  assert (Hj0 : (0 <= INR j)%R) by apply pos_INR.
  assert (HjT : (INR j < IZR ntime)%R).
  { rewrite INR_IZR_INZ. apply IZR_lt. lia. }
  pose proof PI_RGT_0 as Hpi.
  split.
  - apply Rmult_le_pos; [apply Rmult_le_pos; lra | left; by apply Rinv_0_lt_compat].
  - apply (Rmult_lt_reg_r (IZR ntime)); [done|].
    unfold Rdiv. rewrite Rmult_assoc, Rinv_l, Rmult_1_r by lra.
    apply Rmult_lt_compat_l; lra.
Qed.

Lemma sin_plus_cos_le (x : R) : (sin x + cos x <= sqrt 2)%R.
Proof.
  destruct (Rle_dec (sin x + cos x) 0) as [Hneg|Hpos].
  - pose proof (sqrt_pos 2). lra.
  - assert (Hs : (0 <= sin x + cos x)%R) by lra.
    rewrite <- (sqrt_square _ Hs). apply sqrt_le_1_alt.
    pose proof (sin2_cos2 x) as H1.
    pose proof (Rle_0_sqr (sin x - cos x)) as H2.
    unfold Rsqr in H1, H2. nra.
Qed.

Lemma sin_plus_cos_gt (x : R) : (0 <= x < PI)%R → (-1 < sin x + cos x)%R.
Proof.
  intros [H0 Hpi].
  assert (Hsin : (0 <= sin x)%R) by (apply sin_ge_0; lra).
  assert (Hcos : (cos PI < cos x)%R) by (apply cos_decreasing_1; lra).
  rewrite cos_PI in Hcos. lra.
Qed.

Lemma mean_sum_eq (ntime : Z) (j : nat) :
  (j < Z.to_nat ntime)%nat →
  mean_sum ntime j = (10 + 0.2 * (sin (phase ntime j) + cos (phase ntime j)))%R.
Proof.
  intros Hj. unfold mean_sum.
  destruct (make_params_total ntime j Hj) as (-> & -> & _).
  unfold mean1_at, mean2_at. lra.
Qed.

(** C5. For every step [j] of the sweep, the four vectors written by the
    parameter loop hold [5 + 0.2 sin(pi j/T)], [5 + 0.2 cos(pi j/T)],
    [4 + 0.3 sin(pi j/T)] and [4 + 0.3 cos(pi j/T)]; the spec's
    [signal_mean], [background_mean], [signal_sigma], [background_sigma] are
    the source's [mean1], [mean2], [sigma1], [sigma2]. *)
Theorem C5_step_parameters (T : Z) (j : nat) :
  (j < Z.to_nat T)%nat →
  let p := make_params T in
  mean1 p !! j = Some (5 + 0.2 * sin (PI * INR j / IZR T))%R ∧
  mean2 p !! j = Some (5 + 0.2 * cos (PI * INR j / IZR T))%R ∧
  sigma1 p !! j = Some (4 + 0.3 * sin (PI * INR j / IZR T))%R ∧
  sigma2 p !! j = Some (4 + 0.3 * cos (PI * INR j / IZR T))%R.
Proof. intros Hj p. exact (make_params_lookup T j Hj). Qed.

Lemma C5_step_parameters_witness :
  let p := make_params 10 in
  mean1 p !! 3%nat = Some (5 + 0.2 * sin (PI * INR 3 / IZR 10))%R ∧
  mean2 p !! 3%nat = Some (5 + 0.2 * cos (PI * INR 3 / IZR 10))%R ∧
  sigma1 p !! 3%nat = Some (4 + 0.3 * sin (PI * INR 3 / IZR 10))%R ∧
  sigma2 p !! 3%nat = Some (4 + 0.3 * cos (PI * INR 3 / IZR 10))%R.
Proof. apply (C5_step_parameters 10 3). simpl. lia. Defined.

(** *** The two-step sweep *)

Lemma phase_2_0 : phase 2 0 = 0%R.
Proof. unfold phase. simpl. lra. Qed.

Lemma phase_2_1 : phase 2 1 = (PI / 2)%R.
Proof. unfold phase. simpl. lra. Qed.

Lemma mean_sum_2 (j : nat) : (j < 2)%nat → mean_sum 2 j = 10.2%R.
Proof.
  intros Hj. rewrite mean_sum_eq by (simpl; lia).
  destruct j as [|[|j]]; [| |lia].
  - rewrite phase_2_0, sin_0, cos_0. lra.
  - rewrite phase_2_1, sin_PI2, cos_PI2. lra.
Qed.

(** C6, as stated, fails: with two time steps both sums are 10.2, so no
    step lies below 10 to mirror them. *)
Lemma C6_not_symmetric : ¬ oscillates_symmetrically 10 2.
Proof.
  intros Hsym. destruct (Hsym 0%nat) as (j' & Hj' & Heq); [simpl; lia|].
  rewrite (mean_sum_2 0), (mean_sum_2 j') in Heq by (simpl in *; lia).
  lra.
Qed.

(** C6, amended. For every [T > 0] and every step [j] of the sweep,
    [mean1[j] + mean2[j] = 10 + 0.2 (sin(pi j/T) + cos(pi j/T))]; the
    deviation from 10 is above [-0.2] and at most [0.2 sqrt 2]. *)
Theorem C6_sum_of_means (T : Z) (j : nat) :
  0 < T → (j < Z.to_nat T)%nat →
  mean_sum T j = (10 + 0.2 * (sin (PI * INR j / IZR T) + cos (PI * INR j / IZR T)))%R ∧
  (-0.2 < mean_sum T j - 10 <= 0.2 * sqrt 2)%R.
Proof.
  intros HT Hj. rewrite (mean_sum_eq T j Hj). fold (phase T j). split; [done|].
  pose proof (sin_plus_cos_le (phase T j)).
  pose proof (sin_plus_cos_gt (phase T j) (phase_range T j Hj)).
  lra.
Qed.

Lemma C6_sum_of_means_witness :
  mean_sum 10 3 = (10 + 0.2 * (sin (PI * INR 3 / IZR 10) + cos (PI * INR 3 / IZR 10)))%R ∧
  (-0.2 < mean_sum 10 3 - 10 <= 0.2 * sqrt 2)%R.
Proof. apply (C6_sum_of_means 10 3); [lia | simpl; lia]. Defined.

(** ** The loops of the generator *)

Section GeneratorFacts.
Context (L : RandomLib).
Implicit Types (g : Gen L) (x : list (list R)) (row : list R).

Lemma same_frame_refl g : same_frame g g.
Proof. by split. Qed.

Lemma same_frame_trans g1 g2 g3 : same_frame g1 g2 → same_frame g2 g3 → same_frame g1 g3.
Proof. intros [A1 A2 A3] [B1 B2 B3]. split; congruence. Qed.

(** *** The loop over the features *)

Lemma feature_step_spec (j : nat) g (k : nat) :
  let g' := feature_step L j g k in
  same_frame g g' ∧ v1 g' = v1 g ∧ v2 g' = v2 g ∧ f1 g' = f1 g ∧ f2 g' = f2 g ∧
  ∃ n1 n2,
    written_from L (v1 g !!! j) k n1 ∧ written_from L (v2 g !!! j) k n2 ∧
    x1 g' = alter (λ row, <[k := n1]> row) j (x1 g) ∧
    x2 g' = alter (λ row, <[k := n2]> row) j (x2 g).
Proof.
  unfold feature_step, Gaus. simpl.
  destruct (lib_Gaus L 0 10 (rnd g)) as [n1 r1] eqn:E1. simpl.
  destruct (lib_Gaus L 0 10 r1) as [n2 r2] eqn:E2. simpl.
  repeat split; try done.
  eexists _, _. repeat split; try done.
  - exists (rnd g). by rewrite E1.
  - exists r1. by rewrite E2.
Qed.

Lemma row_upto_step (h : TH1) (u : nat) (row row' : list R) (v : R) :
  row_upto L h u row row' → written_from L h u v → row_upto L h (S u) row (<[u := v]> row').
Proof.
  intros [Hlen Hc] Hv. split; [by rewrite length_insert|].
  intros k Hk Hkl. destruct (decide (k = u)) as [->|Hne].
  - exists v. split; [|done]. apply list_lookup_insert_eq. lia.
  - rewrite list_lookup_insert_ne by done. apply Hc; lia.
Qed.

Lemma feature_loop_spec (j u : nat) g :
  let g' := foldl (feature_step L j) g (seq 0 u) in
  same_frame g g' ∧ v1 g' = v1 g ∧ v2 g' = v2 g ∧ f1 g' = f1 g ∧ f2 g' = f2 g ∧
  length (x1 g') = length (x1 g) ∧ length (x2 g') = length (x2 g) ∧
  (∀ j', j' ≠ j → x1 g' !! j' = x1 g !! j' ∧ x2 g' !! j' = x2 g !! j') ∧
  (∀ row, x1 g !! j = Some row →
     ∃ row', x1 g' !! j = Some row' ∧ row_upto L (v1 g !!! j) u row row') ∧
  (∀ row, x2 g !! j = Some row →
     ∃ row', x2 g' !! j = Some row' ∧ row_upto L (v2 g !!! j) u row row').
Proof.
  induction u as [|u IH].
  - simpl. repeat split; try done.
    + intros row Hr. exists row. repeat split; [done..|]. intros k Hk; lia.
    + intros row Hr. exists row. repeat split; [done..|]. intros k Hk; lia.
  - rewrite seq_S, foldl_app. simpl.
    set (gm := foldl (feature_step L j) g (seq 0 u)) in *.
    destruct IH as (Fr & V1 & V2 & F1 & F2 & L1 & L2 & Oth & R1 & R2).
    destruct (feature_step_spec j gm u)
      as (Fr' & V1' & V2' & F1' & F2' & n1 & n2 & W1 & W2 & E1 & E2).
    rewrite V1 in W1. rewrite V2 in W2.
    split; [by eapply same_frame_trans|].
    repeat split; try congruence.
    + rewrite E1, length_alter. done.
    + rewrite E2, length_alter. done.
    + rewrite E1, list_lookup_alter_ne by done. by apply Oth.
    + rewrite E2, list_lookup_alter_ne by done. by apply Oth.
    + intros row Hr. destruct (R1 row Hr) as (row' & Hr' & Hup).
      exists (<[u := n1]> row'). split.
      * rewrite E1, list_lookup_alter_eq, Hr'. done.
      * by apply row_upto_step.
    + intros row Hr. destruct (R2 row Hr) as (row' & Hr' & Hup).
      exists (<[u := n2]> row'). split.
      * rewrite E2, list_lookup_alter_eq, Hr'. done.
      * by apply row_upto_step.
Qed.
End GeneratorFacts.

Section TimeStepFacts.
Context (L : RandomLib).
Implicit Types (g : Gen L) (h : TH1).

Lemma binned_fill (ndim : Z) (f : TF1) (n : Z) h (r : rng L) :
  binned ndim h → binned ndim (TH1_FillRandom L f n h r).1.
Proof.
  intros Hb. unfold TH1_FillRandom.
  by destruct (lib_FillRandom L f n h r) as [c r'].
Qed.

Lemma fresh_reset (ndim : Z) h : binned ndim h → fresh_hist ndim (Reset h).
Proof. intros (Hn & Hl & Hu). unfold fresh_hist. simpl. by rewrite Hn. Qed.

Lemma binned_reset (ndim : Z) h : binned ndim h → binned ndim (Reset h).
Proof. by intros (Hn & Hl & Hu). Qed.

Lemma fill_v1_spec (n : Z) (j : nat) g :
  fill_v1 L n j g =
  set_rnd L (TH1_FillRandom L (f1 g) n (v1 g !!! j) (rnd g)).2
    (set_v1 L (<[j := (TH1_FillRandom L (f1 g) n (v1 g !!! j) (rnd g)).1]> (v1 g)) g).
Proof.
  unfold fill_v1. by destruct (TH1_FillRandom L (f1 g) n (v1 g !!! j) (rnd g)).
Qed.

Lemma fill_v2_spec (n : Z) (j : nat) g :
  fill_v2 L n j g =
  set_rnd L (TH1_FillRandom L (f2 g) n (v2 g !!! j) (rnd g)).2
    (set_v2 L (<[j := (TH1_FillRandom L (f2 g) n (v2 g !!! j) (rnd g)).1]> (v2 g)) g).
Proof.
  unfold fill_v2. by destruct (TH1_FillRandom L (f2 g) n (v2 g !!! j) (rnd g)).
Qed.

(** A row filled from a histogram that was reset and filled from a
    Gaussian is drawn from that Gaussian. *)
Lemma row_upto_drawn (ndim : Z) (f : TF1) h (r : rng L) (mean sigma : R)
    (row row' : list R) :
  is_gaus f mean sigma → binned ndim h → length row = Z.to_nat ndim →
  row_upto L (TH1_FillRandom L f 1000 (Reset h) r).1 (Z.to_nat ndim) row row' →
  row_drawn L ndim mean sigma row'.
Proof.
  intros Hf Hb Hlen [_ Hc] k Hk.
  destruct (Hc k Hk) as (v & Hv & r' & ->); [lia|].
  exists (GetBinContent (TH1_FillRandom L f 1000 (Reset h) r).1 (k + 1)
          + (lib_Gaus L 0 10 r').1)%R.
  split; [done|]. exists f, (Reset h), r, r'.
  split; [done|]. split; [by apply fresh_reset | done].
Qed.

Lemma shape_lookup (T D : nat) (x : list (list R)) (j : nat) :
  shape T D x → (j < T)%nat → ∃ row, x !! j = Some row ∧ length row = D.
Proof.
  intros [Hl Hr] Hj. destruct (lookup_lt_is_Some_2 x j) as [row Hrow]; [lia|].
  exists row. split; [done|]. by eapply (proj1 (Forall_lookup _ _) Hr).
Qed.

Lemma shape_update (T D : nat) (x x' : list (list R)) (j : nat) (row' : list R) :
  shape T D x → length x' = length x →
  (∀ j', j' ≠ j → x' !! j' = x !! j') →
  x' !! j = Some row' → length row' = D →
  shape T D x'.
Proof.
  intros [Hl Hr] Hlen Hoth Hj Hrow. split; [congruence|].
  apply Forall_lookup. intros i r Hi.
  destruct (decide (i = j)) as [->|Hne].
  - congruence.
  - rewrite Hoth in Hi by done. by eapply (proj1 (Forall_lookup _ _) Hr).
Qed.

Lemma time_step_spec (ntime ndim : Z) (p : StepParams) g (j : nat) :
  gen_inv L ntime ndim g → (j < Z.to_nat ntime)%nat →
  let g' := time_step L p ndim g j in
  gen_inv L ntime ndim g' ∧ same_frame g g' ∧
  (∀ j', j' ≠ j → x1 g' !! j' = x1 g !! j' ∧ x2 g' !! j' = x2 g !! j') ∧
  (∃ row, x1 g' !! j = Some row ∧ row_drawn L ndim (mean1 p !!! j) (sigma1 p !!! j) row) ∧
  (∃ row, x2 g' !! j = Some row ∧ row_drawn L ndim (mean2 p !!! j) (sigma2 p !!! j) row).
Proof.
  intros [V1 V2 B1 B2 F1 F2 S1 S2] Hj. unfold time_step.
  rewrite fill_v2_spec, fill_v1_spec. simpl.
  set (fa := SetParameters (f1 g) 1 (mean1 p !!! j) (sigma1 p !!! j)).
  set (fb := SetParameters (f2 g) 1 (mean2 p !!! j) (sigma2 p !!! j)).
  set (ha := alter Reset j (v1 g) !!! j).
  set (hb := alter Reset j (v2 g) !!! j).
  set (ra := (TH1_FillRandom L fa 1000 ha (rnd g)).2).
  set (h1' := (TH1_FillRandom L fa 1000 ha (rnd g)).1).
  set (h2' := (TH1_FillRandom L fb 1000 hb ra).1).
  set (g6 := set_rnd L _ _).
  destruct (feature_loop_spec L j (Z.to_nat ndim) g6)
    as (Fr & E1 & E2 & Ef1 & Ef2 & L1 & L2 & Oth & R1 & R2).
  set (g' := foldl (feature_step L j) g6 (seq 0 (Z.to_nat ndim))) in *.
  assert (Hv1 : v1 g6 = <[j := h1']> (alter Reset j (v1 g))) by done.
  assert (Hv2 : v2 g6 = <[j := h2']> (alter Reset j (v2 g))) by done.
  assert (Hx1 : x1 g6 = x1 g) by done.
  assert (Hx2 : x2 g6 = x2 g) by done.
  destruct (lookup_lt_is_Some_2 (v1 g) j) as [h1 Hh1]; [lia|].
  destruct (lookup_lt_is_Some_2 (v2 g) j) as [h2 Hh2]; [lia|].
  assert (Hb1 : binned ndim h1) by (by eapply (proj1 (Forall_lookup _ _) B1)).
  assert (Hb2 : binned ndim h2) by (by eapply (proj1 (Forall_lookup _ _) B2)).
  assert (Hha : ha = Reset h1).
  { unfold ha. apply list_lookup_total_correct.
    by rewrite list_lookup_alter_eq, Hh1. }
  assert (Hhb : hb = Reset h2).
  { unfold hb. apply list_lookup_total_correct.
    by rewrite list_lookup_alter_eq, Hh2. }
  assert (Hj1 : v1 g6 !!! j = h1').
  { rewrite Hv1. apply list_lookup_total_correct.
    apply list_lookup_insert_eq. rewrite length_alter. lia. }
  assert (Hj2 : v2 g6 !!! j = h2').
  { rewrite Hv2. apply list_lookup_total_correct.
    apply list_lookup_insert_eq. rewrite length_alter. lia. }
  destruct (shape_lookup _ _ _ j S1 Hj) as (row1 & Hrow1 & Hlen1).
  destruct (shape_lookup _ _ _ j S2 Hj) as (row2 & Hrow2 & Hlen2).
  rewrite Hx1 in R1, L1. rewrite Hx2 in R2, L2. rewrite Hx1, Hx2 in Oth.
  destruct (R1 row1 Hrow1) as (row1' & Hrow1' & Hup1).
  destruct (R2 row2 Hrow2) as (row2' & Hrow2' & Hup2).
  rewrite Hj1 in Hup1. rewrite Hj2 in Hup2.
  split; [|split; [|split; [done|split]]].
  - split.
    + rewrite E1, Hv1, length_insert, length_alter. done.
    + rewrite E2, Hv2, length_insert, length_alter. done.
    + rewrite E1, Hv1. apply Forall_insert.
      * apply Forall_alter; [done|]. intros h _ Hp. by apply binned_reset.
      * unfold h1'. apply binned_fill. rewrite Hha. by apply binned_reset.
    + rewrite E2, Hv2. apply Forall_insert.
      * apply Forall_alter; [done|]. intros h _ Hp. by apply binned_reset.
      * unfold h2'. apply binned_fill. rewrite Hhb. by apply binned_reset.
    + by rewrite Ef1.
    + by rewrite Ef2.
    + eapply (shape_update _ _ (x1 g)); [done|done|apply Oth|done|].
      destruct Hup1 as [-> _]. done.
    + eapply (shape_update _ _ (x2 g)); [done|done|apply Oth|done|].
      destruct Hup2 as [-> _]. done.
  - assert (Hfr : same_frame g g6) by (by split). by eapply same_frame_trans.
  - exists row1'. split; [done|].
    unfold h1' in Hup1. rewrite Hha in Hup1.
    eapply row_upto_drawn; [|exact Hb1|exact Hlen1|exact Hup1].
    split; [exact F1 | done].
  - exists row2'. split; [done|].
    unfold h2' in Hup2. rewrite Hhb in Hup2.
    eapply row_upto_drawn; [|exact Hb2|exact Hlen2|exact Hup2].
    split; [exact F2 | done].
Qed.
End TimeStepFacts.

Section EventLoopFacts.
Context (L : RandomLib).
Implicit Types (g : Gen L).

Lemma rows_drawn_ext (ndim : Z) (mean sigma : list R) (u : nat) (x x' : list (list R)) :
  (∀ j, (j < u)%nat → x' !! j = x !! j) →
  rows_drawn L ndim mean sigma u x → rows_drawn L ndim mean sigma u x'.
Proof. intros Heq Hx j Hj. rewrite Heq by done. by apply Hx. Qed.

Lemma time_loop_spec (ntime ndim : Z) (p : StepParams) g (u : nat) :
  gen_inv L ntime ndim g → (u ≤ Z.to_nat ntime)%nat →
  let g' := foldl (time_step L p ndim) g (seq 0 u) in
  gen_inv L ntime ndim g' ∧ same_frame g g' ∧
  rows_drawn L ndim (mean1 p) (sigma1 p) u (x1 g') ∧
  rows_drawn L ndim (mean2 p) (sigma2 p) u (x2 g').
Proof.
  intros Hinv. induction u as [|u IH]; intros Hu.
  - simpl. split; [done|]. split; [apply same_frame_refl|]. split; intros j Hj; lia.
  - rewrite seq_S, foldl_app. simpl.
    destruct IH as (Hg & Fr & D1 & D2); [lia|].
    set (gm := foldl (time_step L p ndim) g (seq 0 u)) in *.
    destruct (time_step_spec L ntime ndim p gm u Hg) as (Hg' & Fr' & Oth & N1 & N2); [lia|].
    split; [done|]. split; [by eapply same_frame_trans|].
    split.
    + intros j Hj. destruct (decide (j = u)) as [->|Hne]; [done|].
      rewrite (proj1 (Oth j Hne)). apply D1. lia.
    + intros j Hj. destruct (decide (j = u)) as [->|Hne]; [done|].
      rewrite (proj2 (Oth j Hne)). apply D2. lia.
Qed.

(** Reading all the booked addresses of a tree gives back its buffer. *)
Lemma read_branches (b : Buffer) (T : nat) (bs : list TBranch) (xa xb : list (list R)) :
  br_addr <$> bs = (λ i, (b, i)) <$> seq 0 T →
  length (match b with X1 => xa | X2 => xb end) = T →
  (λ br, read_addr xa xb (br_addr br)) <$> bs = match b with X1 => xa | X2 => xb end.
Proof.
  intros Haddr Hlen.
  rewrite (list_fmap_compose br_addr (read_addr xa xb)), Haddr, <- list_fmap_compose.
  apply list_eq. intros i. rewrite list_lookup_fmap.
  destruct (decide (i < T)%nat) as [Hi|Hi].
  - rewrite lookup_seq_lt by done. simpl. unfold read_addr. simpl.
    destruct (lookup_lt_is_Some_2 (match b with X1 => xa | X2 => xb end) i) as [row Hrow];
      [lia|].
    by rewrite Hrow.
  - rewrite lookup_seq_ge by lia. simpl. symmetry. apply lookup_ge_None. lia.
Qed.

Lemma tree_inv_fill (ntime ndim : Z) (b : Buffer) (mean sigma : list R) (t : TTree)
    (xa xb : list (list R)) :
  tree_inv L ntime ndim b mean sigma t →
  shape (Z.to_nat ntime) (Z.to_nat ndim) (match b with X1 => xa | X2 => xb end) →
  rows_drawn L ndim mean sigma (Z.to_nat ntime) (match b with X1 => xa | X2 => xb end) →
  tree_inv L ntime ndim b mean sigma (TTree_Fill xa xb t) ∧
  t_entries (TTree_Fill xa xb t) = t_entries t ++ [match b with X1 => xa | X2 => xb end].
Proof.
  intros [Ha Hn He] Hs Hd.
  assert (Hnew : t_entries (TTree_Fill xa xb t)
                 = t_entries t ++ [match b with X1 => xa | X2 => xb end]).
  { simpl. f_equal. f_equal. apply (read_branches b (Z.to_nat ntime)); [done|apply Hs]. }
  split; [|done]. split; [done|done|].
  rewrite Hnew. apply Forall_app. split; [done|]. by apply Forall_singleton.
Qed.

Lemma add_out_nil g : add_out L [] g = g.
Proof. destruct g. unfold add_out. simpl. by rewrite app_nil_r. Qed.

Lemma add_out_app (e1 e2 : list Event) g :
  add_out L e2 (add_out L e1 g) = add_out L (e1 ++ e2) g.
Proof. unfold add_out. simpl. by rewrite app_assoc. Qed.

Lemma emit_add_out (e : Event) g : emit L e g = add_out L [e] g.
Proof. done. Qed.

Lemma draw_pads_loop (offset : Z) (v : list TH1) (idx : list nat) g :
  foldl (draw_pads L offset v) g idx = add_out L (pad_events offset v idx) g.
Proof.
  revert g. induction idx as [|j idx IH]; intros g.
  - simpl. by rewrite add_out_nil.
  - simpl. rewrite IH. unfold draw_pads. rewrite !emit_add_out, !add_out_app. done.
Qed.

Lemma draw_canvas_spec (ntime : Z) g :
  draw_canvas L ntime g = add_out L (canvas_events ntime (v1 g) (v2 g)) g.
Proof.
  unfold draw_canvas. rewrite !draw_pads_loop, !emit_add_out, !add_out_app. done.
Qed.

Lemma pad_events_kind (offset : Z) (v : list TH1) (idx : list nat) :
  Forall (gen_event 1) (pad_events offset v idx).
Proof.
  unfold pad_events. induction idx as [|j idx IH]; simpl; [done|].
  by repeat constructor.
Qed.

Lemma canvas_events_kind (ntime : Z) (va vb : list TH1) :
  Forall (gen_event 1) (canvas_events ntime va vb).
Proof.
  unfold canvas_events. repeat (apply Forall_app; split);
    try apply pad_events_kind; by repeat constructor.
Qed.

Lemma event_step_spec (n ntime ndim : Z) (p : StepParams) g (i : nat) :
  0 ≤ ntime →
  loop_inv L n ntime ndim p i g →
  loop_inv L n ntime ndim p (S i) (event_step L n ntime ndim p g i).
Proof.
  intros HT [Hg Hs Hb Cs Cb Ho Hc]. unfold event_step.
  set (g0 := if decide (Z.of_nat i `rem` 1000 = 0) then _ else g).
  assert (Hg0 : gen_inv L ntime ndim g0).
  { unfold g0. destruct (decide _); [|done]. by destruct Hg. }
  assert (Hf0 : sgn g0 = sgn g ∧ bkg g0 = bkg g).
  { unfold g0. by destruct (decide _). }
  assert (Ho0 : Forall (gen_event n) (out g0)).
  { unfold g0. destruct (decide _); [|done]. simpl.
    apply Forall_app. split; [done|]. by repeat constructor. }
  assert (Hc0 : ∀ e, e ∈ out g → e ∈ out g0).
  { intros e He. unfold g0. destruct (decide _); [|done]. simpl.
    apply elem_of_app. by left. }
  clearbody g0.
  destruct (time_loop_spec ntime ndim p g0 (Z.to_nat ntime) Hg0)
    as (Hg1 & [Fs Fb Fo] & D1 & D2); [lia|].
  set (g1 := foldl (time_step L p ndim) g0 (seq 0 (Z.to_nat ntime))) in *.
  destruct Hf0 as [Es Eb].
  destruct (tree_inv_fill ntime ndim X2 (mean2 p) (sigma2 p) (sgn g1) (x1 g1) (x2 g1))
    as [Hs' Hse]; [by rewrite Fs, Es | by destruct Hg1 | done |].
  destruct (tree_inv_fill ntime ndim X1 (mean1 p) (sigma1 p) (bkg g1) (x1 g1) (x2 g1))
    as [Hb' Hbe]; [by rewrite Fb, Eb | by destruct Hg1 | done |].
  set (g3 := set_bkg L _ (set_sgn L _ g1)).
  assert (Hg3 : gen_inv L ntime ndim g3) by (by destruct Hg1).
  assert (Cs3 : length (t_entries (sgn g3)) = S i).
  { change (sgn g3) with (TTree_Fill (x1 g1) (x2 g1) (sgn g1)).
    rewrite Hse, length_app, Fs, Es, Cs. simpl. clear. lia. }
  assert (Cb3 : length (t_entries (bkg g3)) = S i).
  { change (bkg g3) with (TTree_Fill (x1 g1) (x2 g1) (bkg g1)).
    rewrite Hbe, length_app, Fb, Eb, Cb. simpl. clear. lia. }
  assert (Ho3 : Forall (gen_event n) (out g3)) by (simpl; by rewrite Fo).
  assert (Hsub : ∀ e, e ∈ out g → e ∈ out g3).
  { intros e He. simpl. rewrite Fo. by apply Hc0. }
  assert (Hs3 : tree_inv L ntime ndim X2 (mean2 p) (sigma2 p) (sgn g3)) by done.
  assert (Hb3 : tree_inv L ntime ndim X1 (mean1 p) (sigma1 p) (bkg g3)) by done.
  clearbody g3.
  destruct (decide (n = 1)) as [Hn|Hn].
  - rewrite draw_canvas_spec. split; try done.
    + by destruct Hg3.
    + simpl. apply Forall_app. split; [done|]. subst n. apply canvas_events_kind.
    + intros _ _. simpl. apply elem_of_app. right. unfold canvas_events. simpl. left.
  - split; try done.
Qed.
End EventLoopFacts.

Section RunFacts.
Context (L : RandomLib).
Implicit Types (g : Gen L) (w : World L).

Lemma book_loop (b : Buffer) (t : TTree) (idx : list nat) :
  t_branches (foldl (book b) t idx)
  = t_branches t ++ ((λ i, mkTBranch ("vars_time" +:+ pretty (Z.of_nat i))
                                      "std::vector<float>" (b, i)) <$> idx) ∧
  t_entries (foldl (book b) t idx) = t_entries t.
Proof.
  revert t. induction idx as [|i idx IH]; intros t.
  - simpl. by rewrite app_nil_r.
  - simpl. destruct (IH (book b t i)) as [-> ->]. simpl.
    by rewrite <- app_assoc.
Qed.

Lemma tree_inv_init (ntime ndim : Z) (b : Buffer) (mean sigma : list R) (name : string) :
  tree_inv L ntime ndim b mean sigma
           (foldl (book b) (TTree_new name name) (seq 0 (Z.to_nat ntime))) ∧
  t_entries (foldl (book b) (TTree_new name name) (seq 0 (Z.to_nat ntime))) = [].
Proof.
  destruct (book_loop b (TTree_new name name) (seq 0 (Z.to_nat ntime))) as [Hb He].
  simpl in Hb, He. split; [|done]. split.
  - rewrite Hb, <- list_fmap_compose. done.
  - rewrite Hb, <- list_fmap_compose. done.
  - rewrite He. constructor.
Qed.

Lemma gen_init_inv (n ntime ndim : Z) (p : StepParams) (r : rng L) :
  loop_inv L n ntime ndim p 0 (gen_init L ntime ndim r).
Proof.
  destruct (tree_inv_init ntime ndim X2 (mean2 p) (sigma2 p) "sgn") as [Hs Hse].
  destruct (tree_inv_init ntime ndim X1 (mean1 p) (sigma1 p) "bkg") as [Hb Hbe].
  split.
  - split; simpl.
    + by rewrite length_fmap, length_seq.
    + by rewrite length_fmap, length_seq.
    + apply Forall_fmap, Forall_forall. by intros i _.
    + apply Forall_fmap, Forall_forall. by intros i _.
    + done.
    + done.
    + split; [by rewrite length_replicate|].
      apply Forall_replicate. by rewrite length_replicate.
    + split; [by rewrite length_replicate|].
      apply Forall_replicate. by rewrite length_replicate.
  - exact Hs.
  - exact Hb.
  - simpl. by rewrite Hse.
  - simpl. by rewrite Hbe.
  - constructor.
  - intros _ Hc. lia.
Qed.

Lemma event_loop_inv (n ntime ndim : Z) (p : StepParams) g (u : nat) :
  0 ≤ ntime →
  loop_inv L n ntime ndim p 0 g →
  loop_inv L n ntime ndim p u (foldl (event_step L n ntime ndim p) g (seq 0 u)).
Proof.
  intros HT Hg. induction u as [|u IH]; [done|].
  rewrite seq_S, foldl_app. simpl. by apply event_step_spec.
Qed.

Lemma loop_inv_print (n ntime ndim : Z) (p : StepParams) (c : nat) g (name : string) :
  loop_inv L n ntime ndim p c g →
  loop_inv L n ntime ndim p c (emit L (TreePrint name) g).
Proof.
  intros [Hg Hs Hb Cs Cb Ho Hc]. split; try done.
  - by destruct Hg.
  - simpl. apply Forall_app. split; [done|]. by repeat constructor.
  - intros Hn Hpos. simpl. apply elem_of_app. left. by apply Hc.
Qed.

Lemma MakeTimeData_run_ok (n ntime ndim : Z) w :
  0 ≤ ntime → 0 ≤ ndim →
  ∃ g w', MakeTimeData_run L n ntime ndim w = Some (g, w') ∧
          run_ok L n ntime ndim w g w'.
Proof.
  intros HT HD. unfold MakeTimeData_run.
  destruct (decide (ntime < 0 ∨ 0 < ntime ∧ ndim < 0)) as [Hbad|_]; [lia|].
  destruct (lib_SetSeed L 0 (sys_entropy w)) as [r e].
  pose proof (event_loop_inv n ntime ndim (make_params ntime) _ (Z.to_nat n) HT
                (gen_init_inv n ntime ndim (make_params ntime) r)) as Hloop.
  set (g := foldl _ _ _) in *.
  destruct (decide (1 < n)) as [Hn|Hn].
  - eexists _, _. split; [reflexivity|]. split; simpl.
    + by do 2 apply loop_inv_print.
    + by destruct (decide (1 < n)).
    + done.
    + done.
  - eexists _, _. split; [reflexivity|]. split; simpl; try done.
    by destruct (decide (1 < n)).
Qed.
End RunFacts.

(** ** What a run of the generator produces *)

Section RunResults.
Context (L : RandomLib).
Implicit Types (g : Gen L) (w : World L).

Lemma rows_drawn_cells (ntime ndim : Z) (mean sigma : list R) (fm fs : nat → R)
    (e : list (list R)) (j k : nat) :
  rows_drawn L ndim mean sigma (Z.to_nat ntime) e →
  (j < Z.to_nat ntime)%nat → (k < Z.to_nat ndim)%nat →
  mean !!! j = fm j → sigma !!! j = fs j →
  ∃ v, cell e j k = Some v ∧ noisy_bin L ndim (fm j) (fs j) k v.
Proof.
  intros Hrows Hj Hk <- <-.
  destruct (Hrows j Hj) as (row & Hrow & Hd).
  destruct (Hd k Hk) as (v & Hv & Hnb).
  exists v. split; [|done]. unfold cell. by rewrite Hrow.
Qed.

Lemma run_drawn (n ntime ndim : Z) w g w' :
  run_ok L n ntime ndim w g w' →
  drawn_from L ntime ndim (mean2_at ntime) (sigma2_at ntime) (sgn g) ∧
  drawn_from L ntime ndim (mean1_at ntime) (sigma1_at ntime) (bkg g).
Proof.
  intros [[_ [_ _ Hs] [_ _ Hb] _ _ _ _] _ _ _].
  split; intros e j k He Hj Hk;
    destruct (make_params_total ntime j Hj) as (M1 & M2 & S1 & S2).
  - apply (proj1 (Forall_forall _ _) Hs) in He as [_ Hrows].
    by eapply rows_drawn_cells.
  - apply (proj1 (Forall_forall _ _) Hb) in He as [_ Hrows].
    by eapply rows_drawn_cells.
Qed.

Lemma run_shape (n ntime ndim : Z) w g w' :
  run_ok L n ntime ndim w g w' →
  Forall (shape (Z.to_nat ntime) (Z.to_nat ndim)) (t_entries (sgn g)) ∧
  Forall (shape (Z.to_nat ntime) (Z.to_nat ndim)) (t_entries (bkg g)).
Proof.
  intros [[_ [_ _ Hs] [_ _ Hb] _ _ _ _] _ _ _].
  split; eapply Forall_impl; try eassumption; by intros e [He _].
Qed.

Lemma run_count (n ntime ndim : Z) w g w' :
  run_ok L n ntime ndim w g w' →
  length (t_entries (sgn g)) = Z.to_nat n ∧ length (t_entries (bkg g)) = Z.to_nat n.
Proof. by intros [[_ _ _ Cs Cb _ _] _ _ _]. Qed.

Lemma run_branches (n ntime ndim : Z) w g w' :
  run_ok L n ntime ndim w g w' →
  br_name <$> t_branches (sgn g) = branch_names ntime ∧
  br_name <$> t_branches (bkg g) = branch_names ntime.
Proof. by intros [[_ [_ Hs _] [_ Hb _] _ _ _ _] _ _ _]. Qed.

(** With more than one event the trees reach the file. *)
Lemma run_stored (n ntime ndim : Z) w g w' :
  run_ok L n ntime ndim w g w' → 1 < n → can_create w (fname ntime ndim) = true →
  stored_trees ntime ndim w' (sgn g) (bkg g).
Proof.
  intros [_ Hfs _ _] Hn Hcan. unfold stored_trees. rewrite Hfs.
  destruct (decide (1 < n)); [|lia]. unfold write_trees. rewrite Hcan.
  eexists. rewrite lookup_insert_eq. split; [done|].
  split; [by rewrite lookup_insert_ne, lookup_insert_eq | by rewrite lookup_insert_eq].
Qed.

(** With at most one event the file is created and left empty. *)
Lemma run_not_stored (n ntime ndim : Z) w g w' :
  run_ok L n ntime ndim w g w' → n ≤ 1 → can_create w (fname ntime ndim) = true →
  fs w' !! fname ntime ndim = Some (RootFile ∅).
Proof.
  intros [_ Hfs _ _] Hn Hcan. rewrite Hfs.
  destruct (decide (1 < n)); [lia|]. unfold recreate. rewrite Hcan.
  by rewrite lookup_insert_eq.
Qed.

(** A run changes no file but the one named after [(ntime, ndim)]. *)
Lemma run_other_files (n ntime ndim : Z) w g w' (name : string) :
  run_ok L n ntime ndim w g w' → name ≠ fname ntime ndim →
  fs w' !! name = fs w !! name.
Proof.
  intros [_ Hfs _ _] Hne. rewrite Hfs. unfold write_trees, recreate.
  destruct (decide (1 < n)); destruct (can_create w (fname ntime ndim));
    by rewrite ?lookup_insert_ne.
Qed.

(** When the file can be created, it exists after the run. *)
Lemma run_file_exists (n ntime ndim : Z) w g w' :
  run_ok L n ntime ndim w g w' → can_create w (fname ntime ndim) = true →
  file_exists (fs w') (fname ntime ndim) = true.
Proof.
  intros Hrun Hcan. unfold file_exists. apply bool_decide_eq_true.
  destruct (decide (1 < n)) as [Hn|Hn].
  - destruct (run_stored _ _ _ _ _ _ Hrun Hn Hcan) as (keys & -> & _). by eexists.
  - rewrite (run_not_stored _ _ _ _ _ _ Hrun) by (done || lia). by eexists.
Qed.
End RunResults.

(** ** The counter generator, evaluated *)

Lemma deviate_cases (r : Z) : deviate r = 0%R ∨ deviate r = 1%R.
Proof. unfold deviate. destruct (Z.even r); auto. Qed.

Lemma counter_noisy_bin (ndim : Z) (mean sigma : R) (k : nat) (v : R) :
  (k + 1 < Z.to_nat (ndim + 2))%nat →
  noisy_bin CounterLib ndim mean sigma k v →
  ∃ d, (d = 0 ∨ d = 1)%R ∧
       v = ((if in_cell ndim 0 10 mean (k + 1) then 0 + 1000 else 0) + (0 + 10 * d))%R.
Proof.
  intros Hk (f & h & r & r' & [_ Hpar] & (Hn & Hl & Hu & Hc) & ->).
  exists (deviate r'). split; [apply deviate_cases|].
  unfold TH1_FillRandom, GetBinContent. simpl. unfold fill_at.
  rewrite Hpar, Hn, Hl, Hu, Hc. simpl.
  rewrite list_lookup_imap. unfold zero_cells.
  rewrite lookup_replicate_2 by done. simpl. done.
Qed.

Lemma phase_1_0 : phase 1 0 = 0%R.
Proof. unfold phase. simpl. lra. Qed.

Lemma in_cell_mean1 : in_cell 25 0 10 (mean1_at 1 0) 14 = false.
Proof.
  unfold mean1_at, in_cell. rewrite phase_1_0, sin_0. simpl.
  apply andb_false_intro1, bool_decide_eq_false. lra.
Qed.

Lemma in_cell_mean2 : in_cell 25 0 10 (mean2_at 1 0) 14 = true.
Proof.
  unfold mean2_at, in_cell. rewrite phase_1_0, cos_0. simpl.
  apply andb_true_intro. split; apply bool_decide_eq_true; lra.
Qed.

(** ** The claims on the generator *)

(** C1, as stated, fails: with one event, one time step and 25 features on
    the counter generator, feature 13 of the [sgn] entry is not a noisy bin
    of the Gaussian [(mean1[0], sigma1[0])]: all 1000 draws of [h2] sit in
    bin 13, those of [h1] in bin 12. *)
Lemma C1_sgn_not_from_mean1 :
  ∃ g w', MakeTimeData_run CounterLib 1 1 25 (blank 0) = Some (g, w') ∧
          ¬ drawn_from CounterLib 1 25 (mean1_at 1) (sigma1_at 1) (sgn g).
Proof.
  destruct (MakeTimeData_run_ok CounterLib 1 1 25 (blank 0)) as (g & w' & Hrun & Hok);
    [lia..|].
  exists g, w'. split; [done|]. intros Hclaim.
  destruct (run_count _ _ _ _ _ _ _ Hok) as [Cs _].
  destruct (t_entries (sgn g)) as [|e l] eqn:E; [simpl in Cs; lia|].
  destruct (run_drawn _ _ _ _ _ _ _ Hok) as [Hs _].
  destruct (Hs e 0%nat 13%nat) as (v & Hv & Hn2);
    [rewrite E; apply list_elem_of_here | simpl; lia ..|].
  destruct (Hclaim e 0%nat 13%nat) as (v' & Hv' & Hn1);
    [rewrite E; apply list_elem_of_here | simpl; lia ..|].
  rewrite Hv in Hv'. injection Hv' as <-.
  apply counter_noisy_bin in Hn1 as (d1 & Hd1 & E1); [|simpl; lia].
  apply counter_noisy_bin in Hn2 as (d2 & Hd2 & E2); [|simpl; lia].
  simpl in E1, E2. rewrite in_cell_mean1 in E1. rewrite in_cell_mean2 in E2.
  destruct Hd1, Hd2; subst; lra.
Qed.

(** C1, amended. For every entry, time step [j] and feature index [k], the
    feature in the [sgn] tree is bin [k] of a [D]-bin histogram over [0,10]
    filled with 1000 draws of the Gaussian [(mean2[j], sigma2[j])]
    (the cosine parameters) plus Gaussian noise of mean 0 and sigma 10; the
    feature in the [bkg] tree is built in the same way from
    [(mean1[j], sigma1[j])] (the sine parameters).  With more than one event
    these trees are the ones stored under the keys [sgn] and [bkg]. *)
Theorem C1_features_by_tree (L : RandomLib) (n T D : Z) (w : World L) :
  0 < T → 0 < D →
  ∃ g w', MakeTimeData_run L n T D w = Some (g, w') ∧
    length (t_entries (sgn g)) = Z.to_nat n ∧
    length (t_entries (bkg g)) = Z.to_nat n ∧
    drawn_from L T D (mean2_at T) (sigma2_at T) (sgn g) ∧
    drawn_from L T D (mean1_at T) (sigma1_at T) (bkg g) ∧
    (1 < n → can_create w (fname T D) = true → stored_trees T D w' (sgn g) (bkg g)).
Proof.
  intros HT HD.
  destruct (MakeTimeData_run_ok L n T D w) as (g & w' & Hrun & Hok); [lia..|].
  exists g, w'. split; [done|].
  destruct (run_count _ _ _ _ _ _ _ Hok) as [Cs Cb].
  destruct (run_drawn _ _ _ _ _ _ _ Hok) as [Hs Hb].
  repeat split; try done. intros Hn Hcan. by eapply run_stored.
Qed.

Lemma C1_features_by_tree_witness :
  ∃ g w', MakeTimeData_run CounterLib 2 1 25 (blank 0) = Some (g, w') ∧
    length (t_entries (sgn g)) = Z.to_nat 2 ∧
    length (t_entries (bkg g)) = Z.to_nat 2 ∧
    drawn_from CounterLib 1 25 (mean2_at 1) (sigma2_at 1) (sgn g) ∧
    drawn_from CounterLib 1 25 (mean1_at 1) (sigma1_at 1) (bkg g) ∧
    (1 < 2 → can_create (blank 0) (fname 1 25) = true → stored_trees 1 25 w' (sgn g) (bkg g)).
Proof. apply (C1_features_by_tree CounterLib 2 1 25 (blank 0)); lia. Defined.

(** C3, as stated, fails: a run for a single event leaves a file that holds
    no tree. *)
Lemma C3_single_event_not_persisted :
  ∃ g w', MakeTimeData_run CounterLib 1 1 1 (blank 0) = Some (g, w') ∧
          ¬ persisted 1 1 1 w'.
Proof.
  destruct (MakeTimeData_run_ok CounterLib 1 1 1 (blank 0)) as (g & w' & Hrun & Hok);
    [lia..|].
  exists g, w'. split; [done|].
  intros (s & b & (keys & Hfile & Hs & _) & _).
  rewrite (run_not_stored _ _ _ _ _ _ _ Hok) in Hfile by (done || lia).
  injection Hfile as <-. by rewrite lookup_empty in Hs.
Qed.

(** C3, amended. For [N, T, D > 0] and a file that can be created, the run
    fills two trees, [sgn] and [bkg], with one branch per time step and
    exactly [N] entries each.  For [N > 1] both are written to the file named
    after [(T, D)].  For [N = 1] the canvas is drawn (and only then) and the
    single entry is filled as for any other [N], but nothing is written: the
    file is created and holds no tree. *)
Theorem C3_collections (L : RandomLib) (n T D : Z) (w : World L) :
  0 < n → 0 < T → 0 < D → can_create w (fname T D) = true →
  ∃ g w', MakeTimeData_run L n T D w = Some (g, w') ∧
    length (t_entries (sgn g)) = Z.to_nat n ∧
    length (t_entries (bkg g)) = Z.to_nat n ∧
    br_name <$> t_branches (sgn g) = branch_names T ∧
    br_name <$> t_branches (bkg g) = branch_names T ∧
    (1 < n → stored_trees T D w' (sgn g) (bkg g) ∧ persisted n T D w') ∧
    (n = 1 → fs w' !! fname T D = Some (RootFile ∅)) ∧
    (NewCanvas ∈ out g ↔ n = 1).
Proof.
  intros Hn HT HD Hcan.
  destruct (MakeTimeData_run_ok L n T D w) as (g & w' & Hrun & Hok); [lia..|].
  exists g, w'. split; [done|].
  destruct (run_count _ _ _ _ _ _ _ Hok) as [Cs Cb].
  destruct (run_branches _ _ _ _ _ _ _ Hok) as [Bs Bb].
  do 4 (split; [done|]). split; [|split].
  - intros Hn1. pose proof (run_stored _ _ _ _ _ _ _ Hok Hn1 Hcan) as Hst.
    split; [done|]. by exists (sgn g), (bkg g).
  - intros ->. by eapply run_not_stored.
  - destruct Hok as [[_ _ _ _ _ Hout Hcanvas] _ _ _]. split.
    + intros Hin. exact (proj1 (Forall_forall _ _) Hout _ Hin).
    + intros ->. apply Hcanvas; [done|]. simpl. lia.
Qed.

Lemma C3_collections_witness :
  ∃ g w', MakeTimeData_run CounterLib 3 2 4 (blank 0) = Some (g, w') ∧
    length (t_entries (sgn g)) = Z.to_nat 3 ∧
    length (t_entries (bkg g)) = Z.to_nat 3 ∧
    br_name <$> t_branches (sgn g) = branch_names 2 ∧
    br_name <$> t_branches (bkg g) = branch_names 2 ∧
    (1 < 3 → stored_trees 2 4 w' (sgn g) (bkg g) ∧ persisted 3 2 4 w') ∧
    (3 = 1 → fs w' !! fname 2 4 = Some (RootFile ∅)) ∧
    (NewCanvas ∈ out g ↔ 3 = 1).
Proof. apply (C3_collections CounterLib 3 2 4 (blank 0)); (lia || reflexivity). Defined.

(** C4. For every valid [(N, T, D)], each of the [N] entries of either tree
    has exactly [T] time steps and each time step exactly [D] features. *)
Theorem C4_entries_shape (L : RandomLib) (n T D : Z) (w : World L) :
  0 < n → 0 < T → 0 < D →
  ∃ g w', MakeTimeData_run L n T D w = Some (g, w') ∧
    length (t_entries (sgn g)) = Z.to_nat n ∧
    length (t_entries (bkg g)) = Z.to_nat n ∧
    ∀ e, e ∈ t_entries (sgn g) ∨ e ∈ t_entries (bkg g) →
      length e = Z.to_nat T ∧ ∀ row, row ∈ e → length row = Z.to_nat D.
Proof.
  intros Hn HT HD.
  destruct (MakeTimeData_run_ok L n T D w) as (g & w' & Hrun & Hok); [lia..|].
  exists g, w'. split; [done|].
  destruct (run_count _ _ _ _ _ _ _ Hok) as [Cs Cb].
  destruct (run_shape _ _ _ _ _ _ _ Hok) as [Ss Sb].
  do 2 (split; [done|]).
  intros e [He|He].
  - destruct (proj1 (Forall_forall _ _) Ss e He) as [Hl Hr].
    split; [done|]. intros row Hrow. exact (proj1 (Forall_forall _ _) Hr row Hrow).
  - destruct (proj1 (Forall_forall _ _) Sb e He) as [Hl Hr].
    split; [done|]. intros row Hrow. exact (proj1 (Forall_forall _ _) Hr row Hrow).
Qed.

Lemma C4_entries_shape_witness :
  ∃ g w', MakeTimeData_run CounterLib 3 2 4 (blank 0) = Some (g, w') ∧
    length (t_entries (sgn g)) = Z.to_nat 3 ∧
    length (t_entries (bkg g)) = Z.to_nat 3 ∧
    ∀ e, e ∈ t_entries (sgn g) ∨ e ∈ t_entries (bkg g) →
      length e = Z.to_nat 2 ∧ ∀ row, row ∈ e → length row = Z.to_nat 4.
Proof. apply (C4_entries_shape CounterLib 3 2 4 (blank 0)); lia. Defined.

(** ** The orchestrator *)

Lemma fname_input : fname ntime ninput = inputFileName.
Proof. reflexivity. Qed.

Lemma gen_event_not_training (n : Z) (e : Event) : gen_event n e → training_side e = false.
Proof. by destruct e. Qed.

Section OrchestratorFacts.
Context {L : RandomLib}.
Implicit Types (w : World L).

Lemma quiet_step_trans w1 w2 w3 : quiet_step w1 w2 → quiet_step w2 w3 → quiet_step w1 w3.
Proof.
  intros [C1 (e1 & T1 & F1)] [C2 (e2 & T2 & F2)]. split; [congruence|].
  exists (e1 ++ e2). split; [by rewrite T2, T1, app_assoc | by apply Forall_app].
Qed.

Lemma say_quiet (e : Event) w :
  training_side e = false → fs (say e w) = fs w ∧ quiet_step w (say e w).
Proof.
  intros He. split; [done|]. split; [done|]. exists [e]. split; [done|].
  by apply Forall_singleton.
Qed.

Lemma quiet_refl w : fs w = fs w ∧ quiet_step w w.
Proof.
  split; [done|]. split; [done|]. exists []. split; [by rewrite app_nil_r | constructor].
Qed.

Lemma quiet_chain w1 w2 w3 :
  fs w2 = fs w1 ∧ quiet_step w1 w2 → fs w3 = fs w2 ∧ quiet_step w2 w3 →
  fs w3 = fs w1 ∧ quiet_step w1 w3.
Proof.
  intros [F1 Q1] [F2 Q2]. split; [congruence | by eapply quiet_step_trans].
Qed.

Lemma warn_no_backend_quiet (b : Build) w :
  fs (warn_no_backend b w) = fs w ∧ quiet_step w (warn_no_backend b w).
Proof.
  unfold warn_no_backend. destruct (_ && _); [by apply say_quiet | apply quiet_refl].
Qed.

Lemma init_python_quiet (b : Build) w :
  fs (init_python b w) = fs w ∧ quiet_step w (init_python b w).
Proof.
  unfold init_python. destruct (R__HAS_PYMVA b); [by apply say_quiet | apply quiet_refl].
Qed.

Lemma enable_threads_quiet w :
  fs (enable_threads w) = fs w ∧ quiet_step w (enable_threads w).
Proof.
  unfold enable_threads. destruct (decide (0 ≤ num_threads)); [|by apply say_quiet].
  destruct (decide (0 < num_threads)).
  - eapply quiet_chain; by apply say_quiet.
  - by apply say_quiet.
Qed.

Lemma prologue_spec (b : Build) w :
  fs (prologue b w) = fs w ∧ quiet_step w (prologue b w).
Proof.
  unfold prologue.
  eapply quiet_chain; [apply (warn_no_backend_quiet b)|].
  eapply quiet_chain; [apply (init_python_quiet b)|].
  eapply quiet_chain; [apply enable_threads_quiet|].
  eapply quiet_chain; by apply say_quiet.
Qed.

Lemma ensure_input_spec w :
  ∃ w1, ensure_input w = Some w1 ∧ quiet_step w w1 ∧
    (file_exists (fs w) inputFileName = true → w1 = w) ∧
    (file_exists (fs w) inputFileName = false →
       ∃ g, run_ok L nTotEvts ntime ninput w g w1).
Proof.
  unfold ensure_input. destruct (file_exists (fs w) inputFileName) eqn:Hex.
  - exists w. split; [done|]. split; [|done].
    split; [done|]. exists []. by rewrite app_nil_r.
  - destruct (MakeTimeData_run_ok L nTotEvts ntime ninput w) as (g & w1 & Hrun & Hok);
      [done..|].
    exists w1. unfold MakeTimeData. rewrite Hrun. split; [done|].
    split; [|split; [done|by exists g]].
    destruct Hok as [[_ _ _ _ _ Hout _] _ Hcan Htr]. split; [done|].
    exists (out g). split; [done|].
    eapply Forall_impl; [exact Hout|]. intros e. apply gen_event_not_training.
Qed.

Lemma add_variables_loop w (idx : list nat) :
  fs (foldl add_variables w idx) = fs w ∧
  can_create (foldl add_variables w idx) = can_create w ∧
  trace (foldl add_variables w idx)
  = trace w ++ ((λ i, AddVariablesArray ("vars_time" +:+ pretty (Z.of_nat i)) ninput) <$> idx).
Proof.
  revert w. induction idx as [|i idx IH]; intros w; simpl.
  - by rewrite app_nil_r.
  - destruct (IH (add_variables w i)) as (-> & -> & ->). simpl.
    by rewrite <- app_assoc.
Qed.

Lemma trace_say (e : Event) w : trace (say e w) = trace w ++ [e].
Proof. done. Qed.

Lemma trace_set_fs (m : gmap string disk_file) w : trace (set_fs m w) = trace w.
Proof. done. Qed.

Lemma trace_add_variables w (idx : list nat) :
  trace (foldl add_variables w idx)
  = trace w ++ ((λ i, AddVariablesArray ("vars_time" +:+ pretty (Z.of_nat i)) ninput) <$> idx).
Proof. by destruct (add_variables_loop w idx) as (_ & _ & ->). Qed.

Lemma book_rnn_trace (b : Build) (use_type : Z) (keys : gmap string TTree) w :
  trace (book_rnn b use_type keys w)
  = trace w ++ book_events b use_type keys
      (if can_create w ("data_RNN_" +:+ archString b +:+ ".root")
       then Some ("data_RNN_" +:+ archString b +:+ ".root") else None).
Proof.
  unfold book_rnn, book_events. cbv zeta.
  repeat first [rewrite trace_say | rewrite trace_add_variables | rewrite trace_set_fs].
  rewrite <- !app_assoc. reflexivity.
Qed.

Lemma run_final (b : Build) (use_type : Z) w w1 :
  ensure_input (prologue b w) = Some w1 →
  TMVA_RNN_Classification b use_type w =
  Some (match TFile_Open (fs w1) inputFileName with
        | None => say open_error w1
        | Some keys => book_rnn b use_type keys w1
        end).
Proof.
  intros H1. unfold TMVA_RNN_Classification. rewrite H1. simpl.
  by destruct (TFile_Open (fs w1) inputFileName).
Qed.
End OrchestratorFacts.

(** ** The claims on the orchestrator *)

(** C2. The selector is ignored: whatever [use_type] is, and so for
    [use_type = 1] (LSTM asked for) and [use_type = 2] (GRU asked for), the
    one method booked is [TMVA_RNN] with the layout [RNN|10|30|10|0|1];
    the vector [use_rnn_type] computed from the selector is never read. *)
Theorem C2_selector_ignored (use_type : Z) :
  ∃ w', TMVA_RNN_Classification cpu_build use_type stocked = Some w' ∧
    booked (trace w') =
      [("TMVA_RNN",
        "!H:V:ErrorStrategy=CROSSENTROPY:VarTransform=None:WeightInitialization=XAVIERUNIFORM:ValidationSize=0.2:RandomSeed=1234:InputLayout=10|30:Layout=RNN|10|30|10|0|1,RESHAPE|FLAT,DENSE|64|TANH,LINEAR:TrainingStrategy=LearningRate=1e-3,Momentum=0.0,Repetitions=1,ConvergenceSteps=5,BatchSize=100,TestRepetitions=1,WeightDecay=1e-2,Regularization=None,MaxEpochs=20,Optimizer=ADAM,DropConfig=0.0+0.+0.+0.:Architecture=CPU")] ∧
    use_rnn_type 1 = [false; true; false] ∧
    use_rnn_type 2 = [false; false; true].
Proof.
  assert (He : ensure_input (prologue cpu_build stocked) = Some (prologue cpu_build stocked))
    by reflexivity.
  assert (Ho : TFile_Open (fs (prologue cpu_build stocked)) inputFileName = Some stocked_keys)
    by reflexivity.
  exists (book_rnn cpu_build use_type stocked_keys (prologue cpu_build stocked)).
  split; [|split; [|by split]].
  - rewrite (run_final cpu_build use_type stocked _ He). by rewrite Ho.
  - rewrite book_rnn_trace. unfold booked. rewrite omap_app. reflexivity.
Qed.

(** The error path is also reached when the file is missing and cannot be
    created. *)
Lemma open_fails_on_read_only_disk (b : Build) :
  ∃ w1, ensure_input (prologue b read_only) = Some w1 ∧
        TFile_Open (fs w1) inputFileName = None.
Proof.
  destruct (ensure_input_spec (prologue b read_only)) as (w1 & He & _ & _ & Hgen).
  exists w1. split; [done|].
  destruct (prologue_spec b read_only) as [Hfs [Hcan _]].
  assert (Hmiss : file_exists (fs (prologue b read_only)) inputFileName = false).
  { unfold file_exists. by rewrite Hfs. }
  destruct (Hgen Hmiss) as [g [_ Hrun _ _]].
  unfold TFile_Open. rewrite Hrun. unfold write_trees, recreate.
  rewrite Hcan, Hfs. by destruct (decide (1 < nTotEvts)).
Qed.

Lemma prepare_options_values :
  option_value ":" "nTrain_Signal" prepareOptions = Some "8000" ∧
  option_value ":" "nTrain_Background" prepareOptions = Some "8000" ∧
  option_value ":" "SplitMode" prepareOptions = Some "Random" ∧
  option_value ":" "SplitSeed" prepareOptions = Some "100".
Proof. by vm_compute. Qed.

Lemma training_values (b : Build) (use_type : Z) :
  option_value ":" "TrainingStrategy" (rnnOptions b use_type) = Some trainingString1 ∧
  option_value "," "LearningRate" trainingString1 = Some "1e-3" ∧
  option_value "," "BatchSize" trainingString1 = Some "100" ∧
  option_value "," "MaxEpochs" trainingString1 = Some "20" ∧
  option_value "," "WeightDecay" trainingString1 = Some "1e-2" ∧
  option_value "," "Optimizer" trainingString1 = Some "ADAM" ∧
  option_value ":" "ErrorStrategy" (rnnOptions b use_type) = Some "CROSSENTROPY" ∧
  option_value ":" "WeightInitialization" (rnnOptions b use_type) = Some "XAVIERUNIFORM".
Proof. destruct b as [[] ? ?]; by vm_compute. Qed.

Lemma book_events_members (b : Build) (use_type : Z) (keys : gmap string TTree)
    (o : option string) :
  AddSignalTree (keys !! "sgn") 1 ∈ book_events b use_type keys o ∧
  AddBackgroundTree (keys !! "bkg") 1 ∈ book_events b use_type keys o ∧
  PrepareTrainingAndTestTree "" "" prepareOptions ∈ book_events b use_type keys o.
Proof.
  unfold book_events. repeat split; rewrite !elem_of_app; right; right;
    repeat first [apply list_elem_of_here | apply list_elem_of_further].
Qed.

(** C10. The file written by the generator is named
    [time_data_t{T}_d{D}.root] whatever the number of events: a run for
    [n1] events and a later run for [n2] events with the same [(T, D)]
    create and then replace that one file and touch no other, and after a
    run with [(T, D) = (10, 30)] the macro finds its input file and does not
    generate again, whatever [n1] was. *)
Theorem C10_file_name (L : RandomLib) (n1 n2 T D : Z) (w : World L) :
  0 < T → 0 < D → can_create w (fname T D) = true →
  fname T D = "time_data_t" +:+ pretty T +:+ "_d" +:+ pretty D +:+ ".root" ∧
  fname 10 30 = inputFileName ∧
  ∃ g1 w1 g2 w2,
    MakeTimeData_run L n1 T D w = Some (g1, w1) ∧
    MakeTimeData_run L n2 T D w1 = Some (g2, w2) ∧
    file_exists (fs w1) (fname T D) = true ∧
    (∀ name, name ≠ fname T D →
       fs w1 !! name = fs w !! name ∧ fs w2 !! name = fs w !! name) ∧
    fs w2 !! fname T D
      = Some (RootFile (if decide (1 < n2)
                        then <["bkg" := bkg g2]> (<["sgn" := sgn g2]> ∅) else ∅)) ∧
    (fname T D = inputFileName →
       MakeTimeData L n1 T D w = Some w1 ∧ ensure_input w1 = Some w1).
Proof.
  intros HT HD Hcan. split; [done|]. split; [done|].
  destruct (MakeTimeData_run_ok L n1 T D w) as (g1 & w1 & Hrun1 & Hok1); [lia..|].
  destruct (MakeTimeData_run_ok L n2 T D w1) as (g2 & w2 & Hrun2 & Hok2); [lia..|].
  exists g1, w1, g2, w2.
  assert (Hcan1 : can_create w1 (fname T D) = true).
  { destruct Hok1 as [_ _ -> _]. done. }
  pose proof (run_file_exists _ _ _ _ _ _ _ Hok1 Hcan) as Hex.
  do 3 (split; [done|]). split; [|split].
  - intros name Hne.
    rewrite (run_other_files _ _ _ _ _ _ _ name Hok2 Hne).
    by rewrite (run_other_files _ _ _ _ _ _ _ name Hok1 Hne).
  - destruct (decide (1 < n2)) as [Hn|Hn].
    + destruct Hok2 as [_ -> _ _]. unfold write_trees.
      destruct (decide (1 < n2)); [|lia]. rewrite Hcan1. by rewrite lookup_insert_eq.
    + eapply run_not_stored; [exact Hok2|lia|done].
  - intros Hname. unfold MakeTimeData. rewrite Hrun1. split; [done|].
    unfold ensure_input. by rewrite <- Hname, Hex.
Qed.

Lemma C10_file_name_witness :
  fname 10 30 = "time_data_t" +:+ pretty 10 +:+ "_d" +:+ pretty 30 +:+ ".root" ∧
  fname 10 30 = inputFileName ∧
  ∃ g1 w1 g2 w2,
    MakeTimeData_run CounterLib 5 10 30 (blank 0) = Some (g1, w1) ∧
    MakeTimeData_run CounterLib 7 10 30 w1 = Some (g2, w2) ∧
    file_exists (fs w1) (fname 10 30) = true ∧
    (∀ name, name ≠ fname 10 30 →
       fs w1 !! name = fs (blank 0) !! name ∧ fs w2 !! name = fs (blank 0) !! name) ∧
    fs w2 !! fname 10 30
      = Some (RootFile (if decide (1 < 7)
                        then <["bkg" := bkg g2]> (<["sgn" := sgn g2]> ∅) else ∅)) ∧
    (fname 10 30 = inputFileName →
       MakeTimeData CounterLib 5 10 30 (blank 0) = Some w1 ∧ ensure_input w1 = Some w1).
Proof. apply (C10_file_name CounterLib 5 7 10 30 (blank 0)); (lia || reflexivity). Defined.

(** * Further properties *)

(** ** File and branch names *)

Lemma occurs_cons (c a : Ascii.ascii) (s : string) :
  occurs c (String a s) = Ascii.eqb a c || occurs c s.
Proof. done. Qed.

(** A decimal digit is none of the characters that frame a number in the
    names built by the source. *)
Lemma pretty_N_go_occurs (c : Ascii.ascii) (x : N) (s : string) :
  (∀ d, (d < 10)%N → pretty_N_char d ≠ c) →
  occurs c s = false → occurs c (pretty_N_go x s) = false.
Proof.
  intros Hc. revert s. induction (N.lt_wf_0 x) as [x _ IH]; intros s Hs.
  assert (x = 0 ∨ 0 < x)%N as [->|Hx] by lia.
  - by rewrite pretty_N_go_0.
  - rewrite pretty_N_go_step by done. apply IH; [by apply N.div_lt|].
    rewrite occurs_cons, Hs, orb_false_r. apply Ascii.eqb_neq, Hc.
    by apply N.mod_lt.
Qed.

Lemma pretty_Z_occurs (c : Ascii.ascii) (z : Z) :
  (∀ d, (d < 10)%N → pretty_N_char d ≠ c) → c ≠ "-"%char →
  occurs c (pretty z) = false.
Proof.
  intros Hc Hdash.
  assert (HN : ∀ n : N, occurs c (pretty n) = false).
  { intros n. unfold pretty, pretty_N. destruct (decide (n = 0)%N).
    - rewrite occurs_cons. change (occurs c "") with false.
      rewrite orb_false_r. apply Ascii.eqb_neq. apply (Hc 0%N). lia.
    - by apply pretty_N_go_occurs. }
  destruct z as [|p|p]; unfold pretty, pretty_Z.
  - apply (HN 0%N).
  - apply (HN (N.pos p)).
  - change ("-" +:+ pretty p) with (String "-" (pretty (N.pos p))).
    rewrite occurs_cons, (HN (N.pos p)), orb_false_r. apply Ascii.eqb_neq. congruence.
Qed.

Lemma digit_not_underscore (d : N) : (d < 10)%N → pretty_N_char d ≠ "_"%char.
Proof. intros _. unfold pretty_N_char. by repeat case_match. Qed.

Lemma digit_not_dot (d : N) : (d < 10)%N → pretty_N_char d ≠ "."%char.
Proof. intros _. unfold pretty_N_char. by repeat case_match. Qed.

(** A string is cut in one way only at the first occurrence of [c]. *)
Lemma cut_unique (c : Ascii.ascii) (s1 s2 r1 r2 : string) :
  occurs c s1 = false → occurs c s2 = false →
  s1 +:+ String c r1 = s2 +:+ String c r2 → s1 = s2 ∧ r1 = r2.
Proof.
  revert s2. induction s1 as [|a s1 IH]; intros [|b s2]; rewrite ?occurs_cons;
    intros H1 H2 Heq.
  - by injection Heq as ->.
  - injection Heq as <- _. by rewrite Ascii.eqb_refl in H2.
  - injection Heq as -> _. by rewrite Ascii.eqb_refl in H1.
  - injection Heq as -> Heq.
    apply orb_false_elim in H1 as [_ H1]. apply orb_false_elim in H2 as [_ H2].
    destruct (IH s2 H1 H2 Heq) as [-> ->]. done.
Qed.

Lemma append_inv_head (p a b : string) : p +:+ a = p +:+ b → a = b.
Proof. induction p as [|c p IH]; [done|]. intros Heq. injection Heq as Heq. auto. Qed.

Lemma fname_inj (T D T' D' : Z) : fname T D = fname T' D' → T = T' ∧ D = D'.
Proof.
  unfold fname. intros Heq. apply append_inv_head in Heq.
  apply (cut_unique "_" _ _ ("d" +:+ pretty D +:+ ".root")
                            ("d" +:+ pretty D' +:+ ".root")) in Heq as [HT HD];
    [|apply pretty_Z_occurs; [exact digit_not_underscore | done] ..].
  apply append_inv_head in HD.
  apply (cut_unique "." _ _ "root" "root") in HD as [HD _];
    [|apply pretty_Z_occurs; [exact digit_not_dot | done] ..].
  split; by apply (inj pretty).
Qed.

Lemma vars_time_inj : Inj (=) (=) (λ i : nat, "vars_time" +:+ pretty (Z.of_nat i)).
Proof.
  intros i j Heq. apply append_inv_head in Heq.
  apply (inj pretty) in Heq. lia.
Qed.

(** X1. The file name determines the shape: two pairs [(T, D)] with the
    same file name are equal, so data sets of different shapes never share
    a file. *)
Theorem X1_file_name_injective (T D T' D' : Z) :
  fname T D = fname T' D' → T = T' ∧ D = D'.
Proof. exact (fname_inj T D T' D'). Qed.

Lemma X1_file_name_injective_witness : 10 = 10 ∧ 30 = 30.
Proof. apply (X1_file_name_injective 10 30 10 30). reflexivity. Defined.

(** ** Data and events of the generator, taken apart *)

Section DataFlow.
Context (L : RandomLib).
Implicit Types (g : Gen L).

Lemma with_out_eta g : with_out (out g) g = g.
Proof. by destruct g. Qed.

Lemma feature_step_out (j : nat) (o : list Event) g (k : nat) :
  feature_step L j (with_out o g) k = with_out o (feature_step L j g k).
Proof.
  unfold feature_step, Gaus. simpl.
  destruct (lib_Gaus L 0 10 (rnd g)) as [n1 r1]. simpl.
  by destruct (lib_Gaus L 0 10 r1) as [n2 r2].
Qed.

Lemma feature_loop_out (j : nat) (o : list Event) g (idx : list nat) :
  foldl (feature_step L j) (with_out o g) idx
  = with_out o (foldl (feature_step L j) g idx).
Proof.
  revert g. induction idx as [|k idx IH]; intros g; [done|].
  simpl. by rewrite feature_step_out, IH.
Qed.

Lemma time_step_out (p : StepParams) (ndim : Z) (o : list Event) g (j : nat) :
  time_step L p ndim (with_out o g) j = with_out o (time_step L p ndim g j).
Proof.
  unfold time_step. rewrite !fill_v2_spec, !fill_v1_spec.
  etrans; [|apply feature_loop_out]. reflexivity.
Qed.

Lemma time_loop_out (p : StepParams) (ndim : Z) (o : list Event) g (idx : list nat) :
  foldl (time_step L p ndim) (with_out o g) idx
  = with_out o (foldl (time_step L p ndim) g idx).
Proof.
  revert g. induction idx as [|j idx IH]; intros g; [done|].
  simpl. by rewrite time_step_out, IH.
Qed.

Lemma time_step_frame (p : StepParams) (ndim : Z) g (j : nat) :
  same_frame g (time_step L p ndim g j).
Proof.
  unfold time_step. rewrite fill_v2_spec, fill_v1_spec.
  match goal with |- same_frame _ (foldl _ ?g0 _) =>
    destruct (feature_loop_spec L j (Z.to_nat ndim) g0) as (Fr & _);
    apply (same_frame_trans L g g0); [by split | exact Fr] end.
Qed.

Lemma time_loop_frame (p : StepParams) (ndim : Z) g (idx : list nat) :
  same_frame g (foldl (time_step L p ndim) g idx).
Proof.
  revert g. induction idx as [|j idx IH]; intros g; [apply same_frame_refl|].
  simpl. eapply same_frame_trans; [apply time_step_frame | apply IH].
Qed.

Lemma event_data_out (ntime ndim : Z) (p : StepParams) (o : list Event) g :
  event_data L ntime ndim p (with_out o g) = with_out o (event_data L ntime ndim p g).
Proof. unfold event_data. by rewrite time_loop_out. Qed.

Lemma event_data_frame_out (ntime ndim : Z) (p : StepParams) g :
  out (event_data L ntime ndim p g) = out g.
Proof.
  unfold event_data. simpl. apply (frame_out (time_loop_frame p ndim g _)).
Qed.

Lemma event_tail (n ntime ndim : Z) (p : StepParams) g :
  (if decide (n = 1) then draw_canvas L ntime (event_data L ntime ndim p g)
   else event_data L ntime ndim p g)
  = with_out (out g ++ canvas_of L n ntime (event_data L ntime ndim p g))
             (event_data L ntime ndim p g).
Proof.
  unfold canvas_of. destruct (decide (n = 1)) as [Hn|Hn].
  - rewrite draw_canvas_spec. unfold add_out, with_out.
    by rewrite event_data_frame_out.
  - rewrite app_nil_r, <- (event_data_frame_out ntime ndim p g).
    by rewrite with_out_eta.
Qed.

(** One turn of the event loop is its data part, with the console line and
    the canvas added to the events. *)
Lemma event_step_split (n ntime ndim : Z) (p : StepParams) g (i : nat) :
  event_step L n ntime ndim p g i
  = with_out (out g ++ progress_line i
                    ++ canvas_of L n ntime (event_data L ntime ndim p g))
             (event_data L ntime ndim p g).
Proof.
  change (event_step L n ntime ndim p g i)
    with (if decide (n = 1)
          then draw_canvas L ntime
                 (event_data L ntime ndim p
                    (if decide (Z.of_nat i `rem` 1000 = 0)
                     then emit L (Cout ("Generating  event ... " +:+ pretty (Z.of_nat i))) g
                     else g))
          else event_data L ntime ndim p
                 (if decide (Z.of_nat i `rem` 1000 = 0)
                  then emit L (Cout ("Generating  event ... " +:+ pretty (Z.of_nat i))) g
                  else g)).
  rewrite event_tail. unfold progress_line.
  destruct (decide (Z.of_nat i `rem` 1000 = 0)) as [Hi|Hi].
  - change (emit L ?e g) with (with_out (out g ++ [e]) g).
    rewrite event_data_out. unfold canvas_of, with_out. simpl.
    by rewrite <- app_assoc.
  - done.
Qed.

Lemma event_step_erase (n ntime ndim : Z) (p : StepParams) g (i : nat) :
  with_out [] (event_step L n ntime ndim p g i)
  = event_data L ntime ndim p (with_out [] g).
Proof. rewrite event_step_split, event_data_out. reflexivity. Qed.

(** The data of a run does not depend on the number of events asked for,
    only on how many were made. *)
Lemma event_loop_erase (n ntime ndim : Z) (p : StepParams) g (u : nat) :
  with_out [] (foldl (event_step L n ntime ndim p) g (seq 0 u))
  = Nat.iter u (event_data L ntime ndim p) (with_out [] g).
Proof.
  induction u as [|u IH]; [done|].
  rewrite seq_S, foldl_app. simpl. rewrite event_step_erase. by rewrite IH.
Qed.

Lemma event_data_entries (ntime ndim : Z) (p : StepParams) g :
  ∃ e1 e2, t_entries (sgn (event_data L ntime ndim p g)) = t_entries (sgn g) ++ [e1] ∧
           t_entries (bkg (event_data L ntime ndim p g)) = t_entries (bkg g) ++ [e2].
Proof.
  unfold event_data. simpl.
  destruct (time_loop_frame p ndim g (seq 0 (Z.to_nat ntime))) as [-> -> _].
  by eexists _, _.
Qed.

Lemma iter_entries_prefix (ntime ndim : Z) (p : StepParams) g (u m : nat) :
  t_entries (sgn (Nat.iter u (event_data L ntime ndim p) g))
    `prefix_of` t_entries (sgn (Nat.iter (m + u) (event_data L ntime ndim p) g)) ∧
  t_entries (bkg (Nat.iter u (event_data L ntime ndim p) g))
    `prefix_of` t_entries (bkg (Nat.iter (m + u) (event_data L ntime ndim p) g)).
Proof.
  induction m as [|m [IHs IHb]]; [done|].
  change (S m + u)%nat with (S (m + u)). rewrite !Nat.iter_succ.
  destruct (event_data_entries ntime ndim p
              (Nat.iter (m + u) (event_data L ntime ndim p) g)) as (e1 & e2 & -> & ->).
  split; by apply prefix_app_r.
Qed.

(** The progress lines of a run that draws no canvas. *)
Lemma event_loop_out (n ntime ndim : Z) (p : StepParams) g (u : nat) :
  n ≠ 1 →
  out (foldl (event_step L n ntime ndim p) g (seq 0 u)) = out g ++ progress_lines u.
Proof.
  intros Hn. induction u as [|u IH].
  - simpl. by rewrite app_nil_r.
  - rewrite seq_S, foldl_app. simpl. rewrite event_step_split. simpl. rewrite IH.
    unfold canvas_of. destruct (decide (n = 1)); [done|]. rewrite app_nil_r.
    unfold progress_lines. rewrite seq_S, filter_app, fmap_app, app_assoc. f_equal.
    unfold progress_line.
    destruct (decide (Z.of_nat u `rem` 1000 = 0)) as [Hu|Hu].
    + by rewrite filter_cons_True.
    + by rewrite filter_cons_False.
Qed.
End DataFlow.

(** ** Further properties of a run *)

Section RunExtras.
Context (L : RandomLib).
Implicit Types (g : Gen L) (w : World L).

Lemma run_state (n ntime ndim : Z) w g w' :
  MakeTimeData_run L n ntime ndim w = Some (g, w') → g = final_state L n ntime ndim w.
Proof.
  unfold MakeTimeData_run, final_state, loop_state.
  destruct (decide (ntime < 0 ∨ 0 < ntime ∧ ndim < 0)); [done|].
  destruct (lib_SetSeed L 0 (sys_entropy w)) as [r e]. simpl.
  destruct (decide (1 < n)); by intros [= <- <-].
Qed.

Lemma final_state_data (n ntime ndim : Z) w :
  with_out [] (final_state L n ntime ndim w)
  = Nat.iter (Z.to_nat n) (event_data L ntime ndim (make_params ntime))
             (gen_init L ntime ndim (lib_SetSeed L 0 (sys_entropy w)).1).
Proof.
  unfold final_state, loop_state.
  destruct (decide (1 < n));
    [change (with_out [] (emit L ?a (emit L ?b ?X))) with (with_out [] X)|];
    rewrite event_loop_erase; reflexivity.
Qed.

Lemma erase_sgn g g' : with_out [] g = with_out [] g' → sgn g = sgn g' ∧ bkg g = bkg g'.
Proof. intros Heq. by injection Heq. Qed.

Lemma run_prefix (n n' ntime ndim : Z) w :
  n ≤ n' →
  t_entries (sgn (final_state L n ntime ndim w))
    `prefix_of` t_entries (sgn (final_state L n' ntime ndim w)) ∧
  t_entries (bkg (final_state L n ntime ndim w))
    `prefix_of` t_entries (bkg (final_state L n' ntime ndim w)).
Proof.
  intros Hn.
  pose proof (final_state_data n ntime ndim w) as H1.
  pose proof (final_state_data n' ntime ndim w) as H2.
  replace (Z.to_nat n') with ((Z.to_nat n' - Z.to_nat n) + Z.to_nat n)%nat in H2 by lia.
  set (g0 := gen_init L ntime ndim (lib_SetSeed L 0 (sys_entropy w)).1) in *.
  destruct (iter_entries_prefix L ntime ndim (make_params ntime) g0
              (Z.to_nat n) (Z.to_nat n' - Z.to_nat n)) as [Ps Pb].
  rewrite <- H1, <- H2 in Ps, Pb. done.
Qed.
Lemma final_state_out (n ntime ndim : Z) w :
  n ≠ 1 →
  out (final_state L n ntime ndim w)
  = progress_lines (Z.to_nat n)
    ++ (if decide (1 < n) then [TreePrint "sgn"; TreePrint "bkg"] else []).
Proof.
  intros Hn. unfold final_state, loop_state.
  destruct (decide (1 < n)); simpl; rewrite (event_loop_out L n) by done; simpl.
  - by rewrite <- app_assoc.
  - by rewrite app_nil_r.
Qed.
End RunExtras.

(** X2. The first [n] entries of either tree do not depend on how many
    events are asked for: on the same machine the entries of a run for [n]
    events are the first entries of a run for [n' ≥ n] events.  In
    particular the single entry of a run for one event, the one that draws
    the canvas, is the first entry of any longer run. *)
Theorem X2_entries_independent_of_count (L : RandomLib) (n n' T D : Z) (w : World L) :
  0 ≤ T → 0 ≤ D → n ≤ n' →
  ∃ g w1 g' w1',
    MakeTimeData_run L n T D w = Some (g, w1) ∧
    MakeTimeData_run L n' T D w = Some (g', w1') ∧
    length (t_entries (sgn g)) = Z.to_nat n ∧
    length (t_entries (bkg g)) = Z.to_nat n ∧
    t_entries (sgn g) `prefix_of` t_entries (sgn g') ∧
    t_entries (bkg g) `prefix_of` t_entries (bkg g').
Proof.
  intros HT HD Hn.
  destruct (MakeTimeData_run_ok L n T D w) as (g & w1 & Hrun & Hok); [done..|].
  destruct (MakeTimeData_run_ok L n' T D w) as (g' & w1' & Hrun' & Hok'); [done..|].
  exists g, w1, g', w1'. do 2 (split; [done|]).
  destruct (run_count _ _ _ _ _ _ _ Hok) as [Cs Cb]. do 2 (split; [done|]).
  rewrite (run_state L _ _ _ _ _ _ Hrun), (run_state L _ _ _ _ _ _ Hrun').
  by apply run_prefix.
Qed.

Lemma X2_entries_independent_of_count_witness :
  ∃ g w1 g' w1',
    MakeTimeData_run CounterLib 1 2 4 (blank 0) = Some (g, w1) ∧
    MakeTimeData_run CounterLib 3 2 4 (blank 0) = Some (g', w1') ∧
    length (t_entries (sgn g)) = Z.to_nat 1 ∧
    length (t_entries (bkg g)) = Z.to_nat 1 ∧
    t_entries (sgn g) `prefix_of` t_entries (sgn g') ∧
    t_entries (bkg g) `prefix_of` t_entries (bkg g').
Proof. apply (X2_entries_independent_of_count CounterLib 1 3 2 4 (blank 0)); lia. Defined.

Example progress_lines_2001 :
  progress_lines 2001
  = [Cout "Generating  event ... 0"; Cout "Generating  event ... 1000";
     Cout "Generating  event ... 2000"].
Proof. by vm_compute. Qed.

Example progress_lines_none : progress_lines 0 = [].
Proof. reflexivity. Qed.

(** X3. A run that draws no canvas ([n ≠ 1]) prints one line
    [Generating  event ... i] for every event number [i < n] that is a
    multiple of 1000, in increasing order, then, when [n > 1], the two tree
    print-outs, and nothing else; these lines are appended to the console. *)
Theorem X3_progress_lines (L : RandomLib) (n T D : Z) (w : World L) :
  0 ≤ T → 0 ≤ D → n ≠ 1 →
  ∃ g w', MakeTimeData_run L n T D w = Some (g, w') ∧
    out g = progress_lines (Z.to_nat n)
            ++ (if decide (1 < n) then [TreePrint "sgn"; TreePrint "bkg"] else []) ∧
    trace w' = trace w ++ out g.
Proof.
  intros HT HD Hn.
  destruct (MakeTimeData_run_ok L n T D w) as (g & w' & Hrun & Hok); [done..|].
  exists g, w'. split; [done|]. split; [|by destruct Hok].
  rewrite (run_state L _ _ _ _ _ _ Hrun). by apply final_state_out.
Qed.

Lemma X3_progress_lines_witness :
  ∃ g w', MakeTimeData_run CounterLib 3 2 4 (blank 0) = Some (g, w') ∧
    out g = progress_lines (Z.to_nat 3)
            ++ (if decide (1 < 3) then [TreePrint "sgn"; TreePrint "bkg"] else []) ∧
    trace w' = trace (blank 0) ++ out g.
Proof. apply (X3_progress_lines CounterLib 3 2 4 (blank 0)); lia. Defined.

(** *** The canvas of a single event *)

Lemma pad_events_cons (offset : Z) (v : list TH1) (j : nat) (idx : list nat) :
  pad_events offset v (j :: idx)
  = CanvasCd (offset + Z.of_nat j + 1) :: HistDraw (v !!! j) :: pad_events offset v idx.
Proof. done. Qed.

Lemma pads_of_pad_events (offset : Z) (v : list TH1) (idx : list nat) :
  pads_of (pad_events offset v idx) = (λ j, offset + Z.of_nat j + 1) <$> idx.
Proof.
  induction idx as [|j idx IH]; [done|].
  rewrite pad_events_cons.
  change (pads_of (CanvasCd ?p :: HistDraw ?h :: ?l)) with (p :: pads_of l).
  by rewrite IH.
Qed.

Lemma drawn_of_pad_events (offset : Z) (v : list TH1) (idx : list nat) :
  drawn_of (pad_events offset v idx) = (λ j, v !!! j) <$> idx.
Proof.
  induction idx as [|j idx IH]; [done|].
  rewrite pad_events_cons.
  change (drawn_of (CanvasCd ?p :: HistDraw ?h :: ?l)) with (h :: drawn_of l).
  by rewrite IH.
Qed.

Lemma total_lookups (v : list TH1) : (λ j, v !!! j) <$> seq 0 (length v) = v.
Proof.
  apply list_eq. intros i. rewrite list_lookup_fmap.
  destruct (decide (i < length v)%nat) as [Hi|Hi].
  - rewrite lookup_seq_lt by done. simpl.
    destruct (lookup_lt_is_Some_2 v i Hi) as [h Hh].
    by rewrite (list_lookup_total_correct _ _ _ Hh).
  - rewrite lookup_seq_ge by lia. simpl. symmetry. apply lookup_ge_None. lia.
Qed.

Lemma pads_of_canvas (ntime : Z) (va vb : list TH1) :
  0 ≤ ntime →
  pads_of (canvas_events ntime va vb)
  = (λ i, Z.of_nat i + 1) <$> seq 0 (Z.to_nat ntime + Z.to_nat ntime).
Proof.
  intros HT. unfold canvas_events, pads_of. rewrite !omap_app.
  fold (pads_of (pad_events 0 va (seq 0 (Z.to_nat ntime)))).
  fold (pads_of (pad_events ntime vb (seq 0 (Z.to_nat ntime)))).
  rewrite !pads_of_pad_events. simpl. rewrite app_nil_r.
  rewrite seq_app, fmap_app. f_equal.
  rewrite (Nat.add_comm 0), <- (fmap_add_seq (Z.to_nat ntime) 0), <- list_fmap_compose.
  apply list_fmap_ext. intros _ j _. simpl. lia.
Qed.

Lemma drawn_of_canvas (ntime : Z) (va vb : list TH1) :
  length va = Z.to_nat ntime → length vb = Z.to_nat ntime →
  drawn_of (canvas_events ntime va vb) = va ++ vb.
Proof.
  intros Ha Hb. unfold canvas_events, drawn_of. rewrite !omap_app.
  fold (drawn_of (pad_events 0 va (seq 0 (Z.to_nat ntime)))).
  fold (drawn_of (pad_events ntime vb (seq 0 (Z.to_nat ntime)))).
  rewrite !drawn_of_pad_events. simpl. rewrite app_nil_r.
  by rewrite <- Ha at 1; rewrite <- Hb, !total_lookups.
Qed.

Lemma single_event_state (L : RandomLib) (ntime ndim : Z) (w : World L) :
  final_state L 1 ntime ndim w
  = with_out (Cout "Generating  event ... 0"
                :: canvas_events ntime (v1 (final_state L 1 ntime ndim w))
                                       (v2 (final_state L 1 ntime ndim w)))
      (event_data L ntime ndim (make_params ntime)
         (gen_init L ntime ndim (lib_SetSeed L 0 (sys_entropy w)).1)).
Proof.
  unfold final_state, loop_state. destruct (decide (1 < 1)); [lia|].
  change (seq 0 (Z.to_nat 1)) with [0%nat]. simpl foldl.
  rewrite event_step_split. unfold canvas_of. destruct (decide (1 = 1)); [|done].
  reflexivity.
Qed.

(** X4. A run for a single event prints the line for event 0 and then
    draws the canvas: it is divided into [T] by 2 pads, the pads 1 to [2T]
    are selected once each in increasing order, and the histograms drawn
    are those of [v1] in the first [T] pads and those of [v2] in the last
    [T], as they stand when the function returns. *)
Theorem X4_single_event_canvas (L : RandomLib) (T D : Z) (w : World L) :
  0 ≤ T → 0 ≤ D →
  ∃ g w', MakeTimeData_run L 1 T D w = Some (g, w') ∧
    out g = Cout "Generating  event ... 0" :: canvas_events T (v1 g) (v2 g) ∧
    CanvasDivide T 2 ∈ out g ∧
    pads_of (out g) = (λ i, Z.of_nat i + 1) <$> seq 0 (Z.to_nat T + Z.to_nat T) ∧
    drawn_of (out g) = v1 g ++ v2 g.
Proof.
  intros HT HD.
  destruct (MakeTimeData_run_ok L 1 T D w) as (g & w' & Hrun & Hok); [done..|].
  exists g, w'. split; [done|].
  assert (Hout : out g = Cout "Generating  event ... 0" :: canvas_events T (v1 g) (v2 g)).
  { rewrite (run_state L _ _ _ _ _ _ Hrun).
    rewrite (single_event_state L T D w) at 1. reflexivity. }
  destruct Hok as [[[V1 V2 _ _ _ _ _ _] _ _ _ _ _ _] _ _ _].
  split; [done|]. rewrite Hout. split; [|split].
  - unfold canvas_events. simpl. apply list_elem_of_further, list_elem_of_further.
    apply list_elem_of_here.
  - change (pads_of (?e :: ?l)) with (pads_of l). by apply pads_of_canvas.
  - change (drawn_of (?e :: ?l)) with (drawn_of l). by apply drawn_of_canvas.
Qed.

Lemma X4_single_event_canvas_witness :
  ∃ g w', MakeTimeData_run CounterLib 1 2 4 (blank 0) = Some (g, w') ∧
    out g = Cout "Generating  event ... 0" :: canvas_events 2 (v1 g) (v2 g) ∧
    CanvasDivide 2 2 ∈ out g ∧
    pads_of (out g) = (λ i, Z.of_nat i + 1) <$> seq 0 (Z.to_nat 2 + Z.to_nat 2) ∧
    drawn_of (out g) = v1 g ++ v2 g.
Proof. apply (X4_single_event_canvas CounterLib 2 4 (blank 0)); lia. Defined.

(** *** The histograms left behind are those of the last entry *)

Section LastEntry.
Context (L : RandomLib).
Implicit Types (g : Gen L).

Lemma time_step_from (ntime ndim : Z) (p : StepParams) g (j : nat) :
  gen_inv L ntime ndim g → (j < Z.to_nat ntime)%nat →
  let g' := time_step L p ndim g j in
  (∀ j', j' ≠ j → v1 g' !! j' = v1 g !! j' ∧ v2 g' !! j' = v2 g !! j') ∧
  (∀ k, (k < Z.to_nat ndim)%nat →
     ∃ val, cell (x1 g') j k = Some val ∧ written_from L (v1 g' !!! j) k val) ∧
  (∀ k, (k < Z.to_nat ndim)%nat →
     ∃ val, cell (x2 g') j k = Some val ∧ written_from L (v2 g' !!! j) k val).
Proof.
  intros [V1 V2 B1 B2 F1 F2 S1 S2] Hj. unfold time_step.
  rewrite fill_v2_spec, fill_v1_spec. simpl.
  set (g6 := set_rnd L _ _).
  destruct (feature_loop_spec L j (Z.to_nat ndim) g6)
    as (Fr & E1 & E2 & _ & _ & L1 & L2 & Oth & R1 & R2).
  set (g' := foldl (feature_step L j) g6 (seq 0 (Z.to_nat ndim))) in *.
  assert (Hx1 : x1 g6 = x1 g) by done.
  assert (Hx2 : x2 g6 = x2 g) by done.
  destruct (shape_lookup _ _ _ j S1 Hj) as (row1 & Hrow1 & Hlen1).
  destruct (shape_lookup _ _ _ j S2 Hj) as (row2 & Hrow2 & Hlen2).
  rewrite Hx1 in R1. rewrite Hx2 in R2.
  destruct (R1 row1 Hrow1) as (row1' & Hrow1' & _ & Hc1).
  destruct (R2 row2 Hrow2) as (row2' & Hrow2' & _ & Hc2).
  split; [|split].
  - intros j' Hne. rewrite E1, E2. unfold g6. simpl.
    by rewrite !list_lookup_insert_ne, !list_lookup_alter_ne.
  - intros k Hk. destruct (Hc1 k Hk) as (val & Hval & Hw); [lia|].
    exists val. rewrite E1. split; [|done]. unfold cell. by rewrite Hrow1'.
  - intros k Hk. destruct (Hc2 k Hk) as (val & Hval & Hw); [lia|].
    exists val. rewrite E2. split; [|done]. unfold cell. by rewrite Hrow2'.
Qed.

Lemma lookup_total_eq (v v' : list TH1) (j : nat) : v' !! j = v !! j → v' !!! j = v !!! j.
Proof. intros Heq. by rewrite !list_lookup_total_alt, Heq. Qed.

Lemma time_loop_from (ntime ndim : Z) (p : StepParams) g (u : nat) :
  gen_inv L ntime ndim g → (u ≤ Z.to_nat ntime)%nat →
  let g' := foldl (time_step L p ndim) g (seq 0 u) in
  rows_from L ndim (v1 g') u (x1 g') ∧ rows_from L ndim (v2 g') u (x2 g').
Proof.
  intros Hinv. induction u as [|u IH]; intros Hu.
  - split; intros j k Hj; lia.
  - rewrite seq_S, foldl_app. simpl.
    destruct IH as [D1 D2]; [lia|].
    destruct (time_loop_spec L ntime ndim p g u Hinv) as (Hg & _); [lia|].
    set (gm := foldl (time_step L p ndim) g (seq 0 u)) in *.
    destruct (time_step_spec L ntime ndim p gm u Hg) as (_ & _ & Oth & _); [lia|].
    destruct (time_step_from ntime ndim p gm u Hg) as (Hv & N1 & N2); [lia|].
    split; intros j k Hj Hk; (destruct (decide (j = u)) as [->|Hne]; [auto|]).
    + destruct (D1 j k) as (val & Hc & Hw); [lia|done|].
      exists val. unfold cell in *. rewrite (proj1 (Oth j Hne)).
      by rewrite (lookup_total_eq _ _ _ (proj1 (Hv j Hne))).
    + destruct (D2 j k) as (val & Hc & Hw); [lia|done|].
      exists val. unfold cell in *. rewrite (proj2 (Oth j Hne)).
      by rewrite (lookup_total_eq _ _ _ (proj2 (Hv j Hne))).
Qed.

Lemma event_data_from (n ntime ndim : Z) (p : StepParams) (c : nat) g :
  0 ≤ ntime → loop_inv L n ntime ndim p c g →
  let d := event_data L ntime ndim p g in
  last (t_entries (sgn d)) = Some (x2 d) ∧ last (t_entries (bkg d)) = Some (x1 d) ∧
  rows_from L ndim (v1 d) (Z.to_nat ntime) (x1 d) ∧
  rows_from L ndim (v2 d) (Z.to_nat ntime) (x2 d).
Proof.
  intros HT [Hg Hs Hb _ _ _ _]. unfold event_data.
  destruct (time_loop_spec L ntime ndim p g (Z.to_nat ntime) Hg)
    as (Hg1 & [Fs Fb Fo] & D1 & D2); [lia|].
  destruct (time_loop_from ntime ndim p g (Z.to_nat ntime) Hg) as [R1 R2]; [lia|].
  set (g1 := foldl (time_step L p ndim) g (seq 0 (Z.to_nat ntime))) in *.
  destruct (tree_inv_fill L ntime ndim X2 (mean2 p) (sigma2 p) (sgn g1) (x1 g1) (x2 g1))
    as [_ Hse]; [by rewrite Fs | by destruct Hg1 | done |].
  destruct (tree_inv_fill L ntime ndim X1 (mean1 p) (sigma1 p) (bkg g1) (x1 g1) (x2 g1))
    as [_ Hbe]; [by rewrite Fb | by destruct Hg1 | done |].
  cbv zeta.
  change (sgn (set_bkg L ?t (set_sgn L ?s g1))) with s.
  change (bkg (set_bkg L ?t (set_sgn L ?s g1))) with t.
  change (x1 (set_sgn L ?s g1)) with (x1 g1).
  change (x2 (set_sgn L ?s g1)) with (x2 g1).
  change (bkg (set_sgn L ?s g1)) with (bkg g1).
  rewrite Hse, Hbe, !last_snoc. done.
Qed.
End LastEntry.

(** X5. After a run of at least one event the buffers and the histograms
    still hold the last event: the last entry of [sgn] is the buffer [x2]
    and the last entry of [bkg] the buffer [x1] as they stand on return, and
    feature [k] of step [j] of that entry is the content of bin [k] of the
    histogram [v2[j]] (for [bkg]: [v1[j]]) as it stands on return, plus one
    draw of noise.  For a single event these are the histograms drawn on
    the canvas. *)
Theorem X5_last_entry_from_histograms (L : RandomLib) (n T D : Z) (w : World L) :
  0 ≤ T → 0 ≤ D → 1 ≤ n →
  ∃ g w', MakeTimeData_run L n T D w = Some (g, w') ∧
    last (t_entries (sgn g)) = Some (x2 g) ∧
    last (t_entries (bkg g)) = Some (x1 g) ∧
    rows_from L D (v1 g) (Z.to_nat T) (x1 g) ∧
    rows_from L D (v2 g) (Z.to_nat T) (x2 g).
Proof.
  intros HT HD Hn.
  destruct (MakeTimeData_run_ok L n T D w) as (g & w' & Hrun & Hok); [done..|].
  exists g, w'. split; [done|].
  pose proof (run_state L _ _ _ _ _ _ Hrun) as Hg.
  unfold final_state, loop_state in Hg.
  destruct (Z.to_nat n) as [|u] eqn:Hu; [lia|].
  rewrite seq_S, foldl_app in Hg. simpl foldl in Hg.
  rewrite event_step_split in Hg.
  set (g0 := foldl _ _ (seq 0 u)) in Hg.
  assert (Hinv : loop_inv L n T D (make_params T) u g0).
  { apply event_loop_inv; [done|apply gen_init_inv]. }
  pose proof (event_data_from L n T D (make_params T) u g0 HT Hinv) as Hd.
  destruct (decide (1 < n)); subst g; exact Hd.
Qed.

Lemma X5_last_entry_from_histograms_witness :
  ∃ g w', MakeTimeData_run CounterLib 3 2 4 (blank 0) = Some (g, w') ∧
    last (t_entries (sgn g)) = Some (x2 g) ∧
    last (t_entries (bkg g)) = Some (x1 g) ∧
    rows_from CounterLib 4 (v1 g) (Z.to_nat 2) (x1 g) ∧
    rows_from CounterLib 4 (v2 g) (Z.to_nat 2) (x2 g).
Proof. apply (X5_last_entry_from_histograms CounterLib 3 2 4 (blank 0)); lia. Defined.

(** ** Disk, names and parameters *)

(** X6. When the output file cannot be created the generator still makes
    all [n] events and fills both trees, and leaves every file of the disk
    as it was, whatever [n] is. *)
Theorem X6_unwritable_disk (L : RandomLib) (n T D : Z) (w : World L) :
  0 ≤ T → 0 ≤ D → can_create w (fname T D) = false →
  ∃ g w', MakeTimeData_run L n T D w = Some (g, w') ∧
    fs w' = fs w ∧
    length (t_entries (sgn g)) = Z.to_nat n ∧
    length (t_entries (bkg g)) = Z.to_nat n.
Proof.
  intros HT HD Hcan.
  destruct (MakeTimeData_run_ok L n T D w) as (g & w' & Hrun & Hok); [done..|].
  exists g, w'. split; [done|].
  destruct (run_count _ _ _ _ _ _ _ Hok) as [Cs Cb].
  split; [|done]. destruct Hok as [_ -> _ _].
  unfold write_trees, recreate. rewrite Hcan. by destruct (decide (1 < n)).
Qed.

Lemma X6_unwritable_disk_witness :
  ∃ g w', MakeTimeData_run CounterLib 3 2 4 read_only = Some (g, w') ∧
    fs w' = fs read_only ∧
    length (t_entries (sgn g)) = Z.to_nat 3 ∧
    length (t_entries (bkg g)) = Z.to_nat 3.
Proof. apply (X6_unwritable_disk CounterLib 3 2 4 read_only); (lia || reflexivity). Defined.

(** X7. Runs for different shapes do not disturb each other's files: a run
    for [(T', D')] leaves the file named after any other pair [(T, D)]
    exactly as it was. *)
Theorem X7_other_shapes_untouched (L : RandomLib) (n T D T' D' : Z) (w : World L) :
  0 ≤ T' → 0 ≤ D' → (T, D) ≠ (T', D') →
  ∃ g w', MakeTimeData_run L n T' D' w = Some (g, w') ∧
          fs w' !! fname T D = fs w !! fname T D.
Proof.
  intros HT HD Hne.
  destruct (MakeTimeData_run_ok L n T' D' w) as (g & w' & Hrun & Hok); [done..|].
  exists g, w'. split; [done|].
  apply (run_other_files L _ _ _ _ _ _ _ Hok).
  intros Heq. apply fname_inj in Heq as [-> ->]. done.
Qed.

Lemma X7_other_shapes_untouched_witness :
  ∃ g w', MakeTimeData_run CounterLib 3 2 4 stocked = Some (g, w') ∧
          fs w' !! fname 10 30 = fs stocked !! fname 10 30.
Proof.
  apply (X7_other_shapes_untouched CounterLib 3 10 30 2 4 stocked); [lia | lia | ].
  intros Heq. discriminate Heq.
Defined.

(** X8. The branch names [vars_time0], [vars_time1], ... are pairwise
    distinct and [T] in number, and after a run both trees carry exactly
    these names, in the order of the time steps. *)
Theorem X8_branch_names_distinct (L : RandomLib) (n T D : Z) (w : World L) :
  0 ≤ T → 0 ≤ D →
  ∃ g w', MakeTimeData_run L n T D w = Some (g, w') ∧
    br_name <$> t_branches (sgn g) = branch_names T ∧
    br_name <$> t_branches (bkg g) = branch_names T ∧
    NoDup (branch_names T) ∧ length (branch_names T) = Z.to_nat T.
Proof.
  intros HT HD.
  destruct (MakeTimeData_run_ok L n T D w) as (g & w' & Hrun & Hok); [done..|].
  exists g, w'. split; [done|].
  destruct (run_branches _ _ _ _ _ _ _ Hok) as [Bs Bb].
  do 2 (split; [done|]). unfold branch_names. split.
  - apply (NoDup_fmap_2 (λ i : nat, "vars_time" +:+ pretty (Z.of_nat i))).
    apply NoDup_seq.
  - by rewrite length_fmap, length_seq.
Qed.

Lemma X8_branch_names_distinct_witness :
  ∃ g w', MakeTimeData_run CounterLib 3 2 4 (blank 0) = Some (g, w') ∧
    br_name <$> t_branches (sgn g) = branch_names 2 ∧
    br_name <$> t_branches (bkg g) = branch_names 2 ∧
    NoDup (branch_names 2) ∧ length (branch_names 2) = Z.to_nat 2.
Proof. apply (X8_branch_names_distinct CounterLib 3 2 4 (blank 0)); lia. Defined.

(** X9. Every Gaussian the generator draws from is proper and centred
    inside the histogram range: for each step [j] of the sweep the means lie
    in [4.8, 5.2] and the sigmas in [3.7, 4.3]; more precisely
    [5 ≤ mean1[j] ≤ 5.2], [4.8 < mean2[j] ≤ 5.2], [4 ≤ sigma1[j] ≤ 4.3] and
    [3.7 < sigma2[j] ≤ 4.3].  Each sigma follows its mean,
    [sigma - 4 = 1.5 (mean - 5)], and the two means stay at distance 0.2
    from the point (5, 5). *)
Theorem X9_parameter_ranges (T : Z) (j : nat) :
  (j < Z.to_nat T)%nat →
  let p := make_params T in
  (5 <= mean1 p !!! j <= 5.2)%R ∧ (4.8 < mean2 p !!! j <= 5.2)%R ∧
  (4 <= sigma1 p !!! j <= 4.3)%R ∧ (3.7 < sigma2 p !!! j <= 4.3)%R ∧
  (sigma1 p !!! j - 4 = 1.5 * (mean1 p !!! j - 5))%R ∧
  (sigma2 p !!! j - 4 = 1.5 * (mean2 p !!! j - 5))%R ∧
  ((mean1 p !!! j - 5) * (mean1 p !!! j - 5)
   + (mean2 p !!! j - 5) * (mean2 p !!! j - 5) = 0.04)%R.
Proof.
  intros Hj. cbv zeta. destruct (make_params_total T j Hj) as (-> & -> & -> & ->).
  unfold mean1_at, mean2_at, sigma1_at, sigma2_at.
  pose proof (phase_range T j Hj) as [H0 Hpi].
  assert (Hs0 : (0 <= sin (phase T j))%R) by (apply sin_ge_0; lra).
  pose proof (SIN_bound (phase T j)) as [_ Hs1].
  pose proof (COS_bound (phase T j)) as [_ Hc1].
  assert (Hc0 : (cos PI < cos (phase T j))%R) by (apply cos_decreasing_1; lra).
  rewrite cos_PI in Hc0.
  pose proof (sin2_cos2 (phase T j)) as Hsq. unfold Rsqr in Hsq.
  repeat split; lra.
Qed.

Lemma X9_parameter_ranges_witness :
  let p := make_params 10 in
  (5 <= mean1 p !!! 3%nat <= 5.2)%R ∧ (4.8 < mean2 p !!! 3%nat <= 5.2)%R ∧
  (4 <= sigma1 p !!! 3%nat <= 4.3)%R ∧ (3.7 < sigma2 p !!! 3%nat <= 4.3)%R ∧
  (sigma1 p !!! 3%nat - 4 = 1.5 * (mean1 p !!! 3%nat - 5))%R ∧
  (sigma2 p !!! 3%nat - 4 = 1.5 * (mean2 p !!! 3%nat - 5))%R ∧
  ((mean1 p !!! 3%nat - 5) * (mean1 p !!! 3%nat - 5)
   + (mean2 p !!! 3%nat - 5) * (mean2 p !!! 3%nat - 5) = 0.04)%R.
Proof. apply (X9_parameter_ranges 10 3). simpl. lia. Defined.

(** ** Further properties of the orchestrator *)

Lemma outfile_ne_input (b : Build) : outfileName b ≠ inputFileName.
Proof. unfold outfileName, archString. by destruct (R__HAS_TMVAGPU b). Qed.

Lemma booked_quiet (evs : list Event) :
  Forall (λ e, training_side e = false) evs → booked evs = [].
Proof.
  induction 1 as [|e evs He _ IH]; [done|].
  destruct e; try discriminate He; exact IH.
Qed.

Lemma declared_quiet (evs : list Event) :
  Forall (λ e, training_side e = false) evs → declared evs = [].
Proof.
  induction 1 as [|e evs He _ IH]; [done|].
  destruct e; try discriminate He; exact IH.
Qed.

Lemma declared_app (l1 l2 : list Event) : declared (l1 ++ l2) = declared l1 ++ declared l2.
Proof. apply omap_app. Qed.

Lemma declared_book_events (b : Build) (use_type : Z) (keys : gmap string TTree)
    (o : option string) :
  declared (book_events b use_type keys o) = (λ nm, (nm, ninput)) <$> branch_names ntime.
Proof.
  unfold book_events, declared, branch_names. rewrite !omap_app.
  change (omap _ [Cout _; NewFactory _ _ _; NewDataLoader _]) with (@nil (string * Z)).
  change (omap _ [AddSignalTree _ _; AddBackgroundTree _ _; CoutListOfVariables;
                  PrepareTrainingAndTestTree _ _ _; Cout _; BookMethod _ _ _])
    with (@nil (string * Z)).
  rewrite app_nil_l, app_nil_r, <- list_fmap_compose.
  induction (seq 0 (Z.to_nat ntime)) as [|i idx IH]; [done|].
  rewrite !fmap_cons. change (omap ?f (AddVariablesArray ?nm ?sz :: ?l))
    with ((nm, sz) :: omap f l). by rewrite IH.
Qed.

Lemma booked_book_events (b : Build) (use_type : Z) (keys : gmap string TTree)
    (o : option string) :
  booked (book_events b use_type keys o) = [(rnnName use_type, rnnOptions b use_type)].
Proof.
  unfold book_events, booked. rewrite !omap_app.
  change (omap _ [Cout _; NewFactory _ _ _; NewDataLoader _]) with (@nil (string * string)).
  rewrite app_nil_l.
  replace (omap _ (_ <$> seq 0 (Z.to_nat ntime))) with (@nil (string * string)); [done|].
  symmetry. induction (seq 0 (Z.to_nat ntime)) as [|i idx IH]; [done|]. exact IH.
Qed.

Section OrchestratorExtras.
Context {L : RandomLib}.
Implicit Types (w : World L).

Lemma fs_say (e : Event) w : fs (say e w) = fs w.
Proof. done. Qed.

Lemma fs_set_fs (m : gmap string disk_file) w : fs (set_fs m w) = m.
Proof. done. Qed.

Lemma fs_add_variables w (idx : list nat) : fs (foldl add_variables w idx) = fs w.
Proof. by destruct (add_variables_loop w idx) as (-> & _). Qed.

Lemma can_create_say (e : Event) w : can_create (say e w) = can_create w.
Proof. done. Qed.

Lemma can_create_set_fs (m : gmap string disk_file) w :
  can_create (set_fs m w) = can_create w.
Proof. done. Qed.

Lemma can_create_add_variables w (idx : list nat) :
  can_create (foldl add_variables w idx) = can_create w.
Proof. by destruct (add_variables_loop w idx) as (_ & -> & _). Qed.

Lemma gRandom_add_variables w (idx : list nat) :
  gRandom (foldl add_variables w idx) = gRandom w.
Proof.
  revert w. induction idx as [|i idx IH]; intros w; [done|]. simpl. by rewrite IH.
Qed.

Lemma gRandom_say (e : Event) w : gRandom (say e w) = gRandom w.
Proof. done. Qed.

Lemma gRandom_set_fs (m : gmap string disk_file) w : gRandom (set_fs m w) = gRandom w.
Proof. done. Qed.

Lemma book_rnn_gRandom (b : Build) (use_type : Z) (keys : gmap string TTree) w :
  gRandom (book_rnn b use_type keys w) = gRandom w.
Proof.
  unfold book_rnn. cbv zeta.
  repeat first [rewrite gRandom_say | rewrite gRandom_add_variables | rewrite gRandom_set_fs].
  reflexivity.
Qed.

Lemma book_rnn_fs (b : Build) (use_type : Z) (keys : gmap string TTree) w :
  fs (book_rnn b use_type keys w) = recreate (can_create w) (outfileName b) (fs w).
Proof.
  unfold book_rnn. cbv zeta.
  repeat first [rewrite fs_say | rewrite fs_add_variables | rewrite fs_set_fs].
  reflexivity.
Qed.

Lemma quiet_elem w w' (e : Event) : quiet_step w w' → e ∈ trace w → e ∈ trace w'.
Proof. intros [_ (evs & -> & _)] He. apply elem_of_app. by left. Qed.

(** The path on which the input file opens. *)
Lemma success_path (b : Build) (use_type : Z) w w1 (keys : gmap string TTree) :
  ensure_input (prologue b w) = Some w1 →
  TFile_Open (fs w1) inputFileName = Some keys →
  TMVA_RNN_Classification b use_type w = Some (book_rnn b use_type keys w1) ∧
  quiet_step w w1 ∧
  ∃ evs, trace (book_rnn b use_type keys w1)
         = trace w ++ evs
           ++ book_events b use_type keys
                (if can_create w1 (outfileName b) then Some (outfileName b) else None) ∧
         Forall (λ e, training_side e = false) evs.
Proof.
  intros He Ho. split; [by rewrite (run_final b use_type w w1 He), Ho|].
  destruct (prologue_spec b w) as [_ Hq0].
  destruct (ensure_input_spec (prologue b w)) as (w1' & He' & Hq1 & _).
  rewrite He in He'. injection He' as <-.
  pose proof (quiet_step_trans _ _ _ Hq0 Hq1) as Hq. split; [done|].
  destruct Hq as [_ (evs & Htr & Hev)]. exists evs. split; [|done].
  by rewrite book_rnn_trace, Htr, <- app_assoc.
Qed.
End OrchestratorExtras.

Section OrchestratorPaths.
Context {L : RandomLib}.
Implicit Types (w : World L).

Lemma ensure_existing w :
  is_Some (fs w !! inputFileName) → ensure_input w = Some w.
Proof.
  intros Hex. unfold ensure_input, file_exists. by rewrite bool_decide_eq_true_2.
Qed.

Lemma ensure_missing w :
  fs w !! inputFileName = None →
  ∃ w1, ensure_input w = Some w1 ∧
        run_ok L nTotEvts ntime ninput w (final_state L nTotEvts ntime ninput w) w1.
Proof.
  intros Hmiss. unfold ensure_input, file_exists.
  rewrite bool_decide_eq_false_2 by (rewrite Hmiss; by intros [? ?]).
  destruct (MakeTimeData_run_ok L nTotEvts ntime ninput w) as (g & w1 & Hrun & Hok);
    [done..|].
  exists w1. unfold MakeTimeData. rewrite Hrun. split; [done|].
  by rewrite <- (run_state L _ _ _ _ _ _ Hrun).
Qed.

Lemma error_path (b : Build) (use_type : Z) w w1 :
  ensure_input (prologue b w) = Some w1 →
  TFile_Open (fs w1) inputFileName = None →
  TMVA_RNN_Classification b use_type w = Some (say open_error w1).
Proof. intros He Ho. by rewrite (run_final b use_type w w1 He), Ho. Qed.

Lemma booked_after_quiet w w' (tail : list Event) :
  quiet_step w w' → booked (trace w' ++ tail) = booked (trace w) ++ booked tail.
Proof.
  intros [_ (evs & -> & Hev)]. unfold booked. rewrite !omap_app.
  fold (booked evs). by rewrite (booked_quiet evs Hev), app_nil_r.
Qed.

Lemma warning_in_prologue (b : Build) w :
  R__HAS_TMVAGPU b = false → R__HAS_TMVACPU b = false →
  backend_warning ∈ trace (prologue b w).
Proof.
  intros Hg Hc. unfold prologue. cbv zeta.
  assert (H0 : backend_warning ∈ trace (warn_no_backend b w)).
  { unfold warn_no_backend. rewrite Hg, Hc. simpl. apply elem_of_app. right.
    apply list_elem_of_here. }
  apply (quiet_elem (say ConfigInstance (enable_threads (init_python b (warn_no_backend b w)))));
    [by apply say_quiet|].
  apply (quiet_elem (enable_threads (init_python b (warn_no_backend b w))));
    [by apply say_quiet|].
  apply (quiet_elem (init_python b (warn_no_backend b w))); [apply enable_threads_quiet|].
  apply (quiet_elem (warn_no_backend b w)); [apply init_python_quiet | done].
Qed.
Lemma prologue_gRandom (b : Build) w : gRandom (prologue b w) = gRandom w.
Proof.
  unfold prologue. cbv zeta.
  change (gRandom (say ?e ?w0)) with (gRandom w0).
  change (gRandom (say ConfigInstance ?w0)) with (gRandom w0).
  transitivity (gRandom (init_python b (warn_no_backend b w))).
  { unfold enable_threads.
    destruct (decide (0 ≤ num_threads)); [|done]. by destruct (decide (0 < num_threads)). }
  transitivity (gRandom (warn_no_backend b w)).
  { unfold init_python. by destruct (R__HAS_PYMVA b). }
  unfold warn_no_backend. by destruct (_ && _).
Qed.
End OrchestratorPaths.

(** X10. A data file without trees is taken as it is: after a run of the
    generator for at most one event with the orchestrator's shape, the
    input file exists and holds no tree; the orchestrator finds it, does
    not generate again, and opens it on an empty set of keys, so that the
    look-ups of [sgn] and [bkg] give null pointers.  The first tree call
    it makes, after the factory, the data loader and the declarations of
    the variable arrays, is [AddSignalTree] with a null tree.  What the
    toolkit does with it, and so what follows that call, is not asserted. *)
Theorem X10_file_without_trees (L : RandomLib) (b : Build) (use_type n : Z) (w : World L) :
  n ≤ 1 → can_create w inputFileName = true →
  ∃ w1, MakeTimeData L n ntime ninput w = Some w1 ∧
    fs w1 !! inputFileName = Some (RootFile ∅) ∧
    ensure_input (prologue b w1) = Some (prologue b w1) ∧
    (∃ keys : gmap string TTree,
       TFile_Open (fs (prologue b w1)) inputFileName = Some keys ∧
       keys !! "sgn" = None ∧ keys !! "bkg" = None ∧
       ∃ o rest,
         trace (book_rnn b use_type keys (prologue b w1))
         = trace (prologue b w1)
           ++ [Cout "--- RNNClassification  : Using input file: time_data_t10_d30.root";
               NewFactory "TMVAClassification" o factoryOptions;
               NewDataLoader "dataset"]
           ++ ((λ i, AddVariablesArray ("vars_time" +:+ pretty (Z.of_nat i)) ninput)
                 <$> seq 0 (Z.to_nat ntime))
           ++ AddSignalTree None 1 :: rest).
Proof.
  intros Hn Hcan.
  destruct (MakeTimeData_run_ok L n ntime ninput w) as (g & w1 & Hrun & Hok); [done..|].
  exists w1. unfold MakeTimeData. rewrite Hrun.
  pose proof (run_not_stored L _ _ _ _ _ _ Hok Hn Hcan) as Hfile.
  rewrite fname_input in Hfile.
  destruct (prologue_spec b w1) as [Hfs0 _].
  split; [done|]. split; [exact Hfile|].
  split; [apply ensure_existing; rewrite Hfs0, Hfile; by eexists|].
  exists ∅. split; [unfold TFile_Open; by rewrite Hfs0, Hfile|].
  split; [apply lookup_empty|]. split; [apply lookup_empty|].
  rewrite book_rnn_trace. unfold book_events. rewrite !lookup_empty.
  eexists _, _. reflexivity.
Qed.

Lemma X10_file_without_trees_witness :
  ∃ w1, MakeTimeData CounterLib 1 ntime ninput (blank 0) = Some w1 ∧
    fs w1 !! inputFileName = Some (RootFile ∅) ∧
    ensure_input (prologue cpu_build w1) = Some (prologue cpu_build w1) ∧
    (∃ keys : gmap string TTree,
       TFile_Open (fs (prologue cpu_build w1)) inputFileName = Some keys ∧
       keys !! "sgn" = None ∧ keys !! "bkg" = None ∧
       ∃ o rest,
         trace (book_rnn cpu_build 2 keys (prologue cpu_build w1))
         = trace (prologue cpu_build w1)
           ++ [Cout "--- RNNClassification  : Using input file: time_data_t10_d30.root";
               NewFactory "TMVAClassification" o factoryOptions;
               NewDataLoader "dataset"]
           ++ ((λ i, AddVariablesArray ("vars_time" +:+ pretty (Z.of_nat i)) ninput)
                 <$> seq 0 (Z.to_nat ntime))
           ++ AddSignalTree None 1 :: rest).
Proof.
  apply (X10_file_without_trees CounterLib cpu_build 2 1 (blank 0)); (lia || reflexivity).
Defined.

(** X11. An input file that exists but cannot be read is never replaced:
    the orchestrator does not call the generator, reports the error right
    after its set-up lines, books nothing and leaves the disk as it was. *)
Theorem X11_unreadable_file (L : RandomLib) (b : Build) (use_type : Z) (w : World L) :
  fs w !! inputFileName = Some Unreadable →
  ∃ w', TMVA_RNN_Classification b use_type w = Some w' ∧
    trace w' = trace (prologue b w) ++ [open_error] ∧
    fs w' = fs w ∧
    gRandom w' = gRandom w ∧
    booked (trace w') = booked (trace w).
Proof.
  intros Hfile. destruct (prologue_spec b w) as [Hfs0 Hq0].
  assert (He : ensure_input (prologue b w) = Some (prologue b w)).
  { apply ensure_existing. rewrite Hfs0, Hfile. by eexists. }
  assert (Ho : TFile_Open (fs (prologue b w)) inputFileName = None).
  { unfold TFile_Open. by rewrite Hfs0, Hfile. }
  eexists. split; [exact (error_path b use_type w _ He Ho)|].
  split; [done|]. split; [done|]. split.
  - apply prologue_gRandom.
  - rewrite trace_say, (booked_after_quiet w _ _ Hq0).
    change (booked [open_error]) with (@nil (string * string)). by rewrite app_nil_r.
Qed.

Lemma X11_unreadable_file_witness :
  ∃ w', TMVA_RNN_Classification cpu_build 1 spoiled = Some w' ∧
    trace w' = trace (prologue cpu_build spoiled) ++ [open_error] ∧
    fs w' = fs spoiled ∧
    gRandom w' = gRandom spoiled ∧
    booked (trace w') = booked (trace spoiled).
Proof. apply (X11_unreadable_file CounterLib cpu_build 1 spoiled). reflexivity. Defined.

Example progress_lines_orchestrator : length (progress_lines (Z.to_nat nTotEvts)) = 10%nat.
Proof. by vm_compute. Qed.

(** X12. When the input file is missing and cannot be created, the
    orchestrator still runs the whole generation, which shows on the console
    as the ten progress lines for the events 0, 1000, ..., 9000 and the two
    tree print-outs, then reports the error; it books nothing and leaves
    the disk as it was. *)
Theorem X12_missing_and_unwritable (L : RandomLib) (b : Build) (use_type : Z) (w : World L) :
  fs w !! inputFileName = None → can_create w inputFileName = false →
  ∃ w', TMVA_RNN_Classification b use_type w = Some w' ∧
    trace w' = trace (prologue b w)
               ++ progress_lines (Z.to_nat nTotEvts)
               ++ [TreePrint "sgn"; TreePrint "bkg"; open_error] ∧
    fs w' = fs w ∧
    booked (trace w') = booked (trace w).
Proof.
  intros Hmiss Hcan. destruct (prologue_spec b w) as [Hfs0 Hq0].
  destruct (ensure_missing (prologue b w)) as (w1 & He & Hok); [by rewrite Hfs0|].
  assert (Hcan1 : can_create (prologue b w) (fname ntime ninput) = false).
  { destruct Hq0 as [-> _]. by rewrite fname_input. }
  assert (Hfs1 : fs w1 = fs w).
  { destruct Hok as [_ -> _ _]. unfold write_trees, recreate. rewrite Hcan1, Hfs0.
    by destruct (decide (1 < nTotEvts)). }
  assert (Ho : TFile_Open (fs w1) inputFileName = None).
  { unfold TFile_Open. by rewrite Hfs1, Hmiss. }
  eexists. split; [exact (error_path b use_type w _ He Ho)|].
  assert (Htr : trace w1 = trace (prologue b w)
                           ++ progress_lines (Z.to_nat nTotEvts)
                           ++ [TreePrint "sgn"; TreePrint "bkg"]).
  { destruct Hok as [_ _ _ ->]. by rewrite final_state_out. }
  split; [|split; [done|]].
  - rewrite trace_say, Htr, <- !app_assoc. reflexivity.
  - destruct (ensure_input_spec (prologue b w)) as (w1' & He' & Hq1 & _).
    rewrite He in He'. injection He' as <-.
    rewrite trace_say, (booked_after_quiet w _ _ (quiet_step_trans _ _ _ Hq0 Hq1)).
    change (booked [open_error]) with (@nil (string * string)). by rewrite app_nil_r.
Qed.

Lemma X12_missing_and_unwritable_witness :
  ∃ w', TMVA_RNN_Classification cpu_build 1 read_only = Some w' ∧
    trace w' = trace (prologue cpu_build read_only)
               ++ progress_lines (Z.to_nat nTotEvts)
               ++ [TreePrint "sgn"; TreePrint "bkg"; open_error] ∧
    fs w' = fs read_only ∧
    booked (trace w') = booked (trace read_only).
Proof.
  apply (X12_missing_and_unwritable CounterLib cpu_build 1 read_only); reflexivity.
Defined.

(** X13. The orchestrator declares to the data loader exactly the branches
    the generator writes: ten array variables [vars_time0 .. vars_time9],
    each of width 30, in this order; and when it has generated the file
    itself, the trees it reads back carry these ten branch names and
    entries of 10 time steps by 30 features. *)
Theorem X13_declared_variables_match (L : RandomLib) (b : Build) (use_type : Z)
    (w w1 : World L) (keys : gmap string TTree) :
  ensure_input (prologue b w) = Some w1 →
  TFile_Open (fs w1) inputFileName = Some keys →
  ∃ w', TMVA_RNN_Classification b use_type w = Some w' ∧
    declared (trace w') = declared (trace w) ++ ((λ nm, (nm, ninput)) <$> branch_names ntime) ∧
    (fs w !! inputFileName = None → can_create w inputFileName = true →
       ∃ s bk, keys !! "sgn" = Some s ∧ keys !! "bkg" = Some bk ∧
         br_name <$> t_branches s = branch_names ntime ∧
         br_name <$> t_branches bk = branch_names ntime ∧
         Forall (shape (Z.to_nat ntime) (Z.to_nat ninput)) (t_entries s) ∧
         Forall (shape (Z.to_nat ntime) (Z.to_nat ninput)) (t_entries bk)).
Proof.
  intros He Ho.
  destruct (success_path b use_type w w1 keys He Ho) as (Hres & Hq & evs & Htr & Hev).
  eexists. split; [exact Hres|]. split.
  - rewrite Htr, !declared_app, (declared_quiet evs Hev), declared_book_events.
    by rewrite app_nil_l.
  - intros Hmiss Hcan. destruct (prologue_spec b w) as [Hfs0 Hq0].
    destruct (ensure_missing (prologue b w)) as (w1' & He' & Hok); [by rewrite Hfs0|].
    rewrite He in He'. injection He' as <-.
    assert (Hcan' : can_create (prologue b w) (fname ntime ninput) = true).
    { destruct Hq0 as [-> _]. by rewrite fname_input. }
    destruct (run_stored L _ _ _ _ _ _ Hok) as (keys' & Hfile & Hs & Hb); [done|done|].
    rewrite fname_input in Hfile. unfold TFile_Open in Ho. rewrite Hfile in Ho.
    injection Ho as ->.
    destruct (run_branches L _ _ _ _ _ _ Hok) as [Bs Bb].
    destruct (run_shape L _ _ _ _ _ _ Hok) as [Ss Sb].
    exact (ex_intro _ _ (ex_intro _ _
             (conj Hs (conj Hb (conj Bs (conj Bb (conj Ss Sb))))))).
Qed.

Lemma X13_declared_variables_match_witness :
  ∃ w', TMVA_RNN_Classification cpu_build 0 stocked = Some w' ∧
    declared (trace w') = declared (trace stocked) ++ ((λ nm, (nm, ninput)) <$> branch_names ntime) ∧
    (fs stocked !! inputFileName = None → can_create stocked inputFileName = true →
       ∃ s bk, stocked_keys !! "sgn" = Some s ∧ stocked_keys !! "bkg" = Some bk ∧
         br_name <$> t_branches s = branch_names ntime ∧
         br_name <$> t_branches bk = branch_names ntime ∧
         Forall (shape (Z.to_nat ntime) (Z.to_nat ninput)) (t_entries s) ∧
         Forall (shape (Z.to_nat ntime) (Z.to_nat ninput)) (t_entries bk)).
Proof.
  apply (X13_declared_variables_match CounterLib cpu_build 0 stocked
           (prologue cpu_build stocked) stocked_keys); reflexivity.
Defined.

(** X14. On the path that books the method the only file touched is the
    output file [data_RNN_GPU.root] or [data_RNN_CPU.root]: it is created
    anew, empty, when it can be created, and every other file, the input
    data set among them, keeps its content; when it cannot be created the
    disk stays as the generation step left it and the factory gets no
    output file. *)
Theorem X14_only_output_file_touched (L : RandomLib) (b : Build) (use_type : Z)
    (w w1 : World L) (keys : gmap string TTree) :
  ensure_input (prologue b w) = Some w1 →
  TFile_Open (fs w1) inputFileName = Some keys →
  ∃ w', TMVA_RNN_Classification b use_type w = Some w' ∧
    fs w' !! inputFileName = Some (RootFile keys) ∧
    (∀ name, name ≠ outfileName b → fs w' !! name = fs w1 !! name) ∧
    (can_create w (outfileName b) = true →
       fs w' !! outfileName b = Some (RootFile ∅) ∧
       NewFactory "TMVAClassification" (Some (outfileName b)) factoryOptions ∈ trace w') ∧
    (can_create w (outfileName b) = false →
       fs w' = fs w1 ∧
       NewFactory "TMVAClassification" None factoryOptions ∈ trace w').
Proof.
  intros He Ho.
  destruct (success_path b use_type w w1 keys He Ho) as (Hres & Hq & evs & Htr & Hev).
  eexists. split; [exact Hres|].
  assert (Hcan : can_create w1 = can_create w) by (by destruct Hq).
  assert (Hother : ∀ name, name ≠ outfileName b →
            fs (book_rnn b use_type keys w1) !! name = fs w1 !! name).
  { intros name Hne. rewrite book_rnn_fs. unfold recreate.
    destruct (can_create w1 (outfileName b)); [|done].
    by rewrite lookup_insert_ne. }
  assert (Hfac : ∀ o, NewFactory "TMVAClassification" o factoryOptions
                      ∈ trace w ++ evs ++ book_events b use_type keys o).
  { intros o. rewrite app_assoc. apply elem_of_app. right. unfold book_events.
    apply elem_of_app. left. apply list_elem_of_further, list_elem_of_here. }
  split; [|split; [done|split]].
  - rewrite Hother by (intros Heq; by apply (outfile_ne_input b)).
    unfold TFile_Open in Ho. destruct (fs w1 !! inputFileName) as [[|k]|]; try done.
    by injection Ho as ->.
  - intros Hc. rewrite Htr, book_rnn_fs, Hcan. unfold recreate. rewrite Hc.
    split; [by rewrite lookup_insert_eq | apply Hfac].
  - intros Hc. rewrite Htr, book_rnn_fs, Hcan. unfold recreate. rewrite Hc.
    split; [done | apply Hfac].
Qed.

Lemma X14_only_output_file_touched_witness :
  ∃ w', TMVA_RNN_Classification cpu_build 0 stocked = Some w' ∧
    fs w' !! inputFileName = Some (RootFile stocked_keys) ∧
    (∀ name, name ≠ outfileName cpu_build →
       fs w' !! name = fs (prologue cpu_build stocked) !! name) ∧
    (can_create stocked (outfileName cpu_build) = true →
       fs w' !! outfileName cpu_build = Some (RootFile ∅) ∧
       NewFactory "TMVAClassification" (Some (outfileName cpu_build)) factoryOptions
         ∈ trace w') ∧
    (can_create stocked (outfileName cpu_build) = false →
       fs w' = fs (prologue cpu_build stocked) ∧
       NewFactory "TMVAClassification" None factoryOptions ∈ trace w').
Proof.
  apply (X14_only_output_file_touched CounterLib cpu_build 0 stocked
           (prologue cpu_build stocked) stocked_keys); reflexivity.
Defined.

(** X15. The warning is not acted upon: in a build with neither GPU nor
    multi-threaded CPU support the macro warns that the deep-learning
    method cannot be used, and then, once the input file is open, books
    that method all the same, for the CPU architecture. *)
Theorem X15_warning_then_booking (L : RandomLib) (b : Build) (use_type : Z)
    (w w1 : World L) (keys : gmap string TTree) :
  R__HAS_TMVAGPU b = false → R__HAS_TMVACPU b = false →
  ensure_input (prologue b w) = Some w1 →
  TFile_Open (fs w1) inputFileName = Some keys →
  ∃ w', TMVA_RNN_Classification b use_type w = Some w' ∧
    backend_warning ∈ trace w' ∧
    booked (trace w') = booked (trace w) ++ [(rnnName use_type, rnnOptions b use_type)] ∧
    option_value ":" "Architecture" (rnnOptions b use_type) = Some "CPU".
Proof.
  intros Hg Hc He Ho.
  destruct (success_path b use_type w w1 keys He Ho) as (Hres & Hq & evs & Htr & Hev).
  eexists. split; [exact Hres|]. split; [|split].
  - rewrite book_rnn_trace. apply elem_of_app. left.
    destruct (ensure_input_spec (prologue b w)) as (w1' & He' & Hq1 & _).
    rewrite He in He'. injection He' as <-.
    apply (quiet_elem (prologue b w)); [done|]. by apply warning_in_prologue.
  - rewrite book_rnn_trace, (booked_after_quiet w _ _ Hq). by rewrite booked_book_events.
  - destruct b as [gpu cpu py]. simpl in Hg. subst gpu. by vm_compute.
Qed.

Lemma X15_warning_then_booking_witness :
  ∃ w', TMVA_RNN_Classification (mkBuild false false false) 0 stocked = Some w' ∧
    backend_warning ∈ trace w' ∧
    booked (trace w')
    = booked (trace stocked) ++ [(rnnName 0, rnnOptions (mkBuild false false false) 0)] ∧
    option_value ":" "Architecture" (rnnOptions (mkBuild false false false) 0) = Some "CPU".
Proof.
  apply (X15_warning_then_booking CounterLib (mkBuild false false false) 0 stocked
           (prologue (mkBuild false false false) stocked) stocked_keys); reflexivity.
Defined.

(** X16. A second call reuses the data set: after a call that booked the
    method, another call, with any selector and build, finds the input
    file, does not generate, reads the same trees and books again; its
    events are the set-up lines followed by the booking events. *)
Theorem X16_second_call_reuses_file (L : RandomLib) (b b2 : Build) (use_type use_type2 : Z)
    (w w1 : World L) (keys : gmap string TTree) :
  ensure_input (prologue b w) = Some w1 →
  TFile_Open (fs w1) inputFileName = Some keys →
  ∃ w' w'', TMVA_RNN_Classification b use_type w = Some w' ∧
    TMVA_RNN_Classification b2 use_type2 w' = Some w'' ∧
    trace w'' = trace (prologue b2 w')
                ++ book_events b2 use_type2 keys
                     (if can_create w (outfileName b2) then Some (outfileName b2) else None) ∧
    gRandom w'' = gRandom w' ∧
    fs w'' !! inputFileName = Some (RootFile keys) ∧
    booked (trace w'') = booked (trace w)
                         ++ [(rnnName use_type, rnnOptions b use_type);
                             (rnnName use_type2, rnnOptions b2 use_type2)].
Proof.
  intros He Ho.
  destruct (success_path b use_type w w1 keys He Ho) as (Hres & Hq & evs & Htr & Hev).
  set (w' := book_rnn b use_type keys w1) in *.
  assert (Hin : fs w' !! inputFileName = Some (RootFile keys)).
  { unfold w'. rewrite book_rnn_fs. unfold recreate.
    destruct (can_create w1 (outfileName b));
      rewrite ?lookup_insert_ne by apply outfile_ne_input;
      unfold TFile_Open in Ho; destruct (fs w1 !! inputFileName) as [[|k]|]; try done;
      by injection Ho as ->. }
  destruct (prologue_spec b2 w') as [Hfs2 Hq2].
  assert (He2 : ensure_input (prologue b2 w') = Some (prologue b2 w')).
  { apply ensure_existing. rewrite Hfs2, Hin. by eexists. }
  assert (Ho2 : TFile_Open (fs (prologue b2 w')) inputFileName = Some keys).
  { unfold TFile_Open. by rewrite Hfs2, Hin. }
  destruct (success_path b2 use_type2 w' _ keys He2 Ho2) as (Hres2 & _ & _).
  assert (Hcan : can_create (prologue b2 w') = can_create w).
  { destruct Hq2 as [-> _]. unfold w'.
    transitivity (can_create w1); [|by destruct Hq].
    unfold book_rnn. cbv zeta.
    repeat first [rewrite can_create_say | rewrite can_create_add_variables
                 | rewrite can_create_set_fs]. done. }
  exists w', (book_rnn b2 use_type2 keys (prologue b2 w')).
  split; [exact Hres|]. split; [exact Hres2|]. split; [|split; [|split]].
  - by rewrite book_rnn_trace, Hcan.
  - rewrite book_rnn_gRandom. apply prologue_gRandom.
  - rewrite book_rnn_fs, Hfs2. unfold recreate.
    destruct (can_create (prologue b2 w') (outfileName b2)); [|done].
    by rewrite lookup_insert_ne by apply outfile_ne_input.
  - rewrite book_rnn_trace, (booked_after_quiet w' _ _ Hq2), booked_book_events.
    unfold w'. rewrite book_rnn_trace, (booked_after_quiet w _ _ Hq), booked_book_events.
    by rewrite <- app_assoc.
Qed.

Lemma X16_second_call_reuses_file_witness :
  ∃ w' w'', TMVA_RNN_Classification cpu_build 0 stocked = Some w' ∧
    TMVA_RNN_Classification cpu_build 2 w' = Some w'' ∧
    trace w'' = trace (prologue cpu_build w')
                ++ book_events cpu_build 2 stocked_keys
                     (if can_create stocked (outfileName cpu_build)
                      then Some (outfileName cpu_build) else None) ∧
    gRandom w'' = gRandom w' ∧
    fs w'' !! inputFileName = Some (RootFile stocked_keys) ∧
    booked (trace w'') = booked (trace stocked)
                         ++ [(rnnName 0, rnnOptions cpu_build 0);
                             (rnnName 2, rnnOptions cpu_build 2)].
Proof.
  apply (X16_second_call_reuses_file CounterLib cpu_build cpu_build 0 2 stocked
           (prologue cpu_build stocked) stocked_keys); reflexivity.
Defined.

(** ** End to end, and the empty run *)

Lemma run_world (L : RandomLib) (n T D : Z) (w : World L) (g : Gen L) (w' : World L) :
  MakeTimeData_run L n T D w = Some (g, w') →
  gRandom w' = rnd g ∧ sys_entropy w' = (lib_SetSeed L 0 (sys_entropy w)).2 ∧
  nthreads w' = nthreads w.
Proof.
  unfold MakeTimeData_run.
  destruct (decide (T < 0 ∨ 0 < T ∧ D < 0)); [done|].
  destruct (lib_SetSeed L 0 (sys_entropy w)) as [r e]. simpl.
  destruct (decide (1 < n)); by intros [= <- <-].
Qed.

(** X17. On a disk where the input file is missing and can be created, one
    call does everything in this order: the set-up lines, the generation of
    10000 events (ten progress lines, two tree print-outs), then the
    booking events with the two generated trees, of 10000 entries each,
    handed to the data loader; afterwards the input file holds exactly
    these two trees under the keys [sgn] and [bkg]. *)
Theorem X17_fresh_disk_end_to_end (L : RandomLib) (b : Build) (use_type : Z) (w : World L) :
  fs w !! inputFileName = None → can_create w inputFileName = true →
  ∃ w' s bk,
    TMVA_RNN_Classification b use_type w = Some w' ∧
    trace w' = trace (prologue b w)
               ++ progress_lines (Z.to_nat nTotEvts)
               ++ [TreePrint "sgn"; TreePrint "bkg"]
               ++ book_events b use_type (<["bkg" := bk]> (<["sgn" := s]> ∅))
                    (if can_create w (outfileName b) then Some (outfileName b) else None) ∧
    AddSignalTree (Some s) 1 ∈ trace w' ∧
    AddBackgroundTree (Some bk) 1 ∈ trace w' ∧
    length (t_entries s) = Z.to_nat nTotEvts ∧
    length (t_entries bk) = Z.to_nat nTotEvts ∧
    fs w' !! inputFileName = Some (RootFile (<["bkg" := bk]> (<["sgn" := s]> ∅))).
Proof.
  intros Hmiss Hcan. destruct (prologue_spec b w) as [Hfs0 Hq0].
  destruct (ensure_missing (prologue b w)) as (w1 & He & Hok); [by rewrite Hfs0|].
  set (g := final_state L nTotEvts ntime ninput (prologue b w)) in *.
  assert (Hcan0 : can_create (prologue b w) = can_create w) by (by destruct Hq0).
  assert (Hcan1 : can_create w1 = can_create w).
  { destruct Hok as [_ _ -> _]. done. }
  assert (Hfile : fs w1 !! inputFileName
                  = Some (RootFile (<["bkg" := bkg g]> (<["sgn" := sgn g]> ∅)))).
  { destruct Hok as [_ -> _ _]. unfold write_trees.
    destruct (decide (1 < nTotEvts)) as [_|Hn]; [|done].
    rewrite Hcan0, fname_input, Hcan. by rewrite lookup_insert_eq. }
  assert (Ho : TFile_Open (fs w1) inputFileName
               = Some (<["bkg" := bkg g]> (<["sgn" := sgn g]> ∅))).
  { unfold TFile_Open. by rewrite Hfile. }
  assert (Htr1 : trace w1 = trace (prologue b w)
                            ++ progress_lines (Z.to_nat nTotEvts)
                            ++ [TreePrint "sgn"; TreePrint "bkg"]).
  { destruct Hok as [_ _ _ ->]. unfold g. by rewrite final_state_out. }
  destruct (run_count L _ _ _ _ _ _ Hok) as [Cs Cb].
  clearbody g.
  destruct (success_path b use_type w w1 _ He Ho) as (Hres & _ & _).
  destruct (book_events_members b use_type (<["bkg" := bkg g]> (<["sgn" := sgn g]> ∅))
              (if can_create w (outfileName b) then Some (outfileName b) else None))
    as (Hsig & Hbkg & _).
  rewrite lookup_insert_ne, lookup_insert_eq in Hsig by done.
  rewrite lookup_insert_eq in Hbkg.
  assert (Htr : trace (book_rnn b use_type (<["bkg" := bkg g]> (<["sgn" := sgn g]> ∅)) w1)
                = trace (prologue b w)
                  ++ progress_lines (Z.to_nat nTotEvts)
                  ++ [TreePrint "sgn"; TreePrint "bkg"]
                  ++ book_events b use_type (<["bkg" := bkg g]> (<["sgn" := sgn g]> ∅))
                       (if can_create w (outfileName b)
                        then Some (outfileName b) else None)).
  { rewrite book_rnn_trace, Htr1, Hcan1, <- !app_assoc. reflexivity. }
  exists (book_rnn b use_type (<["bkg" := bkg g]> (<["sgn" := sgn g]> ∅)) w1),
         (sgn g), (bkg g).
  split; [exact Hres|]. split; [exact Htr|].
  split; [rewrite Htr, !app_assoc; apply elem_of_app; by right|].
  split; [rewrite Htr, !app_assoc; apply elem_of_app; by right|].
  split; [exact Cs|]. split; [exact Cb|].
  rewrite book_rnn_fs. unfold recreate.
  destruct (can_create w1 (outfileName b)); [|exact Hfile].
  rewrite lookup_insert_ne by apply outfile_ne_input. exact Hfile.
Qed.

Lemma X17_fresh_disk_end_to_end_witness :
  ∃ w' s bk,
    TMVA_RNN_Classification cpu_build 1 (blank 0) = Some w' ∧
    trace w' = trace (prologue cpu_build (blank 0))
               ++ progress_lines (Z.to_nat nTotEvts)
               ++ [TreePrint "sgn"; TreePrint "bkg"]
               ++ book_events cpu_build 1 (<["bkg" := bk]> (<["sgn" := s]> ∅))
                    (if can_create (blank 0) (outfileName cpu_build)
                     then Some (outfileName cpu_build) else None) ∧
    AddSignalTree (Some s) 1 ∈ trace w' ∧
    AddBackgroundTree (Some bk) 1 ∈ trace w' ∧
    length (t_entries s) = Z.to_nat nTotEvts ∧
    length (t_entries bk) = Z.to_nat nTotEvts ∧
    fs w' !! inputFileName = Some (RootFile (<["bkg" := bk]> (<["sgn" := s]> ∅))).
Proof.
  apply (X17_fresh_disk_end_to_end CounterLib cpu_build 1 (blank 0)); reflexivity.
Defined.

(** X18. A run for no event ([n ≤ 0]) prints nothing and makes no random
    draw: both trees have their branches and no entry, the console is
    unchanged, the generator is left in the state installed by the seeding
    call, and the file, when it can be created, is created empty. *)
Theorem X18_no_events (L : RandomLib) (n T D : Z) (w : World L) :
  0 ≤ T → 0 ≤ D → n ≤ 0 →
  ∃ g w', MakeTimeData_run L n T D w = Some (g, w') ∧
    t_entries (sgn g) = [] ∧ t_entries (bkg g) = [] ∧
    br_name <$> t_branches (sgn g) = branch_names T ∧
    br_name <$> t_branches (bkg g) = branch_names T ∧
    trace w' = trace w ∧
    gRandom w' = (lib_SetSeed L 0 (sys_entropy w)).1 ∧
    (can_create w (fname T D) = true → fs w' !! fname T D = Some (RootFile ∅)) ∧
    (can_create w (fname T D) = false → fs w' = fs w).
Proof.
  intros HT HD Hn.
  destruct (MakeTimeData_run_ok L n T D w) as (g & w' & Hrun & Hok); [done..|].
  exists g, w'. split; [done|].
  destruct (run_count L _ _ _ _ _ _ Hok) as [Cs Cb].
  destruct (run_branches L _ _ _ _ _ _ Hok) as [Bs Bb].
  destruct (run_world L _ _ _ _ _ _ Hrun) as (Hr & _ & _).
  assert (Hg : g = gen_init L T D (lib_SetSeed L 0 (sys_entropy w)).1).
  { rewrite (run_state L _ _ _ _ _ _ Hrun). unfold final_state, loop_state.
    destruct (decide (1 < n)); [lia|]. by replace (Z.to_nat n) with 0%nat by lia. }
  split; [apply length_zero_iff_nil; lia|].
  split; [apply length_zero_iff_nil; lia|].
  do 2 (split; [done|]).
  split; [|split; [|split]].
  - destruct Hok as [_ _ _ ->]. rewrite Hg. simpl. by rewrite app_nil_r.
  - by rewrite Hr, Hg.
  - intros Hcan. apply (run_not_stored L _ _ _ _ _ _ Hok); [lia|done].
  - intros Hcan. destruct Hok as [_ -> _ _].
    destruct (decide (1 < n)); [lia|]. unfold recreate. by rewrite Hcan.
Qed.

Lemma X18_no_events_witness :
  ∃ g w', MakeTimeData_run CounterLib 0 2 4 (blank 5) = Some (g, w') ∧
    t_entries (sgn g) = [] ∧ t_entries (bkg g) = [] ∧
    br_name <$> t_branches (sgn g) = branch_names 2 ∧
    br_name <$> t_branches (bkg g) = branch_names 2 ∧
    trace w' = trace (blank 5) ∧
    gRandom w' = (lib_SetSeed CounterLib 0 (sys_entropy (blank 5))).1 ∧
    (can_create (blank 5) (fname 2 4) = true → fs w' !! fname 2 4 = Some (RootFile ∅)) ∧
    (can_create (blank 5) (fname 2 4) = false → fs w' = fs (blank 5)).
Proof. apply (X18_no_events CounterLib 0 2 4 (blank 5)); lia. Defined.

(** * The error path and the split, in full *)

Section PrologueTrace.
Context {L : RandomLib}.
Implicit Types (w : World L).

Lemma nthreads_say (e : Event) w : nthreads (say e w) = nthreads w.
Proof. done. Qed.

Lemma warn_no_backend_trace (b : Build) w :
  trace (warn_no_backend b w)
  = trace w ++ (if negb (R__HAS_TMVAGPU b) && negb (R__HAS_TMVACPU b)
                then [backend_warning] else []) ∧
  nthreads (warn_no_backend b w) = nthreads w.
Proof.
  unfold warn_no_backend. destruct (_ && _); [done|]. by rewrite app_nil_r.
Qed.

Lemma init_python_trace (b : Build) w :
  trace (init_python b w) = trace w ++ (if R__HAS_PYMVA b then [PyInitialize] else []) ∧
  nthreads (init_python b w) = nthreads w.
Proof.
  unfold init_python. destruct (R__HAS_PYMVA b); [done|]. by rewrite app_nil_r.
Qed.

Lemma enable_threads_trace w :
  trace (enable_threads w) = trace w ++ [EnableImplicitMT num_threads] ∧
  nthreads (enable_threads w) = nthreads w.
Proof.
  unfold enable_threads.
  destruct (decide (0 ≤ num_threads)) as [_|Hn]; [|by unfold num_threads in Hn].
  destruct (decide (0 < num_threads)) as [Hn|_]; [by unfold num_threads in Hn|done].
Qed.

(** The set-up part of the macro emits exactly [prologue_events]. *)
Lemma prologue_trace (b : Build) w :
  trace (prologue b w) = trace w ++ prologue_events b (nthreads w).
Proof.
  unfold prologue, prologue_events. cbv zeta.
  rewrite !trace_say, !nthreads_say.
  destruct (enable_threads_trace (init_python b (warn_no_backend b w))) as [-> ->].
  destruct (init_python_trace b (warn_no_backend b w)) as [-> ->].
  destruct (warn_no_backend_trace b w) as [-> ->].
  rewrite <- !app_assoc. reflexivity.
Qed.

(** The conditional generation emits exactly [generation_events]. *)
Lemma ensure_input_trace w w1 :
  ensure_input w = Some w1 → trace w1 = trace w ++ generation_events (fs w).
Proof.
  intros He. unfold generation_events.
  destruct (file_exists (fs w) inputFileName) eqn:Hex.
  - unfold ensure_input in He. rewrite Hex in He. injection He as <-.
    by rewrite app_nil_r.
  - destruct (ensure_missing w) as (w1' & He' & Hok).
    { unfold file_exists in Hex. apply bool_decide_eq_false in Hex.
      destruct (fs w !! inputFileName) eqn:E; [|done]. destruct Hex. by eexists. }
    rewrite He in He'. injection He' as <-.
    destruct Hok as [_ _ _ ->]. by rewrite final_state_out.
Qed.
End PrologueTrace.

Lemma booked_app (l1 l2 : list Event) : booked (l1 ++ l2) = booked l1 ++ booked l2.
Proof. apply omap_app. Qed.

Lemma prologue_events_quiet (b : Build) (nth : Z) :
  Forall (λ e, training_side e = false) (prologue_events b nth).
Proof.
  unfold prologue_events. repeat (apply Forall_app; split).
  - destruct (_ && _); by repeat constructor.
  - destruct (R__HAS_PYMVA b); by repeat constructor.
  - by repeat constructor.
Qed.

Lemma progress_lines_quiet (u : nat) :
  Forall (λ e, training_side e = false) (progress_lines u).
Proof. unfold progress_lines. apply Forall_fmap, Forall_forall. by intros i _. Qed.

Lemma generation_events_quiet (m : gmap string disk_file) :
  Forall (λ e, training_side e = false) (generation_events m).
Proof.
  unfold generation_events. destruct (file_exists m inputFileName); [constructor|].
  apply Forall_app. split; [apply progress_lines_quiet | by repeat constructor].
Qed.

(** C8. If the input file cannot be opened after the generation attempt,
    the macro emits [Error("TMVA_RNN_Classification", "Error opening input
    file time_data_t10_d30.root - exit")] and returns.  Its events are
    then exactly: the set-up events (the optional warning and Python start,
    the thread set-up, [TMVA::Config::Instance()], the thread line), the
    events of the generation when the file was missing, and the error as
    the last one.  No factory or data loader is created, no variable is
    declared, no tree added, no split prepared and no method booked, and
    no file is created or changed after the attempt. *)
Theorem C8_open_failure (L : RandomLib) (b : Build) (use_type : Z) (w w1 : World L) :
  ensure_input (prologue b w) = Some w1 →
  TFile_Open (fs w1) inputFileName = None →
  ∃ w', TMVA_RNN_Classification b use_type w = Some w' ∧
    trace w' = trace w
               ++ prologue_events b (nthreads w)
               ++ generation_events (fs w)
               ++ [RootError "TMVA_RNN_Classification"
                     "Error opening input file time_data_t10_d30.root - exit"] ∧
    Forall (λ e, training_side e = false)
           (prologue_events b (nthreads w) ++ generation_events (fs w)) ∧
    booked (trace w') = booked (trace w) ∧
    declared (trace w') = declared (trace w) ∧
    fs w' = fs w1.
Proof.
  intros He Ho. exists (say open_error w1).
  split; [exact (error_path b use_type w w1 He Ho)|].
  destruct (prologue_spec b w) as [Hfs0 _].
  assert (Htr : trace (say open_error w1)
                = trace w ++ prologue_events b (nthreads w) ++ generation_events (fs w)
                  ++ [RootError "TMVA_RNN_Classification"
                        "Error opening input file time_data_t10_d30.root - exit"]).
  { rewrite trace_say, (ensure_input_trace _ _ He), prologue_trace, Hfs0.
    rewrite <- !app_assoc. reflexivity. }
  assert (Hq : Forall (λ e, training_side e = false)
                 (prologue_events b (nthreads w) ++ generation_events (fs w))).
  { apply Forall_app. split; [apply prologue_events_quiet | apply generation_events_quiet]. }
  split; [exact Htr|]. split; [exact Hq|]. split; [|split; [|done]].
  - rewrite Htr, !booked_app, (booked_quiet _ (prologue_events_quiet b (nthreads w))),
      (booked_quiet _ (generation_events_quiet (fs w))).
    by rewrite !app_nil_r.
  - rewrite Htr, !declared_app, (declared_quiet _ (prologue_events_quiet b (nthreads w))),
      (declared_quiet _ (generation_events_quiet (fs w))).
    by rewrite !app_nil_r.
Qed.

Lemma C8_open_failure_witness :
  ∃ w', TMVA_RNN_Classification cpu_build 1 spoiled = Some w' ∧
    trace w' = trace spoiled
               ++ prologue_events cpu_build (nthreads spoiled)
               ++ generation_events (fs spoiled)
               ++ [RootError "TMVA_RNN_Classification"
                     "Error opening input file time_data_t10_d30.root - exit"] ∧
    Forall (λ e, training_side e = false)
           (prologue_events cpu_build (nthreads spoiled) ++ generation_events (fs spoiled)) ∧
    booked (trace w') = booked (trace spoiled) ∧
    declared (trace w') = declared (trace spoiled) ∧
    fs w' = fs (prologue cpu_build spoiled).
Proof.
  apply (C8_open_failure CounterLib cpu_build 1 spoiled (prologue cpu_build spoiled));
    reflexivity.
Defined.

(** * The split and the loaded events *)

Section OpenPath.
Context {L : RandomLib}.
Implicit Types (w : World L).

(** What the macro hands to the toolkit once the input file is open. *)
Lemma open_path_members (b : Build) (use_type : Z) w w1 (keys : gmap string TTree) :
  ensure_input (prologue b w) = Some w1 →
  TFile_Open (fs w1) inputFileName = Some keys →
  ∃ w', TMVA_RNN_Classification b use_type w = Some w' ∧
    AddSignalTree (keys !! "sgn") 1 ∈ trace w' ∧
    AddBackgroundTree (keys !! "bkg") 1 ∈ trace w' ∧
    PrepareTrainingAndTestTree "" "" prepareOptions ∈ trace w' ∧
    booked (trace w') = booked (trace w) ++ [(rnnName use_type, rnnOptions b use_type)].
Proof.
  intros He Ho.
  destruct (success_path b use_type w w1 keys He Ho) as (Hrun & _ & evs & Htr & Hev).
  exists (book_rnn b use_type keys w1). split; [exact Hrun|].
  rewrite Htr.
  set (o := if can_create w1 _ then _ else _).
  destruct (book_events_members b use_type keys o) as (Hsig & Hbkg & Hprep).
  repeat split; try (rewrite !elem_of_app; by right; right).
  by rewrite !booked_app, (booked_quiet evs Hev), booked_book_events.
Qed.

(** A missing input file that can be created is generated, and the file
    then opens on the two trees of [nTotEvts] entries. *)
Lemma generated_input (b : Build) w :
  fs w !! inputFileName = None → can_create w inputFileName = true →
  ∃ w1 (keys : gmap string TTree) s bk,
    ensure_input (prologue b w) = Some w1 ∧
    TFile_Open (fs w1) inputFileName = Some keys ∧
    keys !! "sgn" = Some s ∧ keys !! "bkg" = Some bk ∧
    Z.of_nat (length (t_entries s)) = nTotEvts ∧
    Z.of_nat (length (t_entries bk)) = nTotEvts.
Proof.
  intros Hmiss Hcan.
  destruct (prologue_spec b w) as [Hfs0 [Hc0 _]].
  destruct (ensure_input_spec (prologue b w)) as (w1 & He & _ & _ & Hgen).
  destruct Hgen as [g Hok].
  { unfold file_exists. apply bool_decide_eq_false. rewrite Hfs0, Hmiss. by intros [? ?]. }
  destruct (run_stored _ _ _ _ _ _ _ Hok) as (keys & Hfile & Hs & Hb);
    [done | by rewrite Hc0, fname_input |].
  rewrite fname_input in Hfile.
  destruct (run_count _ _ _ _ _ _ _ Hok) as [Cs Cb].
  exists w1, keys, (sgn g), (bkg g).
  split; [exact He|]. split; [unfold TFile_Open; by rewrite Hfile|].
  split; [exact Hs|]. split; [exact Hb|].
  rewrite Cs, Cb. by vm_compute.
Qed.
End OpenPath.

(** C9, as stated, fails: the numbers asked of the
    toolkit are constants of the macro, not a share of the events it
    loads.  After [MakeTimeData(5, 10, 30)] the input file exists and holds
    trees of 5 entries; the macro does not generate again, hands the
    5-entry signal tree to the data loader, and still asks for 8000
    training events of the signal class. *)
Lemma C9_split_not_of_loaded_events :
  ∃ (w1 w' : World CounterLib) (s : TTree),
    MakeTimeData CounterLib 5 ntime ninput (blank 0) = Some w1 ∧
    TMVA_RNN_Classification cpu_build 1 w1 = Some w' ∧
    AddSignalTree (Some s) 1 ∈ trace w' ∧
    length (t_entries s) = 5%nat ∧
    PrepareTrainingAndTestTree "" "" prepareOptions ∈ trace w' ∧
    option_value ":" "nTrain_Signal" prepareOptions = Some "8000" ∧
    ¬ asks_eighty_percent (trace w').
Proof.
  destruct (MakeTimeData_run_ok CounterLib 5 ntime ninput (blank 0)) as (g & w1 & Hrun & Hok);
    [done..|].
  destruct (run_stored _ _ _ _ _ _ _ Hok) as (keys & Hfile & Hs & _); [done|done|].
  rewrite fname_input in Hfile.
  destruct (run_count _ _ _ _ _ _ _ Hok) as [Cs _].
  change (Z.to_nat 5) with 5%nat in Cs.
  destruct (prologue_spec cpu_build w1) as [Hfs0 _].
  assert (He : ensure_input (prologue cpu_build w1) = Some (prologue cpu_build w1)).
  { apply ensure_existing. rewrite Hfs0, Hfile. by eexists. }
  assert (Ho : TFile_Open (fs (prologue cpu_build w1)) inputFileName = Some keys).
  { unfold TFile_Open. by rewrite Hfs0, Hfile. }
  destruct (open_path_members cpu_build 1 w1 _ keys He Ho) as (w' & Hw' & Hsig & _ & Hprep & _).
  rewrite Hs in Hsig.
  exists w1, w', (sgn g).
  split; [unfold MakeTimeData; by rewrite Hrun|].
  split; [exact Hw'|]. split; [exact Hsig|]. split; [exact Cs|].
  split; [exact Hprep|]. split; [by vm_compute|].
  intros Hask. specialize (Hask (sgn g) "" "" prepareOptions Hsig Hprep).
  rewrite Cs in Hask. clear -Hask. vm_compute in Hask. discriminate Hask.
Qed.

(** C9, amended.  Whenever the input file opens, the macro hands the
    trees [sgn] and [bkg] of that file to the data loader, asks for the
    fixed numbers of 8000 training events of each class, drawn at random
    with the split seed 100, whatever the trees hold, and books one method
    whose options give the learning rate 1e-3, the batch size 100, at most
    20 epochs, the weight decay 1e-2, the ADAM optimizer, the cross-entropy
    loss and the Xavier-uniform initialisation.  The 8000 are eight tenths
    of the events loaded, with 2000 left of each class, when the macro
    generated the input file itself: the file was missing and could be
    created, so that the trees hold [nTotEvts = 10000] entries each. *)
Theorem C9_split_and_training (L : RandomLib) (b : Build) (use_type : Z) (w : World L) :
  (∀ (w1 : World L) (keys : gmap string TTree),
     ensure_input (prologue b w) = Some w1 →
     TFile_Open (fs w1) inputFileName = Some keys →
     ∃ w', TMVA_RNN_Classification b use_type w = Some w' ∧
       AddSignalTree (keys !! "sgn") 1 ∈ trace w' ∧
       AddBackgroundTree (keys !! "bkg") 1 ∈ trace w' ∧
       PrepareTrainingAndTestTree "" "" prepareOptions ∈ trace w' ∧
       booked (trace w') = booked (trace w) ++ [(rnnName use_type, rnnOptions b use_type)]) ∧
  (fs w !! inputFileName = None → can_create w inputFileName = true →
     ∃ w' s bk, TMVA_RNN_Classification b use_type w = Some w' ∧
       AddSignalTree (Some s) 1 ∈ trace w' ∧
       AddBackgroundTree (Some bk) 1 ∈ trace w' ∧
       PrepareTrainingAndTestTree "" "" prepareOptions ∈ trace w' ∧
       Z.of_nat (length (t_entries s)) = nTotEvts ∧
       Z.of_nat (length (t_entries bk)) = nTotEvts ∧
       10 * nTrainSig = 8 * Z.of_nat (length (t_entries s)) ∧
       10 * nTrainBkg = 8 * Z.of_nat (length (t_entries bk)) ∧
       Z.of_nat (length (t_entries s)) - nTrainSig = 2000 ∧
       Z.of_nat (length (t_entries bk)) - nTrainBkg = 2000 ∧
       option_value ":" "nTrain_Signal" prepareOptions
       = Some (pretty ((8 * Z.of_nat (length (t_entries s))) `quot` 10)) ∧
       option_value ":" "nTrain_Background" prepareOptions
       = Some (pretty ((8 * Z.of_nat (length (t_entries bk))) `quot` 10))) ∧
  (option_value ":" "nTrain_Signal" prepareOptions = Some "8000" ∧
   option_value ":" "nTrain_Background" prepareOptions = Some "8000" ∧
   option_value ":" "SplitMode" prepareOptions = Some "Random" ∧
   option_value ":" "SplitSeed" prepareOptions = Some "100") ∧
  (option_value ":" "TrainingStrategy" (rnnOptions b use_type) = Some trainingString1 ∧
   option_value "," "LearningRate" trainingString1 = Some "1e-3" ∧
   option_value "," "BatchSize" trainingString1 = Some "100" ∧
   option_value "," "MaxEpochs" trainingString1 = Some "20" ∧
   option_value "," "WeightDecay" trainingString1 = Some "1e-2" ∧
   option_value "," "Optimizer" trainingString1 = Some "ADAM" ∧
   option_value ":" "ErrorStrategy" (rnnOptions b use_type) = Some "CROSSENTROPY" ∧
   option_value ":" "WeightInitialization" (rnnOptions b use_type) = Some "XAVIERUNIFORM").
Proof.
  split; [intros w1 keys He Ho; exact (open_path_members b use_type w w1 keys He Ho)|].
  split; [|split; [exact prepare_options_values | exact (training_values b use_type)]].
  intros Hmiss Hcan.
  destruct (generated_input b w Hmiss Hcan) as (w1 & keys & s & bk & He & Ho & Hs & Hb & Cs & Cb).
  destruct (open_path_members b use_type w w1 keys He Ho) as (w' & Hw' & Hsig & Hbkg & Hprep & _).
  rewrite Hs in Hsig. rewrite Hb in Hbkg.
  exists w', s, bk.
  split; [exact Hw'|]. split; [exact Hsig|]. split; [exact Hbkg|]. split; [exact Hprep|].
  rewrite Cs, Cb. clear. by vm_compute.
Qed.

Lemma C9_split_and_training_witness :
  (∃ w', TMVA_RNN_Classification cpu_build 0 stocked = Some w' ∧
     AddSignalTree (stocked_keys !! "sgn") 1 ∈ trace w' ∧
     AddBackgroundTree (stocked_keys !! "bkg") 1 ∈ trace w' ∧
     PrepareTrainingAndTestTree "" "" prepareOptions ∈ trace w' ∧
     booked (trace w') = booked (trace stocked) ++ [(rnnName 0, rnnOptions cpu_build 0)]) ∧
  (∃ w' s bk, TMVA_RNN_Classification cpu_build 0 (blank 0) = Some w' ∧
     AddSignalTree (Some s) 1 ∈ trace w' ∧
     AddBackgroundTree (Some bk) 1 ∈ trace w' ∧
     PrepareTrainingAndTestTree "" "" prepareOptions ∈ trace w' ∧
     Z.of_nat (length (t_entries s)) = nTotEvts ∧
     Z.of_nat (length (t_entries bk)) = nTotEvts ∧
     10 * nTrainSig = 8 * Z.of_nat (length (t_entries s)) ∧
     10 * nTrainBkg = 8 * Z.of_nat (length (t_entries bk)) ∧
     Z.of_nat (length (t_entries s)) - nTrainSig = 2000 ∧
     Z.of_nat (length (t_entries bk)) - nTrainBkg = 2000 ∧
     option_value ":" "nTrain_Signal" prepareOptions
     = Some (pretty ((8 * Z.of_nat (length (t_entries s))) `quot` 10)) ∧
     option_value ":" "nTrain_Background" prepareOptions
     = Some (pretty ((8 * Z.of_nat (length (t_entries bk))) `quot` 10))).
Proof.
  split.
  - apply (proj1 (C9_split_and_training CounterLib cpu_build 0 stocked)
             (prologue cpu_build stocked) stocked_keys); reflexivity.
  - apply (proj1 (proj2 (C9_split_and_training CounterLib cpu_build 0 (blank 0))));
      reflexivity.
Defined.
